(** * eink-calendar: the frame-composition pipeline of [render.py]

    A shallow embedding of [eventsToDays], [allDay], [renderFrame], the
    glyph table [WeatherToMeteoGlyph] and the control flow of [main], with
    the properties of the specification stated over it.

    Conventions of the embedding:
    - a naive [datetime] is the number of microseconds since the midnight
      that starts proleptic Gregorian ordinal 0, so that [d.date()] is the
      ordinal [d / usec_per_day] (what [date.toordinal()] returns) and
      comparison, subtraction and equality are those of [Z];
    - one run reads the clock many times; the readings are identified with
      a single value [now];
    - drawing on the two [PIL] images is recorded as the list of drawing
      calls in program order, each tagged with the plane it draws on; the
      rasterisation of fonts is outside the model, so that a text is known
      by its anchor and not by the pixels of its glyphs;
    - the calls that [PIL] refuses, an image of a negative size and a
      rectangle whose second corner lies before the first, raise
      [ValueError];
    - a Python exception that the code does not catch is a [Raise] result;
    - the calls on the e-paper device and the saving of the images are
      effects of the run that succeed: a failure of the host there is
      outside the model, while a cache file that cannot be written is in
      it. *)

From Stdlib Require Import ZArith List String Ascii Bool Lia.
From stdpp Require Import base numbers option list sorting strings pretty gmap.

Local Open Scope Z_scope.

(** ** Exceptions *)

Inductive exn : Type :=
| KeyError
| IndexError
| OverflowError
| JSONDecodeError
| FileNotFoundError
| ImportError
| ValueError
| OSError.

Inductive result (A : Type) : Type :=
| Ok (a : A)
| Raise (e : exn).
Arguments Ok {A} a.
Arguments Raise {A} e.

Global Instance result_ret : MRet result := λ A a, Ok a.
Global Instance result_bind : MBind result := λ A B f m,
  match m with Ok a => f a | Raise e => Raise e end.
Global Instance result_fmap : FMap result := λ A B f m,
  match m with Ok a => Ok (f a) | Raise e => Raise e end.

Definition is_Ok {A} (r : result A) : Prop := ∃ a, r = Ok a.

(** ** The [datetime] module *)

Module Py.

Abbreviation datetime := Z (only parsing).
Abbreviation date := Z (only parsing).

Definition usec_per_second : Z := 1000000.
Definition usec_per_minute : Z := 60 * usec_per_second.
Definition usec_per_hour : Z := 60 * usec_per_minute.
Definition usec_per_day : Z := 24 * usec_per_hour.

(** [dt.date()], as an ordinal. *)
Definition date_of (dt : datetime) : date := dt / usec_per_day.
(** [dt.time().hour], [.minute], [.second]. *)
Definition hour (dt : datetime) : Z := (dt mod usec_per_day) / usec_per_hour.
Definition minute (dt : datetime) : Z := (dt mod usec_per_hour) / usec_per_minute.
Definition second (dt : datetime) : Z := (dt mod usec_per_minute) / usec_per_second.

(** [(a - b).days]: a [timedelta] is normalised so that its seconds and
    microseconds are non-negative, hence [days] is the floor. *)
Definition timedelta_days (delta : Z) : Z := delta / usec_per_day.

(** [datetime.min] and [datetime.max] (years 1 to 9999). *)
Definition min_ordinal : Z := 1.
Definition max_ordinal : Z := 3652059.
Definition representable (dt : Z) : Prop :=
  min_ordinal * usec_per_day ≤ dt < (max_ordinal + 1) * usec_per_day.
Global Instance representable_dec dt : Decision (representable dt).
Proof. unfold representable. apply _. Defined.

(** [timedelta(hours=h)]: [OverflowError] when the normalised number of
    days has magnitude above 999999999. *)
Definition timedelta_hours (h : Z) : result Z :=
  if decide (Z.abs (h / 24) ≤ 999999999) then Ok (h * usec_per_hour)
  else Raise OverflowError.

(** [dt + delta]: [OverflowError] when the sum is not a date of the
    years 1 to 9999. *)
Definition datetime_add (dt delta : Z) : result Z :=
  if decide (representable (dt + delta)) then Ok (dt + delta)
  else Raise OverflowError.

(** The civil date of an ordinal, as [datetime._ord2ymd] computes it. *)
Definition is_leap (y : Z) : bool :=
  (y mod 4 =? 0) && (negb (y mod 100 =? 0) || (y mod 400 =? 0)).

Definition days_in_month (y m : Z) : Z :=
  match m with
  | 2 => if is_leap y then 29 else 28
  | 4 | 6 | 9 | 11 => 30
  | _ => 31
  end.

Definition days_before_month (leap : bool) (m : Z) : Z :=
  match m with
  | 1 => 0 | 2 => 31 | 3 => 59 | 4 => 90 | 5 => 120 | 6 => 151
  | 7 => 181 | 8 => 212 | 9 => 243 | 10 => 273 | 11 => 304 | _ => 334
  end + (if (2 <? m) && leap then 1 else 0).

Definition ord2ymd (ordinal : Z) : Z * Z * Z :=
  let n := ordinal - 1 in
  let n400 := n / 146097 in let n := n mod 146097 in
  let n100 := n / 36524 in let n := n mod 36524 in
  let n4 := n / 1461 in let n := n mod 1461 in
  let n1 := n / 365 in let n := n mod 365 in
  let y := n400 * 400 + 1 + n100 * 100 + n4 * 4 + n1 in
  if (n1 =? 4) || (n100 =? 4) then (y - 1, 12, 31)
  else
    let leap := (n1 =? 3) && (negb (n4 =? 24) || (n100 =? 3)) in
    let m := Z.shiftr (n + 50) 5 in
    let preceding := days_before_month leap m in
    if n <? preceding
    then (y, m - 1, n - days_before_month leap (m - 1) + 1)
    else (y, m, n - preceding + 1).

(** The ordinal of a civil date, as [datetime._ymd2ord] computes it. *)
Definition days_before_year (y : Z) : Z :=
  let y := y - 1 in y * 365 + y / 4 - y / 100 + y / 400.
Definition ymd2ord (y m d : Z) : date :=
  days_before_year y + days_before_month (is_leap y) m + d.

Definition year (dt : datetime) : Z := (ord2ymd (date_of dt)).1.1.
Definition month (dt : datetime) : Z := (ord2ymd (date_of dt)).1.2.
Definition day (dt : datetime) : Z := (ord2ymd (date_of dt)).2.

(** [date.weekday()]: Monday is 0. *)
Definition weekday (d : date) : Z := (d + 6) mod 7.

Definition day_name (wd : Z) : string :=
  match wd with
  | 0 => "Monday" | 1 => "Tuesday" | 2 => "Wednesday" | 3 => "Thursday"
  | 4 => "Friday" | 5 => "Saturday" | _ => "Sunday"
  end.

Definition month_name (m : Z) : string :=
  match m with
  | 1 => "January" | 2 => "February" | 3 => "March" | 4 => "April"
  | 5 => "May" | 6 => "June" | 7 => "July" | 8 => "August"
  | 9 => "September" | 10 => "October" | 11 => "November" | _ => "December"
  end.

(** [calendar.monthrange(year, month)]: the weekday of the first of the
    month and the number of days of the month. *)
Definition monthrange (y m : Z) : Z * Z :=
  (weekday (ymd2ord y m 1), days_in_month y m).

(** [strftime] fields, in the C locale. *)
Definition two_digits (n : Z) : string :=
  if n <? 10 then "0" +:+ pretty n else pretty n.
Definition fmt_A (d : date) : string := day_name (weekday d).
Definition fmt_a (d : date) : string := substring 0 3 (fmt_A d).
Definition fmt_B (d : date) : string := month_name (ord2ymd d).1.2.
Definition fmt_d_nopad (d : date) : string := pretty (ord2ymd d).2.
Definition fmt_HM (dt : datetime) : string :=
  two_digits (hour dt) +:+ ":" +:+ two_digits (minute dt).
Definition fmt_HM_nopad (dt : datetime) : string :=
  pretty (hour dt) +:+ ":" +:+ two_digits (minute dt).

(** [datetime(y, m, d, hh, mm, ss)] for writing test values, from the
    ordinal of the date. *)
Definition at_time (d : date) (hh mm ss : Z) : datetime :=
  d * usec_per_day + hh * usec_per_hour + mm * usec_per_minute
  + ss * usec_per_second.

End Py.

(** ** The glyph table *)

(** A key of the dictionary: the string ["NA"] or an integer code. *)
Abbreviation wkey := (string + Z)%type.

Definition WeatherToMeteoGlyph : gmap wkey string :=
  list_to_map [
    (inl "NA", ")");
    (inr 0, "C"); (inr 1, "B"); (inr 2, "I"); (inr 3, "H"); (inr 4, ")");
    (inr 5, "M"); (inr 6, "M"); (inr 7, "N"); (inr 8, "Y"); (inr 9, "Q");
    (inr 10, "Q"); (inr 11, "Q"); (inr 12, "Q"); (inr 13, "R"); (inr 14, "R");
    (inr 15, "R"); (inr 16, "X"); (inr 17, "X"); (inr 18, "X"); (inr 19, "X");
    (inr 20, "X"); (inr 21, "X"); (inr 22, "U"); (inr 23, "U"); (inr 24, "U");
    (inr 25, "W"); (inr 26, "W"); (inr 27, "W"); (inr 28, "P"); (inr 29, "P");
    (inr 30, "P")
  ]%string.

(** [WeatherToMeteoGlyph[k]]: a missing key raises [KeyError]. *)
Definition glyph (k : wkey) : result string :=
  match WeatherToMeteoGlyph !! k with
  | Some g => Ok g
  | None => Raise KeyError
  end.

(** ** Events and days *)

(** An item of [getEvents]: the dictionary with the keys [summary],
    [location], [start] and [end]. *)
Record Event : Type := mkEvent {
  summary : string;
  location : string;
  start : Py.datetime;
  end_ : Py.datetime
}.

(** An item of [eventsToDays]: the dictionary with the keys [date],
    [datestring] and [events]. *)
Record Day : Type := mkDay {
  date : Py.date;
  datestring : string;
  events : list Event
}.

Global Instance Event_eq_dec : EqDecision Event.
Proof. solve_decision. Defined.
Global Instance Day_eq_dec : EqDecision Day.
Proof. solve_decision. Defined.

(** The input contract of [eventsToDays]: what [sorted(rv, key=start)]
    of [getEvents] establishes. *)
Definition sorted_by_start (evs : list Event) : Prop :=
  StronglySorted (λ a b, start a ≤ start b) evs.

Definition suffix (d : Z) : string :=
  if decide (11 ≤ d ≤ 13) then "th"
  else match d mod 10 with
       | 1 => "st" | 2 => "nd" | 3 => "rd" | _ => "th"
       end.

Definition dateTimeAsPrettyString (now dt : Py.datetime) : string :=
  if decide (Py.date_of dt = Py.date_of now) then "Today"
  else if decide (Py.date_of dt = Py.date_of now + 1) then "Tomorrow"
  else Py.fmt_A (Py.date_of dt) +:+ " " +:+ Py.fmt_d_nopad (Py.date_of dt)
       +:+ suffix (Py.day dt) +:+ " " +:+ Py.fmt_B (Py.date_of dt).

(** The dictionary appended when a group is opened. *)
Definition new_day (now : Py.datetime) (e : Event) : Day :=
  {| date := Py.date_of (start e);
     datestring := dateTimeAsPrettyString now (start e);
     events := [e] |}.

(** [day['events'].append(e)]. *)
Definition append_event (e : Event) (d : Day) : Day :=
  {| date := date d; datestring := datestring d; events := events d ++ [e] |}.

(** [(e['start'] - datetime.now()).days > daystolook]. *)
Definition beyond_lookahead (now : Py.datetime) (daystolook : Z) (e : Event) : bool :=
  bool_decide (Py.timedelta_days (start e - now) > daystolook).

(** [len(days) == 0 or e['start'].date() != days[-1]['date']]. *)
Definition opens_group (days : list Day) (e : Event) : bool :=
  match last days with
  | None => true
  | Some d => bool_decide (Py.date_of (start e) ≠ date d)
  end.

(** The [for e in events] loop, from the state [days]. *)
Fixpoint eventsToDays_loop (now : Py.datetime) (daystolook : Z)
    (evs : list Event) (days : list Day) : list Day :=
  match evs with
  | [] => days
  | e :: rest =>
    if opens_group days e then
      if beyond_lookahead now daystolook e then days
      else eventsToDays_loop now daystolook rest (days ++ [new_day now e])
    else
      eventsToDays_loop now daystolook rest
        (alter (append_event e) (pred (length days)) days)
  end.

Definition eventsToDays (now : Py.datetime) (evs : list Event) (daystolook : Z) : list Day :=
  eventsToDays_loop now daystolook evs [].

Definition allDay (start_ end__ : Py.datetime) : bool :=
  (Py.minute start_ =? 0) && (Py.hour start_ =? 0)
  && (Py.minute end__ =? 0) && (Py.hour end__ =? 0).

(** ** Drawing calls *)

(** [id_b] and [id_r], the [ImageDraw] objects of the two images. *)
Inductive plane : Type := Black | Red.

Inductive font : Type := Meteocons | DateSmall | DateBig | Pixellari16 | MainText.

(** The [anchor] argument of [ImageDraw.text]; [la] is its default. *)
Inductive anchor : Type := la | mt | mm.

Inductive draw : Type :=
| rectangle (p : plane) (x0 y0 x1 y1 : Z) (fill : Z)
| text (p : plane) (x y : Z) (s : string) (f : font) (fill : Z) (a : anchor).

(** The pair [(bimage, rimage)]: two images of one size, and the calls
    made on them. *)
Record Frame : Type := mkFrame {
  frame_width : Z;
  frame_height : Z;
  calls : list draw
}.

Definition bottomgutter : Z := 400.
Definition lineheight : Z := 22.

(** The two UTF-8 bytes of the degree sign. *)
Definition degree : string :=
  String (ascii_of_nat 194) (String (ascii_of_nat 176) EmptyString).

(** [Image.new('1', (width, height), 255)]: [ValueError] for a negative
    width or height.  What the memory of the host allows for a very large
    image is outside the model. *)
Definition image_new (width height : Z) : result unit :=
  if decide (0 ≤ width ∧ 0 ≤ height) then Ok () else Raise ValueError.

(** [ImageDraw.rectangle([(x0, y0), (x1, y1)], fill)]: [ValueError] when
    the second corner lies left of or above the first. *)
Definition draw_rectangle (p : plane) (x0 y0 x1 y1 fill : Z) : result draw :=
  if decide (x0 ≤ x1 ∧ y0 ≤ y1) then Ok (rectangle p x0 y0 x1 y1 fill)
  else Raise ValueError.

(** [l[i]] on a list and [d[k]] on a dictionary entry that may be missing. *)
Definition getitem {A} (l : list A) (i : nat) : result A :=
  match l !! i with Some x => Ok x | None => Raise IndexError end.
Definition getkey {A} (v : option A) : result A :=
  match v with Some x => Ok x | None => Raise KeyError end.

(** *** The agenda column *)

Definition event_text (e : Event) : string :=
  if allDay (start e) (end_ e) then "  " +:+ summary e
  else "  " +:+ Py.fmt_HM_nopad (start e) +:+ " - " +:+ summary e.

(** [for e in day['events']], from the cursor [ypos]; returns the calls
    and the cursor after the loop. *)
Fixpoint agenda_events (ypos : Z) (es : list Event) : list draw * Z :=
  match es with
  | [] => ([], ypos)
  | e :: es' =>
    if decide (ypos < bottomgutter - lineheight) then
      let '(ops, ypos') := agenda_events (ypos + lineheight) es' in
      (text Black 230 ypos (event_text e) MainText 0 la :: ops, ypos')
    else agenda_events ypos es'
  end.

(** [for day in days], from the cursor [ypos]. *)
Fixpoint agenda (ypos : Z) (days : list Day) : list draw * Z :=
  match days with
  | [] => ([], ypos)
  | day :: days' =>
    if decide (ypos < bottomgutter - lineheight) then
      let '(ops1, ypos1) := agenda_events (ypos + lineheight) (events day) in
      let '(ops2, ypos2) := agenda (ypos1 + 6) days' in
      (text Red 230 ypos (datestring day) MainText 0 la :: ops1 ++ ops2, ypos2)
    else agenda ypos days'
  end.

(** *** The mini calendar *)

Definition calx : Z := 25.
Definition yinc : Z := 20.
Definition xinc : Z := 25.

(** [for day in range(daysinmonth)], from the state [(dayofweek, caly)];
    [today] is [datetime.now().day]. *)
Fixpoint minicalendar_days (today : Z) (ds : list nat) (dayofweek caly : Z) : list draw :=
  match ds with
  | [] => []
  | day :: ds' =>
    let label := pretty (Z.of_nat day + 1) in
    let black := text Black (calx + dayofweek * xinc) caly label Pixellari16 255 mt in
    let red :=
      if decide (Z.of_nat day + 1 = today)
      then [text Red (calx + dayofweek * xinc) caly label Pixellari16 0 mt]
      else [] in
    let dayofweek := dayofweek + 1 in
    black :: red ++
      (if decide (dayofweek = 7) then minicalendar_days today ds' 0 (caly + yinc)
       else minicalendar_days today ds' dayofweek caly)
  end.

Definition minicalendar (now : Py.datetime) : list draw :=
  let caly := 270 in
  let lettersofweek := (λ x : nat, substring 0 1 (Py.day_name (Z.of_nat x))) <$> seq 0 7 in
  let '(dayofweek, daysinmonth) := Py.monthrange (Py.year now) (Py.month now) in
  imap (λ i letter,
          text Black (calx + Z.of_nat i * xinc) (caly - 1) letter Pixellari16 255 mt)
       lettersofweek
  ++ [rectangle Black (calx - 12) (caly + yinc - 6) (calx + 7 * xinc - 14) (caly + yinc - 5) 255]
  ++ minicalendar_days (Py.day now) (seq 0 (Z.to_nat daysinmonth)) dayofweek (caly + yinc).

(** ** The process: effects and exit status *)

(** What a run does to the world outside it, in order.  Messages written
    to standard output are not recorded. *)
Inductive effect : Type :=
| EpdInit
| EpdClear
| EpdDisplay (f : Frame)
| EpdSleep
| SaveImages (output : string) (f : Frame)
| WriteWeatherTemplate
| DumpCache (cachefile : string) (cacheddays : list Day) (cachedtime : Py.datetime).

(** A computation either goes on with a value or has left the process
    with an exit status. *)
Inductive outcome (A : Type) : Type :=
| Return (a : A)
| Exited (status : Z).
Arguments Return {A} a.
Arguments Exited {A} status.

Record proc (A : Type) : Type := Proc {
  effects : list effect;
  outcome_of : outcome A
}.
Arguments Proc {A} effects outcome_of.
Arguments effects {A} p.
Arguments outcome_of {A} p.

Global Instance proc_ret : MRet proc := λ A a, Proc [] (Return a).
Global Instance proc_fmap : FMap proc := λ A B f m,
  Proc (effects m)
       (match outcome_of m with Return a => Return (f a) | Exited s => Exited s end).
Global Instance proc_bind : MBind proc := λ A B f m,
  match outcome_of m with
  | Return a => Proc (effects m ++ effects (f a)) (outcome_of (f a))
  | Exited s => Proc (effects m) (Exited s)
  end.

Definition emit (e : effect) : proc unit := Proc [e] (Return tt).
(** [sys.exit(status)]; [sys.exit()] is [sys_exit 0]. *)
Definition sys_exit {A} (status : Z) : proc A := Proc [] (Exited status).
(** An exception that reaches the top level ends the process with
    status 1. *)
Definition uncaught {A} (r : result A) : proc A :=
  match r with Ok a => mret a | Raise _ => sys_exit 1 end.

(** The status the process ends with: 0 when [main] returns. *)
Definition exit_status {A} (p : proc A) : Z :=
  match outcome_of p with Return _ => 0 | Exited s => s end.

(** ** The change cache *)

(** What is found at [cachefile]: nothing, a file that [pickle.load]
    or the unpacking rejects, or the stored pair. *)
Abbreviation cache_state := (option (result (list Day * Py.datetime))).

(** The condition under which [main] sets [redraw = False].  Every
    exception inside the [try] leaves [redraw] as it was. *)
Definition cache_is_fresh (cachefile : cache_state) (days : list Day)
    (cachehours : Z) (now : Py.datetime) : bool :=
  match cachefile with
  | Some (Ok (cacheddays, cachedtime)) =>
    if decide (cacheddays = days) then
      match Py.timedelta_hours cachehours ≫= Py.datetime_add cachedtime with
      | Ok expiry => bool_decide (now < expiry)
      | Raise _ => false
      end
    else false
  | Some (Raise _) => false
  | None => false
  end.

(** *** The forecast strip and the frame *)

Section Render.

(** A temperature reading of the forecast, an [int] or a [float], and
    its formatting in an f-string. *)
Context {temperature : Type} (fmt_temp : temperature → string).

(** An item of [Weather.data]; the temperature keys are those that only
    some of the series carry. *)
Record Sample : Type := mkSample {
  timestamp : Py.datetime;
  weather_type : wkey;
  feels_like_temperature : option temperature;
  feels_like_day_maximum_temperature : option temperature;
  feels_like_night_minimum_temperature : option temperature
}.

(** [metoffer.Weather]: the attribute [data]. *)
Record Weather : Type := mkWeather { data : list Sample }.

(** The body of [for i in range(7)] when [i < len(filteredforecasts)]. *)
Definition nearterm_slot (xpos : Z) (x : Sample) : result (list draw) :=
  let timetext := Py.fmt_HM (timestamp x) in
  weathertext ← glyph (weather_type x);
  t ← getkey (feels_like_temperature x);
  let temptext := fmt_temp t +:+ degree +:+ "C" in
  mret [ text Red xpos (bottomgutter + 20) timetext DateSmall 0 mt;
         text Black xpos (bottomgutter + 65) weathertext Meteocons 0 mm;
         text Black xpos (bottomgutter + 100) temptext DateSmall 0 mt ].

(** [for i in range(7)], from the cursor [xpos]; returns the calls and
    the cursor after the loop. *)
Fixpoint nearterm_loop (filteredforecasts : list Sample) (range : list nat)
    (xpos : Z) : result (list draw * Z) :=
  match range with
  | [] => mret ([], xpos)
  | i :: range' =>
    match filteredforecasts !! i with
    | Some x =>
      ops ← nearterm_slot xpos x;
      r ← nearterm_loop filteredforecasts range' (xpos + 80);
      mret (ops ++ r.1, r.2)
    | None => nearterm_loop filteredforecasts range' xpos
    end
  end.

(** The body of [for i in [2,4,6]]. *)
Definition daily_slot (daily : list Sample) (xpos : Z) (i : nat) : result (list draw) :=
  d ← getitem daily i;
  let timetext := Py.fmt_a (Py.date_of (timestamp d)) in
  weathertext ← glyph (weather_type d);
  tmax ← getkey (feels_like_day_maximum_temperature d);
  let temptext := fmt_temp tmax +:+ degree in
  n ← getitem daily (i + 1);
  tmin ← getkey (feels_like_night_minimum_temperature n);
  let temptext2 := fmt_temp tmin +:+ degree in
  mret [ text Red xpos (bottomgutter + 20) timetext DateSmall 0 mt;
         text Black xpos (bottomgutter + 65) weathertext Meteocons 0 mm;
         text Black (xpos - 15) (bottomgutter + 100) temptext DateSmall 0 mt;
         text Black (xpos + 15) (bottomgutter + 100) temptext2 Pixellari16 0 mt ].

Fixpoint daily_loop (daily : list Sample) (indices : list nat) (xpos : Z) : result (list draw) :=
  match indices with
  | [] => mret []
  | i :: indices' =>
    ops ← daily_slot daily xpos i;
    ops' ← daily_loop daily indices' (xpos + 80);
    mret (ops ++ ops')
  end.

(** The block under [if weather != None]: the near-term slots, then the
    divider, which is refused when the image is less than [bottomgutter]
    rows high, then the daily slots. *)
Definition forecast_strip (now : Py.datetime) (height : Z)
    (weather : Weather * Weather) : result (list draw) :=
  let xpos := 50 in
  let filteredforecasts :=
    filter (λ x, timestamp x > now) (data weather.1) in
  r ← nearterm_loop filteredforecasts (seq 0 7) xpos;
  let xpos := r.2 in
  divider ← draw_rectangle Black (xpos - 21) bottomgutter (xpos - 19) height 0;
  let xpos := xpos + 40 in
  daily ← daily_loop (data weather.2) [2; 4; 6]%nat xpos;
  mret (r.1 ++ divider :: daily).

(** [renderFrame].  The rectangles of the left border and of the mini
    calendar have constant corners in the right order; the two whose
    corners depend on the size of the image, the rule above the forecast
    strip and the divider inside it, go through [draw_rectangle]. *)
Definition renderFrame (now : Py.datetime) (width height : Z) (days : list Day)
    (weather : option (Weather * Weather)) : result Frame :=
  _ ← image_new width height;
  let today := Py.date_of now in
  let border := [rectangle Black 0 0 200 bottomgutter 0] in
  let datepanel :=
    [ text Black 100 40 (Py.fmt_A today) DateSmall 255 mt;
      text Black 100 70 (Py.fmt_d_nopad today) DateBig 255 mt;
      text Red 100 70 (Py.fmt_d_nopad today) DateBig 0 mt;
      text Black 100 155 (Py.fmt_B today) DateSmall 255 mt ] in
  let maintext := (agenda 20 days).1 in
  rule ← draw_rectangle Black 0 (bottomgutter - 1) width (bottomgutter + 1) 0;
  let gutter := [rule] in
  forecast ← match weather with
             | Some w => forecast_strip now height w
             | None => mret []
             end;
  mret (mkFrame width height
          (border ++ datepanel ++ maintext ++ gutter ++ forecast ++ minicalendar now)).

(** *** [main] *)

Record Options : Type := mkOptions {
  opt_noclear : bool;
  opt_noweather : bool;
  opt_output : string;
  opt_input : string;
  opt_redinput : string;
  opt_calendars : string;
  opt_verbose : bool;
  opt_width : Z;
  opt_height : Z;
  opt_days : Z;
  opt_cache : option string;
  opt_cachehours : Z
}.

(** The defaults of the option parser. *)
Definition default_options : Options :=
  mkOptions false false "" "" "" "primary" false 880 528 7 None 2.

(** What the run finds outside the process. *)
Record World : Type := mkWorld {
  (** [datetime.now()] *)
  clock : Py.datetime;
  (** [platform.system()] *)
  platform_system : string;
  (** [epd.width] and [epd.height], or [None] when the import fails *)
  waveshare_epd : option (Z * Z);
  (** the result of [getEvents] on the calendar service *)
  fetched_events : result (list Event);
  (** [weather.json]: missing, or what [json.load] gives *)
  weather_json : option (result (gmap string string));
  (** the two forecasts fetched with [apikey], [lat] and [lon] *)
  fetched_weather : string → string → string → result (Weather * Weather);
  (** the cache file *)
  cache_file : cache_state;
  (** whether [open(cachefile, "wb")] succeeds *)
  cache_writable : bool;
  (** the images named by [--input] and [--redinput] *)
  input_images : result Frame
}.

Definition flags_mismatch (o : Options) : bool :=
  bool_decide ((opt_redinput o ≠ "" ∧ opt_input o = "")
               ∨ (opt_redinput o = "" ∧ opt_input o ≠ "")).

(** The block under [if not options.noweather]. *)
Definition load_weather (w : World) : proc (Weather * Weather) :=
  match weather_json w with
  | Some loaded =>
    data ← uncaught loaded;
    if bool_decide (data !! "lat" = None ∧ data !! "lon" = None
                    ∧ data !! "apikey" = None)
    then sys_exit 0
    else
      apikey ← uncaught (getkey (data !! "apikey"));
      lat ← uncaught (getkey (data !! "lat"));
      lon ← uncaught (getkey (data !! "lon"));
      uncaught (fetched_weather w apikey lat lon)
  | None =>
    _ ← emit WriteWeatherTemplate;
    sys_exit 0
  end.

(** The block under [if options.cache != None]; returns [redraw].  The
    [pickle.dump] is outside the [try]: when the file cannot be opened
    for writing the [OSError] ends the run. *)
Definition check_cache (o : Options) (w : World) (days : list Day) : proc bool :=
  match opt_cache o with
  | Some cachefile =>
    let redraw := negb (cache_is_fresh (cache_file w) days (opt_cachehours o) (clock w)) in
    _ ← (if cache_writable w then emit (DumpCache cachefile days (clock w))
         else uncaught (Raise OSError));
    mret redraw
  | None => mret true
  end.

Definition main (o : Options) (w : World) : proc unit :=
  if flags_mismatch o then sys_exit 1
  else
    size ← (if decide (opt_output o = "") then
              if decide (platform_system w ≠ "Linux") then sys_exit 1
              else match waveshare_epd w with
                   | None => sys_exit 1
                   | Some epd => _ ← emit EpdInit; mret epd
                   end
            else mret (opt_width o, opt_height o));
    drawn ← (if decide (opt_input o = "") then
               events ← uncaught (fetched_events w);
               let days := eventsToDays (clock w) events (opt_days o) in
               weather ← (if opt_noweather o then mret None
                          else Some <$> load_weather w);
               redraw ← check_cache o w days;
               if redraw : bool then
                 Some <$> uncaught (renderFrame (clock w) size.1 size.2 days weather)
               else mret None
             else Some <$> uncaught (input_images w));
    match drawn with
    | Some frame =>
      if decide (opt_output o = "") then
        _ ← (if opt_noclear o then mret tt else emit EpdClear);
        _ ← emit (EpdDisplay frame);
        emit EpdSleep
      else emit (SaveImages (opt_output o) frame)
    | None => mret tt
    end.

End Render.

(** * Vocabulary of the properties *)

(** The closed set of keys of the table. *)
Definition known_code (k : wkey) : Prop :=
  k = inl "NA"%string ∨ ∃ n : Z, k = inr n ∧ 0 ≤ n ≤ 30.

Global Instance known_code_dec (k : wkey) : Decision (known_code k).
Proof.
  destruct k as [s|n].
  - destruct (decide (s = "NA"%string)) as [->|Hs].
    + left. by left.
    + right. intros [?|(m & ? & _)]; simplify_eq.
  - destruct (decide (0 ≤ n ≤ 30)) as [Hn|Hn].
    + left. right. eauto.
    + right. intros [?|(m & ? & ?)]; simplify_eq. lia.
Defined.


(** [timedelta(hours=cachehours)] exists and adding it to [cachedtime]
    stays within the years that a [datetime] can hold. *)
Definition expiry_defined (cachedtime cachehours : Z) : Prop :=
  Z.abs (cachehours / 24) ≤ 999999999
  ∧ Py.representable (cachedtime + cachehours * Py.usec_per_hour).

(** A run that saves to files, with the other options at their defaults,
    on a host with an empty calendar. *)
Definition options_to_file : Options :=
  mkOptions false false "out" "" "" "primary" false 880 528 7 None 2.

Definition world_with_config (config : option (result (gmap string string)))
  : World (temperature := Z) :=
  mkWorld (Py.at_time 739924 12 0 0) "Linux" None (Ok []) config
          (λ _ _ _, Ok (mkWeather [], mkWeather [])) None true
          (Raise FileNotFoundError).

(** The plane and the string of a drawing call, and the row it is placed
    at (for a rectangle, its top row). *)
Definition line_of (c : draw) : plane * string :=
  match c with
  | text p _ _ s _ _ _ => (p, s)
  | rectangle p _ _ _ _ _ => (p, ""%string)
  end.
Definition row_of (c : draw) : Z :=
  match c with
  | text _ _ y _ _ _ _ => y
  | rectangle _ _ y0 _ _ _ => y0
  end.

(** The lines of the agenda when room is unlimited: for each day its
    label on the red plane, then one line per event on the black plane. *)
Definition event_lines (es : list Event) : list (plane * string) :=
  (λ e, (Black, event_text e)) <$> es.
Definition day_lines (day : Day) : list (plane * string) :=
  (Red, datestring day) :: event_lines (events day).
Definition agenda_lines (days : list Day) : list (plane * string) :=
  days ≫= day_lines.

(** The vertical budget of the agenda: a line is drawn only above it. *)
Definition agenda_budget : Z := bottomgutter - lineheight.

(** The near-term samples that get a slot, in the words of the
    specification: those strictly after now, at most seven, in order. *)
Definition shown_nearterm {temperature} (now : Py.datetime)
    (nearterm : Weather (temperature := temperature)) : list Sample :=
  take 7 (filter (λ x, timestamp x > now) (data nearterm)).

(** The slots of a list of samples laid out from [xpos] at a stride of
    80 pixels, one after the other. *)
Fixpoint nearterm_layout {temperature} (fmt_temp : temperature → string)
    (xpos : Z) (shown : list Sample) : result (list draw) :=
  match shown with
  | [] => Ok []
  | x :: shown' =>
    ops ← nearterm_slot fmt_temp xpos x;
    ops' ← nearterm_layout fmt_temp (xpos + 80) shown';
    mret (ops ++ ops')
  end.

(** The daily series cut into pairs of an even position and the odd
    position that follows it; a sample left over at the end has no pair. *)
Fixpoint day_night_pairs {A} (l : list A) : list (A * A) :=
  match l with
  | day :: night :: l' => (day, night) :: day_night_pairs l'
  | _ => []
  end.

(** The slot of one pair: weekday abbreviation and glyph of the day
    sample, its maximum as the primary temperature, the minimum of the
    night sample as the secondary one. *)
Definition pair_slot {temperature} (fmt_temp : temperature → string)
    (xpos : Z) (pair : Sample * Sample) : result (list draw) :=
  let '(day, night) := pair in
  weathertext ← glyph (weather_type day);
  primary ← getkey (feels_like_day_maximum_temperature day);
  secondary ← getkey (feels_like_night_minimum_temperature night);
  mret [ text Red xpos (bottomgutter + 20)
           (Py.fmt_a (Py.date_of (timestamp day))) DateSmall 0 mt;
         text Black xpos (bottomgutter + 65) weathertext Meteocons 0 mm;
         text Black (xpos - 15) (bottomgutter + 100)
           (fmt_temp primary +:+ degree) DateSmall 0 mt;
         text Black (xpos + 15) (bottomgutter + 100)
           (fmt_temp secondary +:+ degree) Pixellari16 0 mt ].

(** The two rectangles that [renderFrame] draws before it looks at the
    forecast: the left border and the rule above the forecast strip. *)
Definition left_border : draw := rectangle Black 0 0 200 bottomgutter 0.
Definition gutter_rule (width : Z) : draw :=
  rectangle Black 0 (bottomgutter - 1) width (bottomgutter + 1) 0.

(** The date in the left border, and all the calls that come before the
    block of the forecast. *)
Definition date_panel (now : Py.datetime) : list draw :=
  [ text Black 100 40 (Py.fmt_A (Py.date_of now)) DateSmall 255 mt;
    text Black 100 70 (Py.fmt_d_nopad (Py.date_of now)) DateBig 255 mt;
    text Red 100 70 (Py.fmt_d_nopad (Py.date_of now)) DateBig 0 mt;
    text Black 100 155 (Py.fmt_B (Py.date_of now)) DateSmall 255 mt ].
Definition frame_head (now : Py.datetime) (width : Z) (days : list Day) : list draw :=
  [left_border] ++ date_panel now ++ (agenda 20 days).1 ++ [gutter_rule width].

(** The forecast strip is the band of rows from [bottomgutter] down to
    the bottom of the image: the divider between the two groups of slots
    spans it.  A call is compared with the strip by the coordinates it is
    given: the corners of a rectangle, which are inclusive, and the anchor
    of a text.  How far the glyphs of a text extend from its anchor
    depends on the font file, which is outside the model: a text that is
    anchored a few rows above the strip can paint into it. *)
Definition placed_above_strip (c : draw) : Prop :=
  match c with
  | rectangle _ _ y0 _ y1 _ => Z.max y0 y1 < bottomgutter
  | text _ _ y _ _ _ _ => y < bottomgutter
  end.
Definition placed_in_strip (height : Z) (c : draw) : Prop :=
  match c with
  | rectangle _ _ y0 _ y1 _ => y0 = bottomgutter ∧ y1 = height ∧ bottomgutter ≤ height
  | text _ _ y _ _ _ _ => bottomgutter + 20 ≤ y
  end.

(** A day as the aggregator builds it: opened by an event [e] that was
    within the lookahead, dated and labelled from it, and holding only
    events of that date. *)
Definition day_ok (now : Py.datetime) (daystolook : Z) (d : Day) : Prop :=
  ∃ e es,
    events d = e :: es
    ∧ date d = Py.date_of (start e)
    ∧ datestring d = dateTimeAsPrettyString now (start e)
    ∧ beyond_lookahead now daystolook e = false
    ∧ Forall (λ e', Py.date_of (start e') = date d) (events d).

(** All events of all days, in the order of the days. *)
Definition events_of (days : list Day) : list Event :=
  concat (events <$> days).

(** Dates in strictly ascending order. *)
Definition ascending_dates (days : list Day) : Prop :=
  StronglySorted Z.lt (date <$> days).

(** An event of noon and six whole days shifted by [d] days and [hh]
    hours, for the examples. *)
Definition meeting (s : string) (d hh : Z) : Event :=
  mkEvent s "" (Py.at_time d hh 0 0) (Py.at_time d (hh + 1) 0 0).

(** The clock of the examples: noon of 4 November 2026. *)
Definition noon : Py.datetime := Py.at_time 739924 12 0 0.

(** Three meetings today and one tomorrow, in order. *)
Definition two_days : list Event :=
  [meeting "a" 739924 13; meeting "b" 739924 14; meeting "c" 739924 15;
   meeting "d" 739925 9].

(** One meeting eight days from today, at ten in the morning. *)
Definition next_week : list Event := [meeting "e" 739932 10].

(** A forecast for the examples: samples every three hours from 09:00
    of the day of [noon], and day and night samples from that midnight,
    all with the weather code [code] and integer temperatures. *)
Definition sample_at (code : Z) (t : Py.datetime) : Sample (temperature := Z) :=
  mkSample t (inr code) (Some 5) (Some 9) (Some 1).
Definition forecast_with (code : Z) : Weather * Weather :=
  (mkWeather ((λ k, sample_at code (Py.at_time 739924 (9 + 3 * k) 0 0))
                <$> seqZ 0 12),
   mkWeather ((λ k, sample_at code (Py.at_time 739924 (12 * k) 0 0))
                <$> seqZ 0 10)).

(** The column of the cursor after the slots of the near-term samples
    shown, and the divider that the block of the forecast draws there. *)
Definition strip_xpos {temperature} (now : Py.datetime)
    (nearterm : Weather (temperature := temperature)) : Z :=
  50 + 80 * Z.of_nat (length (shown_nearterm now nearterm)).
Definition strip_divider {temperature} (now : Py.datetime)
    (nearterm : Weather (temperature := temperature)) (height : Z) : draw :=
  rectangle Black (strip_xpos now nearterm - 21) bottomgutter
            (strip_xpos now nearterm - 19) height 0.

(** A daily series of exactly three pairs, for the examples. *)
Definition three_pairs : Weather (temperature := Z) :=
  mkWeather ((λ k, sample_at 7 (Py.at_time 739924 (12 * k) 0 0)) <$> seqZ 0 6).

(** * Vocabulary of the further properties *)

(** The label of a date that is neither today nor tomorrow. *)
Definition long_label (d : Py.date) : string :=
  Py.fmt_A d +:+ " " +:+ Py.fmt_d_nopad d +:+ suffix (Py.ord2ymd d).2
  +:+ " " +:+ Py.fmt_B d.

(** The most lines the agenda column can hold: rows 20, 42, ..., 372. *)
Definition agenda_capacity : nat := 17.

(** The row of the cursor after all lines of [days] were drawn from
    [ypos]: a line height per line and 6 pixels after each day. *)
Definition agenda_extent (ypos : Z) (days : list Day) : Z :=
  ypos + lineheight * Z.of_nat (length (agenda_lines days))
  + 6 * Z.of_nat (length days).

(** The plane a call draws on. *)
Definition plane_of (c : draw) : plane :=
  match c with
  | rectangle p _ _ _ _ _ => p
  | text p _ _ _ _ _ _ => p
  end.
Global Instance plane_eq_dec : EqDecision plane.
Proof. solve_decision. Defined.

(** The cell of the mini calendar at position [pos], counted from the
    Monday of the first row: column [pos mod 7], row [pos / 7], holding
    the number [n]. *)
Definition calendar_cell (p : plane) (caly pos n fill : Z) : draw :=
  text p (calx + (pos `mod` 7) * xinc) (caly + (pos `div` 7) * yinc)
       (pretty n) Pixellari16 fill mt.

(** The month and day that [ord2ymd] gives for the day [n] (from 0) of a
    year, leap or not. *)
Definition month_day_of_yday (leap : bool) (n : Z) : Z * Z :=
  let m := Z.shiftr (n + 50) 5 in
  let preceding := Py.days_before_month leap m in
  if n <? preceding
  then (m - 1, n - Py.days_before_month leap (m - 1) + 1)
  else (m, n - preceding + 1).
Definition month_day_in_range (leap : bool) (n : Z) : bool :=
  let '(m, d) := month_day_of_yday leap n in
  (1 <=? m) && (m <=? 12) && (1 <=? d)
  && (d <=? match m with
            | 2 => if leap then 29 else 28
            | 4 | 6 | 9 | 11 => 30
            | _ => 31
            end).

(** The head of the mini calendar: the initials of the weekdays from
    Monday and the rule under them. *)
Definition minicalendar_header : list draw :=
  [ text Black 25 269 "M" Pixellari16 255 mt;
    text Black 50 269 "T" Pixellari16 255 mt;
    text Black 75 269 "W" Pixellari16 255 mt;
    text Black 100 269 "T" Pixellari16 255 mt;
    text Black 125 269 "F" Pixellari16 255 mt;
    text Black 150 269 "S" Pixellari16 255 mt;
    text Black 175 269 "S" Pixellari16 255 mt;
    rectangle Black 13 284 186 285 255 ].

(** The weekday (Monday 0) of the first day of the month of [now], and
    the number of days of that month. *)
Definition first_weekday (now : Py.datetime) : Z :=
  (Py.monthrange (Py.year now) (Py.month now)).1.
Definition month_length (now : Py.datetime) : Z :=
  (Py.monthrange (Py.year now) (Py.month now)).2.

(** A near-term sample that can be drawn: its code is in the glyph table
    and it carries a 'Feels Like Temperature'. *)
Definition nearterm_drawable {temperature} (x : Sample (temperature := temperature)) : Prop :=
  known_code (weather_type x) ∧ is_Some (feels_like_temperature x).

(** A pair of a day and a night sample that can be drawn. *)
Definition pair_drawable {temperature}
    (p : Sample (temperature := temperature) * Sample (temperature := temperature)) : Prop :=
  known_code (weather_type p.1)
  ∧ is_Some (feels_like_day_maximum_temperature p.1)
  ∧ is_Some (feels_like_night_minimum_temperature p.2).

(** Effects on the e-paper device, and effects that show a frame. *)
Definition is_epd (e : effect) : Prop :=
  match e with
  | EpdInit | EpdClear | EpdDisplay _ | EpdSleep => True
  | _ => False
  end.
Definition is_save (e : effect) : Prop :=
  match e with SaveImages _ _ => True | _ => False end.
Definition shows_frame (e : effect) : Prop :=
  match e with EpdDisplay _ | SaveImages _ _ => True | _ => False end.
Definition is_dump (e : effect) : Prop :=
  match e with DumpCache _ _ _ => True | _ => False end.

(** What a later run finds in the cache file: the pair of the last
    [pickle.dump], or what was there before. *)
Fixpoint cache_after (effs : list effect) (before : cache_state) : cache_state :=
  match effs with
  | [] => before
  | DumpCache _ cacheddays cachedtime :: effs' =>
    cache_after effs' (Some (Ok (cacheddays, cachedtime)))
  | _ :: effs' => cache_after effs' before
  end.

(** The three phases of [main] after the test of the flags: choosing the
    size of the frame (and starting the device), obtaining the frame, and
    showing it. *)
Definition main_prologue {temperature} (o : Options)
    (w : World (temperature := temperature)) : proc (Z * Z) :=
  if decide (opt_output o = ""%string) then
    if decide (platform_system w ≠ "Linux"%string) then sys_exit 1
    else match waveshare_epd w with
         | None => sys_exit 1
         | Some epd => _ ← emit EpdInit; mret epd
         end
  else mret (opt_width o, opt_height o).

Definition main_fetch {temperature} (fmt_temp : temperature → string) (o : Options)
    (w : World (temperature := temperature)) (size : Z * Z) : proc (option Frame) :=
  events ← uncaught (fetched_events w);
  let days := eventsToDays (clock w) events (opt_days o) in
  weather ← (if opt_noweather o then mret None else Some <$> load_weather w);
  redraw ← check_cache o w days;
  if redraw : bool then
    Some <$> uncaught (renderFrame fmt_temp (clock w) size.1 size.2 days weather)
  else mret None.

Definition main_body {temperature} (fmt_temp : temperature → string) (o : Options)
    (w : World (temperature := temperature)) (size : Z * Z) : proc (option Frame) :=
  if decide (opt_input o = ""%string) then main_fetch fmt_temp o w size
  else Some <$> uncaught (input_images w).

Definition main_epilogue (o : Options) (drawn : option Frame) : proc unit :=
  match drawn with
  | Some frame =>
    if decide (opt_output o = ""%string) then
      _ ← (if opt_noclear o then mret tt else emit EpdClear);
      _ ← emit (EpdDisplay frame);
      emit EpdSleep
    else emit (SaveImages (opt_output o) frame)
  | None => mret tt
  end.

(** The effects of a run before a frame is shown: the start of the
    device when there is no [--output], and the rewriting of the cache
    when there is a [--cache] and the calendar was read. *)
Definition init_effects (o : Options) : list effect :=
  if decide (opt_output o = ""%string) then [EpdInit] else [].
Definition dump_effects (o : Options) (days : list Day) (now : Py.datetime) : list effect :=
  match opt_cache o with
  | Some c => [DumpCache c days now]
  | None => []
  end.
Definition quiet (o : Options) (e : effect) : Prop :=
  (e = EpdInit ∧ opt_output o = ""%string) ∨ e = WriteWeatherTemplate ∨ is_dump e.

(** Runs for the examples: the calendar holds [two_days], the weather is
    switched off, and the clock reads [t]. *)
Definition options_cached : Options :=
  mkOptions false true "out" "" "" "primary" false 880 528 7 (Some "cache.pkl") 2.
Definition options_epd : Options :=
  mkOptions false true "" "" "" "primary" false 880 528 7 None 2.
Definition options_input : Options :=
  mkOptions false false "" "b.png" "r.png" "primary" false 880 528 7 None 2.
Definition world_at (t : Py.datetime) (cachefile : cache_state)
  : World (temperature := Z) :=
  mkWorld t "Linux" (Some (880, 528)) (Ok two_days) None
          (λ _ _ _, Raise KeyError) cachefile true (Ok (mkFrame 880 528 [])).

(** The frame of the examples. *)
Definition frame_at (t : Py.datetime) : Frame :=
  match renderFrame (temperature := Z) pretty t 880 528 (eventsToDays t two_days 7) None with
  | Ok f => f
  | Raise _ => mkFrame 0 0 []
  end.

(** One o'clock of the day of [noon]. *)
Definition one_pm : Py.datetime := Py.at_time 739924 13 0 0.

(** * Further code: choosing the calendars *)

(** An item of the calendar list of the account: its [id] and its
    [summary], the name shown to the user.  Both are fields that every
    item of the list carries; the request itself, which may fail on the
    network, is outside the model. *)
Record CalendarListEntry : Type := mkCalendarListEntry {
  cal_id : string;
  cal_summary : string
}.

(** [names.split(',')]: the pieces between the commas; an empty string
    gives one empty piece. *)
Fixpoint split_comma (s : string) : list string :=
  match s with
  | EmptyString => [EmptyString]
  | String c s' =>
    if decide (c = ","%char) then EmptyString :: split_comma s'
    else match split_comma s' with
         | piece :: pieces => String c piece :: pieces
         | [] => [String c EmptyString]
         end
  end.

(** [for data in caldata.get('items', [])], appending to [ids]. *)
Fixpoint matching_ids (c : string) (items : list CalendarListEntry)
    (ids : list string) : list string :=
  match items with
  | [] => ids
  | data :: items' =>
    if decide (cal_summary data = c)
    then matching_ids c items' (ids ++ [cal_id data])
    else matching_ids c items' ids
  end.

(** [for c in cals], appending to [ids]. *)
Fixpoint getIDs_loop (items : list CalendarListEntry) (cals : list string)
    (ids : list string) : list string :=
  match cals with
  | [] => ids
  | c :: cals' =>
    if decide (c = "primary"%string)
    then getIDs_loop items cals' (ids ++ ["primary"%string])
    else getIDs_loop items cals' (matching_ids c items ids)
  end.

(** [getIDsFromNames]; [caldata_items] is the value of the key ['items']
    of the calendar list, which an account without calendars lacks.
    Printing reads [caldata['items']], the loop reads
    [caldata.get('items', [])]. *)
Definition getIDsFromNames (caldata_items : option (list CalendarListEntry))
    (names : string) (printall : bool) : result (list string) :=
  _ ← (if printall then getkey caldata_items else mret []);
  mret (getIDs_loop (default [] caldata_items) (split_comma names) []).

(** The string has no comma. *)
Fixpoint comma_free (s : string) : Prop :=
  match s with
  | EmptyString => True
  | String c s' => c ≠ ","%char ∧ comma_free s'
  end.

(** [','.join(pieces)] *)
Fixpoint join_comma (pieces : list string) : string :=
  match pieces with
  | [] => EmptyString
  | [piece] => piece
  | piece :: pieces' => piece +:+ String ","%char (join_comma pieces')
  end.

(** The account of the examples. *)
Definition account : list CalendarListEntry :=
  [ mkCalendarListEntry "id-main" "Main"; mkCalendarListEntry "id-work" "Work";
    mkCalendarListEntry "id-p" "primary"; mkCalendarListEntry "id-c" "Home, away";
    mkCalendarListEntry "id-work2" "Work" ].

(** * Further code: fetching the events *)

(** What [getEvents] may raise: a [KeyError] with the missing key, or
    the [ValueError] of [strptime] on a text. *)
Inductive fetch_exn : Type :=
| FetchKeyError (key : string)
| FetchValueError (txt : string).

(** The value of ['start'] or ['end'] of an event of the calendar
    service: a ['date'], a ['dateTime'], both or neither. *)
Record EventDateTime : Type := mkEventDateTime {
  ed_date : option string;
  ed_dateTime : option string
}.

(** An event of the calendar service, with the keys that [getEvents]
    reads. *)
Record ApiEvent : Type := mkApiEvent {
  api_summary : option string;
  api_location : option string;
  api_start : option EventDateTime;
  api_end : option EventDateTime
}.

(** The dictionary that [getEvents] builds for an event; ['start'] and
    ['end'] are set only when the event gives a date or a time. *)
Record Item : Type := mkItem {
  item_summary : string;
  item_location : string;
  item_start : option Py.datetime;
  item_end : option Py.datetime
}.

(** A list with the first failure of [f], or all results. *)
Fixpoint traverse {A B} (f : A → fetch_exn + B) (l : list A) : fetch_exn + list B :=
  match l with
  | [] => inr []
  | x :: l' =>
    match f x with
    | inl e => inl e
    | inr y => match traverse f l' with
               | inl e => inl e
               | inr ys => inr (y :: ys)
               end
    end
  end.

(** The key of the sort, for an item that has a start. *)
Definition start_key (i : Item) : Py.datetime := default 0 (item_start i).

(** [sorted(rv, key=lambda k: k['start'])]: the sort is stable, and the
    stable ascending arrangement of a list is what insertion of its
    elements from the left, each after the elements that are not greater,
    computes. *)
Fixpoint insert_by_start (x : Item) (l : list Item) : list Item :=
  match l with
  | [] => [x]
  | y :: l' =>
    if decide (start_key x < start_key y) then x :: y :: l'
    else y :: insert_by_start x l'
  end.
Definition sorted_by_start_key (rv : list Item) : list Item :=
  foldl (λ acc x, insert_by_start x acc) [] rv.

Section GetEvents.

(** [datetime.strptime(text, "%Y-%m-%d")] and
    [datetime.strptime(text, "%Y-%m-%dT%H:%M:%S")]; [None] stands for
    the [ValueError] of a text that does not match. *)
Context (strptime_date strptime_datetime : string → option Py.datetime).

Definition parse_with (strptime : string → option Py.datetime) (txt : string)
  : fetch_exn + option Py.datetime :=
  match strptime txt with
  | Some t => inr (Some t)
  | None => inl (FetchValueError txt)
  end.

(** The two tests on [e[se]] for [se] one of ['start'] and ['end']: the
    date is read first, a dateTime replaces it. *)
Definition read_endpoint (se : string) (value : option EventDateTime)
  : fetch_exn + option Py.datetime :=
  match value with
  | None => inl (FetchKeyError se)
  | Some ed =>
    match (match ed_date ed with
           | Some txt => parse_with strptime_date txt
           | None => inr None
           end) with
    | inl e => inl e
    | inr from_date =>
      match ed_dateTime ed with
      | Some txt => parse_with strptime_datetime (substring 0 19 txt)
      | None => inr from_date
      end
    end
  end.

(** The body of [for e in events]. *)
Definition to_item (e : ApiEvent) : fetch_exn + Item :=
  match read_endpoint "start" (api_start e) with
  | inl err => inl err
  | inr item_start =>
    match read_endpoint "end" (api_end e) with
    | inl err => inl err
    | inr item_end =>
      inr (mkItem (default "No summary"%string (api_summary e))
                  (default ""%string (api_location e)) item_start item_end)
    end
  end.

(** The key function of the sort on one item. *)
Definition read_start (i : Item) : fetch_exn + Item :=
  match item_start i with
  | Some _ => inr i
  | None => inl (FetchKeyError "start")
  end.

(** [getEvents]; [responses] holds, for each calendar id in order, the
    value of ['items'] in the answer of the service, if it has one. *)
Definition getEvents (responses : list (option (list ApiEvent)))
  : fetch_exn + list Item :=
  let events := concat (default [] <$> responses) in
  match traverse to_item events with
  | inl e => inl e
  | inr rv =>
    match traverse read_start rv with
    | inl e => inl e
    | inr rv => inr (sorted_by_start_key rv)
    end
  end.

End GetEvents.

(** An item with both ends as an event of the aggregator. *)
Definition item_event (i : Item) : option Event :=
  start_ ← item_start i;
  end__ ← item_end i;
  Some (mkEvent (item_summary i) (item_location i) start_ end__).

(** An event from which [getEvents] makes an item: it has ['start'] and
    ['end'], every date and dateTime in them parses, and the start has a
    date or a dateTime. *)
Definition endpoint_parses (strptime_date strptime_datetime : string → option Py.datetime)
    (ed : EventDateTime) : Prop :=
  (∀ txt, ed_date ed = Some txt → is_Some (strptime_date txt))
  ∧ (∀ txt, ed_dateTime ed = Some txt →
       is_Some (strptime_datetime (substring 0 19 txt))).
Definition event_readable (strptime_date strptime_datetime : string → option Py.datetime)
    (e : ApiEvent) : Prop :=
  ∃ s en,
    api_start e = Some s ∧ api_end e = Some en
    ∧ endpoint_parses strptime_date strptime_datetime s
    ∧ endpoint_parses strptime_date strptime_datetime en
    ∧ (is_Some (ed_date s) ∨ is_Some (ed_dateTime s)).

(** A [strptime] for the examples, which knows two dates and one time. *)
Definition strptime_known (txt : string) : option Py.datetime :=
  if decide (txt = "2026-11-04"%string) then Some (Py.at_time 739924 0 0 0)
  else if decide (txt = "2026-11-05"%string) then Some (Py.at_time 739925 0 0 0)
  else if decide (txt = "2026-11-04T09:30:00"%string) then Some (Py.at_time 739924 9 30 0)
  else None.

(** Two answers of the service: an all-day event of the 5th and a
    meeting of the 4th with a time zone, and an all-day event of the
    4th; a third calendar answers without items. *)
Definition answers : list (option (list ApiEvent)) :=
  [ Some [ mkApiEvent (Some "Trip"%string) None
             (Some (mkEventDateTime (Some "2026-11-05"%string) None))
             (Some (mkEventDateTime (Some "2026-11-05"%string) None));
           mkApiEvent None (Some "Room 1"%string)
             (Some (mkEventDateTime None (Some "2026-11-04T09:30:00+01:00"%string)))
             (Some (mkEventDateTime None (Some "2026-11-04T09:30:00+01:00"%string))) ];
    None;
    Some [ mkApiEvent (Some "Birthday"%string) None
             (Some (mkEventDateTime (Some "2026-11-04"%string) None))
             (Some (mkEventDateTime (Some "2026-11-05"%string) None)) ] ].

(** * Further code: the daily series of [datahub.py] *)

(** An entry of the ['timeSeries'] of the daily forecast, with the keys
    that [fetch_daily] reads; a value is kept as the text of its JSON. *)
Record DailyEntry : Type := mkDailyEntry {
  de_time : option string;
  de_daySignificantWeatherCode : option string;
  de_dayMaxFeelsLikeTemp : option string;
  de_nightMinFeelsLikeTemp : option string
}.

(** A dictionary of the list that [fetch_daily] returns. *)
Record DailyForecast (number : Type) : Type := mkDailyForecast {
  df_timestamp : Py.datetime;
  df_weather_code : Z;
  df_max_feels_like_temp : number;
  df_min_feels_like_temp : number
}.
Arguments mkDailyForecast {number} _ _ _ _.
Arguments df_timestamp {number} _.
Arguments df_weather_code {number} _.
Arguments df_max_feels_like_temp {number} _.
Arguments df_min_feels_like_temp {number} _.

Section Datahub.

(** [datetime.fromisoformat(text.replace("Z", "+00:00")).replace(tzinfo=None)],
    [int(value)] and [float(value)]; [None] stands for the exception of
    a value they refuse. *)
Context {number : Type}.
Context (fromisoformat : string → option Py.datetime)
        (to_int : string → option Z) (to_float : string → option number).

(** [convert(entry[key])]: [KeyError] for a missing key, [ValueError]
    for a value that does not convert. *)
Definition read_key {A} (key : string) (convert : string → option A)
    (value : option string) : fetch_exn + A :=
  match value with
  | None => inl (FetchKeyError key)
  | Some txt =>
    match convert txt with
    | Some a => inr a
    | None => inl (FetchValueError txt)
    end
  end.

(** The dictionary appended for an entry that has a day code. *)
Definition daily_forecast_of (entry : DailyEntry) : fetch_exn + DailyForecast number :=
  match read_key "time" fromisoformat (de_time entry) with
  | inl e => inl e
  | inr timestamp_ =>
    match read_key "daySignificantWeatherCode" to_int
            (de_daySignificantWeatherCode entry) with
    | inl e => inl e
    | inr code =>
      match read_key "dayMaxFeelsLikeTemp" to_float (de_dayMaxFeelsLikeTemp entry) with
      | inl e => inl e
      | inr tmax =>
        match read_key "nightMinFeelsLikeTemp" to_float
                (de_nightMinFeelsLikeTemp entry) with
        | inl e => inl e
        | inr tmin => inr (mkDailyForecast timestamp_ code tmax tmin)
        end
      end
    end
  end.

(** [for entry in series] of [fetch_daily], appending to [results]. *)
Fixpoint fetch_daily_loop (series : list DailyEntry) (results : list (DailyForecast number))
  : fetch_exn + list (DailyForecast number) :=
  match series with
  | [] => inr results
  | entry :: series' =>
    match de_daySignificantWeatherCode entry with
    | None => fetch_daily_loop series' results
    | Some _ =>
      match daily_forecast_of entry with
      | inl e => inl e
      | inr sample => fetch_daily_loop series' (results ++ [sample])
      end
    end
  end.

(** [fetch_daily], from the ['timeSeries'] of the answer. *)
Definition fetch_daily (series : list DailyEntry) : fetch_exn + list (DailyForecast number) :=
  fetch_daily_loop series [].

End Datahub.

(** The entries of whole days: those with a day code. *)
Definition whole_day (entry : DailyEntry) : Prop :=
  is_Some (de_daySignificantWeatherCode entry).
Global Instance whole_day_dec (entry : DailyEntry) : Decision (whole_day entry).
Proof. unfold whole_day. apply _. Defined.

(** Conversions for the examples: a time is known by its text, a number
    is the length of its text. *)
Definition toy_time (txt : string) : option Py.datetime :=
  if decide (txt = "2026-11-04T00:00Z"%string) then Some (Py.at_time 739924 0 0 0)
  else if decide (txt = "2026-11-05T00:00Z"%string) then Some (Py.at_time 739925 0 0 0)
  else None.
Definition toy_number (txt : string) : option Z :=
  if decide (txt = ""%string) then None else Some (Z.of_nat (String.length txt)).

(** The columns of a call: a text is anchored between [lo] and [hi], a
    rectangle lies between them. *)
Definition within_columns (lo hi : Z) (c : draw) : Prop :=
  match c with
  | rectangle _ x0 _ x1 _ _ => lo ≤ x0 ∧ x0 ≤ x1 ∧ x1 ≤ hi
  | text _ x _ _ _ _ _ => lo ≤ x ∧ x ≤ hi
  end.
Global Instance within_columns_dec (lo hi : Z) (c : draw) :
  Decision (within_columns lo hi c).
Proof. destruct c; cbn; apply _. Defined.

(** * Properties *)

(** ** The glyph table *)

Example glyph_7 : glyph (inr 7) = Ok "N"%string.
Proof. vm_compute. reflexivity. Qed.
Example ymd_1 : Py.ord2ymd 739924 = (2026, 11, 4).
Proof. vm_compute. reflexivity. Qed.
Example fmt_1 : Py.fmt_HM_nopad (Py.at_time 739924 9 5 0) = "9:05"%string.
Proof. vm_compute. reflexivity. Qed.

Lemma glyph_table_hit (n : nat) :
  (n ≤ 30)%nat → is_Some (WeatherToMeteoGlyph !! (inr (Z.of_nat n) : wkey)).
Proof.
  intros Hn.
  do 31 (destruct n as [|n]; [vm_compute; eauto|]).
  lia.
Qed.

Lemma glyph_table_miss (k : wkey) :
  ¬ known_code k → WeatherToMeteoGlyph !! k = None.
Proof.
  intros Hk. unfold WeatherToMeteoGlyph.
  apply not_elem_of_list_to_map_1. cbn [fmap list_fmap fst].
  intros Hin. apply Hk. unfold known_code.
  repeat (apply elem_of_cons in Hin as [->|Hin];
          [first [by left | right; eexists; split; [reflexivity|lia]]|]).
  by apply elem_of_nil in Hin.
Qed.

Lemma glyph_table_dom (k : wkey) :
  is_Some (WeatherToMeteoGlyph !! k) ↔ known_code k.
Proof.
  split.
  - intros [g Hg]. destruct (decide (known_code k)) as [|Hn]; [done|].
    rewrite glyph_table_miss in Hg by done. done.
  - intros [->|(n & -> & Hn)]; [vm_compute; eauto|].
    replace n with (Z.of_nat (Z.to_nat n)) by lia.
    apply glyph_table_hit. lia.
Qed.

(** C5. The table resolves exactly the integer codes 0 to 30 and the
    string "NA"; the lookup of code 7 gives "N"; the lookup of any other
    key raises [KeyError], and nothing substitutes a default glyph. *)
Theorem glyph_closed_table :
  (∀ k : wkey, is_Ok (glyph k) ↔ known_code k)
  ∧ (∀ k : wkey, glyph k = Raise KeyError ↔ ¬ known_code k)
  ∧ glyph (inr 7) = Ok "N"%string
  ∧ glyph (inr 999) = Raise KeyError.
Proof.
  assert (Hdom : ∀ k : wkey, is_Ok (glyph k) ↔ known_code k).
  { intros k. rewrite <- glyph_table_dom. unfold glyph, is_Ok.
    destruct (WeatherToMeteoGlyph !! k) as [g|]; split.
    - eauto.
    - eauto.
    - intros [g Hg]. discriminate.
    - intros [g Hg]. discriminate. }
  split; [exact Hdom|]. split; [|split; vm_compute; reflexivity].
  intros k. rewrite <- Hdom. unfold glyph, is_Ok.
  destruct (WeatherToMeteoGlyph !! k) as [g|]; split.
  - discriminate.
  - intros Hn. destruct Hn. eauto.
  - intros _ [g Hg]. discriminate.
  - reflexivity.
Qed.

(** A forecast with the code 999 cannot be drawn, and the run ends with
    status 1. *)
Example unknown_code_is_fatal :
  renderFrame pretty noon 880 528 [] (Some (forecast_with 999)) = Raise KeyError
  ∧ exit_status
      (main pretty (mkOptions false false "out" "" "" "primary" false 880 528 7 None 2)
         (mkWorld noon "Linux" None (Ok [])
            (Some (Ok (<["lat" := "54.9"]> (<["lon" := "-1.6"]> (<["apikey" := "k"]> ∅)))))
            (λ _ _ _, Ok (forecast_with 999)) None true
            (Raise FileNotFoundError)))
    = 1.
Proof. split; vm_compute; reflexivity. Qed.

(** ** All-day events *)






(** ** The change cache *)

Lemma expiry_defined_eval (cachedtime cachehours : Z) :
  expiry_defined cachedtime cachehours →
  Py.timedelta_hours cachehours ≫= Py.datetime_add cachedtime
  = Ok (cachedtime + cachehours * Py.usec_per_hour).
Proof.
  intros [Hh Hr]. unfold Py.timedelta_hours.
  rewrite decide_True by done. cbn. unfold Py.datetime_add.
  by rewrite decide_True.
Qed.

Lemma expiry_eval_inv (cachedtime cachehours expiry : Z) :
  Py.timedelta_hours cachehours ≫= Py.datetime_add cachedtime = Ok expiry →
  expiry = cachedtime + cachehours * Py.usec_per_hour.
Proof.
  unfold Py.timedelta_hours. case_decide; [|discriminate]. cbn.
  unfold Py.datetime_add. case_decide; [|discriminate]. congruence.
Qed.

Lemma expiry_eval_defined (cachedtime cachehours expiry : Z) :
  Py.timedelta_hours cachehours ≫= Py.datetime_add cachedtime = Ok expiry →
  expiry_defined cachedtime cachehours.
Proof.
  unfold Py.timedelta_hours. case_decide; [|discriminate]. cbn.
  unfold Py.datetime_add. case_decide; [|discriminate]. intros _. by split.
Qed.

(** C1, as the code behaves.  The freshness check answers true exactly
    when a record was read from the cache, its snapshot of the days equals
    the fresh list, the stored time plus the TTL is a time that a
    [datetime] can hold, and the query time is strictly before it.
    Whatever the TTL, a snapshot that differs gives false; an expired TTL
    gives false also when the snapshot is unchanged; a TTL with which the
    expiry time cannot be computed gives false whatever the query time;
    so does a missing or unreadable record. *)
Theorem cache_is_fresh_iff (cachefile : cache_state) (days : list Day)
    (cachehours : Z) (now : Py.datetime) :
  (cache_is_fresh cachefile days cachehours now = true ↔
   ∃ cacheddays cachedtime,
     cachefile = Some (Ok (cacheddays, cachedtime))
     ∧ cacheddays = days
     ∧ expiry_defined cachedtime cachehours
     ∧ now < cachedtime + cachehours * Py.usec_per_hour)
  ∧ (∀ cacheddays cachedtime,
       cachefile = Some (Ok (cacheddays, cachedtime)) → cacheddays ≠ days →
       cache_is_fresh cachefile days cachehours now = false)
  ∧ (∀ cacheddays cachedtime,
       cachefile = Some (Ok (cacheddays, cachedtime)) →
       cachedtime + cachehours * Py.usec_per_hour ≤ now →
       cache_is_fresh cachefile days cachehours now = false)
  ∧ (∀ cacheddays cachedtime,
       cachefile = Some (Ok (cacheddays, cachedtime)) →
       ¬ expiry_defined cachedtime cachehours →
       cache_is_fresh cachefile days cachehours now = false)
  ∧ ((∀ record, cachefile ≠ Some (Ok record)) →
     cache_is_fresh cachefile days cachehours now = false).
Proof.
  split; [split|split; [|split; [|split]]].
  - destruct cachefile as [[[cd ct]|]|]; cbn; try discriminate.
    case_decide as Heq; [|discriminate].
    destruct (Py.timedelta_hours cachehours ≫= Py.datetime_add ct) as [x|] eqn:Hx;
      [|discriminate].
    pose proof (expiry_eval_defined _ _ _ Hx) as Hdef.
    apply expiry_eval_inv in Hx as ->.
    intros Hlt%bool_decide_eq_true. exists cd, ct. done.
  - intros (cd & ct & -> & -> & Hdef & Hlt). cbn.
    rewrite decide_True by done.
    rewrite (expiry_defined_eval ct cachehours) by done.
    by apply bool_decide_eq_true.
  - intros cd ct -> Hne. cbn. by rewrite decide_False.
  - intros cd ct -> Hle. cbn. case_decide; [|done].
    destruct (Py.timedelta_hours cachehours ≫= Py.datetime_add ct) as [x|] eqn:Hx;
      [|done].
    apply expiry_eval_inv in Hx as ->.
    apply bool_decide_eq_false. lia.
  - intros cd ct -> Hno. cbn. case_decide; [|done].
    destruct (Py.timedelta_hours cachehours ≫= Py.datetime_add ct) as [x|] eqn:Hx;
      [|done].
    by apply expiry_eval_defined in Hx.
  - intros Hno. destruct cachefile as [[[cd ct]|]|]; try done.
    by destruct (Hno (cd, ct)).
Qed.

(** The days of [two_days] stored at noon with a TTL of 2 hours: the
    same days are fresh one hour later, and no longer three hours
    later. *)
Example cache_fresh_within_ttl :
  cache_is_fresh (Some (Ok (eventsToDays noon two_days 7, noon)))
    (eventsToDays noon two_days 7) 2 one_pm = true
  ∧ cache_is_fresh (Some (Ok (eventsToDays noon two_days 7, noon)))
      (eventsToDays noon two_days 7) 2 (Py.at_time 739924 15 0 0) = false.
Proof. split; vm_compute; reflexivity. Qed.

(** C1, as stated, fails: with [--cachehours 100000000] the stored time
    plus the TTL lies after the year 9999, the addition raises inside the
    [try], and the check answers false although the record exists, its
    days are the fresh ones and the query time is one hour after the
    stored time, far before the stored time plus the TTL. *)
Lemma cache_overflowing_ttl :
  eventsToDays noon two_days 7 ≠ []
  ∧ one_pm < noon + 100000000 * Py.usec_per_hour
  ∧ cache_is_fresh (Some (Ok (eventsToDays noon two_days 7, noon)))
      (eventsToDays noon two_days 7) 100000000 one_pm = false.
Proof.
  split; [vm_compute; discriminate|].
  split; vm_compute; reflexivity.
Qed.

(** ** Exit status *)

Lemma main_flags_mismatch {temperature} (fmt : temperature → string)
    (o : Options) (w : World) :
  flags_mismatch o = true → exit_status (main fmt o w) = 1.
Proof. intros H. unfold main. by rewrite H. Qed.

(** C9, as the code behaves.  With [weather.json] missing the run writes
    the template and leaves with status 0; with a [weather.json] that has
    none of the three keys it leaves with status 0 as well; only the
    unpaired [--input] gives status 1. *)
Theorem main_weather_config_exit_status :
  main pretty options_to_file (world_with_config None)
    = Proc [WriteWeatherTemplate] (Exited 0)
  ∧ exit_status (main pretty options_to_file (world_with_config None)) = 0
  ∧ exit_status (main pretty options_to_file (world_with_config (Some (Ok ∅)))) = 0
  ∧ exit_status
      (main pretty (mkOptions false false "out" "b.png" "" "primary" false 880 528 7 None 2)
         (world_with_config None)) = 1.
Proof. repeat split; vm_compute; reflexivity. Qed.

(** ** Truncation of the agenda *)

Ltac rows_lia :=
  cbn [row_of] in *; unfold agenda_budget, bottomgutter, lineheight in *; lia.

Lemma agenda_events_full (ypos : Z) (es : list Event) :
  agenda_budget ≤ ypos → agenda_events ypos es = ([], ypos).
Proof.
  intros Hy. induction es as [|e es IH]; [reflexivity|].
  cbn [agenda_events]. by rewrite decide_False by rows_lia.
Qed.

Lemma agenda_full (ypos : Z) (days : list Day) :
  agenda_budget ≤ ypos → agenda ypos days = ([], ypos).
Proof.
  intros Hy. induction days as [|d days IH]; [reflexivity|].
  cbn [agenda]. by rewrite decide_False by rows_lia.
Qed.

Lemma agenda_events_spec (es : list Event) (ypos : Z) :
  line_of <$> (agenda_events ypos es).1
    = take (length (agenda_events ypos es).1) (event_lines es)
  ∧ Forall (λ c, ypos ≤ row_of c < agenda_budget) (agenda_events ypos es).1
  ∧ ypos ≤ (agenda_events ypos es).2
  ∧ ((length (agenda_events ypos es).1 < length (event_lines es))%nat →
     agenda_budget ≤ (agenda_events ypos es).2).
Proof.
  revert ypos. induction es as [|e es IH]; intros ypos.
  - cbn. repeat split; [constructor|lia|lia].
  - cbn [agenda_events]. case_decide as Hy.
    + specialize (IH (ypos + lineheight)).
      destruct (agenda_events (ypos + lineheight) es) as [ops y'] eqn:Hrec.
      cbn in IH |- *. destruct IH as (Hl & Hf & Hm & Ht).
      repeat split.
      * by rewrite Hl.
      * constructor; [rows_lia|].
        eapply Forall_impl; [exact Hf|]. intros c Hc. rows_lia.
      * rows_lia.
      * intros Hlen. apply Ht. unfold event_lines in *.
        rewrite length_fmap in *. lia.
    + rewrite agenda_events_full by rows_lia.
      cbn. repeat split; [constructor|lia|].
      intros _. rows_lia.
Qed.

Lemma agenda_spec (days : list Day) (ypos : Z) :
  line_of <$> (agenda ypos days).1
    = take (length (agenda ypos days).1) (agenda_lines days)
  ∧ Forall (λ c, ypos ≤ row_of c < agenda_budget) (agenda ypos days).1
  ∧ ypos ≤ (agenda ypos days).2
  ∧ ((length (agenda ypos days).1 < length (agenda_lines days))%nat →
     agenda_budget ≤ (agenda ypos days).2).
Proof.
  revert ypos. induction days as [|d days IH]; intros ypos.
  - cbn. repeat split; [constructor|lia|lia].
  - cbn [agenda]. case_decide as Hy.
    + pose proof (agenda_events_spec (events d) (ypos + lineheight))
        as (Hl1 & Hf1 & Hm1 & Ht1).
      destruct (agenda_events (ypos + lineheight) (events d)) as [ops1 y1] eqn:H1.
      specialize (IH (y1 + 6)).
      destruct (agenda (y1 + 6) days) as [ops2 y2] eqn:H2.
      cbn in Hl1, Hf1, Hm1, Ht1, IH |- *.
      destruct IH as (Hl2 & Hf2 & Hm2 & Ht2).
      change (days ≫= day_lines) with (agenda_lines days).
      assert (Hlen1 : (length ops1 ≤ length (event_lines (events d)))%nat).
      { rewrite <- (length_fmap line_of ops1), Hl1, length_take. lia. }
      destruct (decide (length ops1 = length (event_lines (events d)))) as [He|He].
      * (* every event of the day was drawn *)
        rewrite He, take_ge in Hl1 by lia.
        repeat split.
        -- f_equal. rewrite fmap_app, Hl1, Hl2, length_app, take_app_ge by lia.
           f_equal. f_equal. lia.
        -- constructor; [rows_lia|].
           apply Forall_app. split.
           ++ eapply Forall_impl; [exact Hf1|]. intros c Hc. rows_lia.
           ++ eapply Forall_impl; [exact Hf2|]. intros c Hc. rows_lia.
        -- rows_lia.
        -- intros Hlt. apply Ht2. cbn in Hlt.
           rewrite !length_app in Hlt. lia.
      * (* the day was cut: the budget is used up *)
        assert (Hcut : agenda_budget ≤ y1) by (apply Ht1; lia).
        rewrite agenda_full in H2 by rows_lia. injection H2 as <- <-.
        rewrite app_nil_r. repeat split.
        -- f_equal. rewrite Hl1. by rewrite take_app_le by lia.
        -- constructor; [rows_lia|].
           eapply Forall_impl; [exact Hf1|]. intros c Hc. rows_lia.
        -- rows_lia.
        -- intros _. lia.
    + rewrite agenda_full by rows_lia.
      cbn. repeat split; [constructor|lia|].
      intros _. rows_lia.
Qed.


(** ** The forecast strip *)

Section Forecast.

Context {temperature : Type} (fmt_temp : temperature → string).
Implicit Types (x : Sample (temperature := temperature)).

Lemma result_bind_Ok {A B} (f : A → result B) (m : result A) (b : B) :
  m ≫= f = Ok b ↔ ∃ a, m = Ok a ∧ f a = Ok b.
Proof.
  destruct m as [a|e]; cbn; split.
  - eauto.
  - by intros (a' & [= <-] & ?).
  - discriminate.
  - by intros (a' & ? & _).
Qed.

Lemma nearterm_loop_seq (l : list Sample) (n i : nat) (xpos : Z) :
  nearterm_loop fmt_temp l (seq i n) xpos
  = (λ ops, (ops, xpos + 80 * Z.of_nat (length (take n (drop i l)))))
      <$> nearterm_layout fmt_temp xpos (take n (drop i l)).
Proof.
  revert i xpos. induction n as [|n IH]; intros i xpos.
  - cbn. rewrite take_0. cbn. do 2 f_equal. lia.
  - cbn [seq nearterm_loop]. destruct (l !! i) as [x|] eqn:Hi.
    + rewrite (drop_S _ _ _ Hi). cbn [take nearterm_layout length].
      rewrite IH.
      destruct (nearterm_slot fmt_temp xpos x) as [ops|e]; [|reflexivity].
      cbn.
      destruct (nearterm_layout fmt_temp (xpos + 80) (take n (drop (S i) l)))
        as [ops'|e]; [|reflexivity].
      cbn. do 2 f_equal. lia.
    + rewrite IH.
      apply lookup_ge_None in Hi.
      rewrite !drop_ge by lia. rewrite !take_nil. cbn. do 2 f_equal.
Qed.

(** C8. The loop over [range(7)] lays out exactly the samples of
    [shown_nearterm], one slot each from x = 50 at a stride of 80: at
    most seven of them, each strictly after now, in the order of the
    series; and these slots are the near-term part of the forecast
    strip, before the divider and the daily slots. *)
Theorem nearterm_slots_future (now : Py.datetime) (nearterm : Weather) :
  nearterm_loop fmt_temp (filter (λ x, timestamp x > now) (data nearterm))
                (seq 0 7) 50
  = (λ ops, (ops, 50 + 80 * Z.of_nat (length (shown_nearterm now nearterm))))
      <$> nearterm_layout fmt_temp 50 (shown_nearterm now nearterm)
  ∧ (length (shown_nearterm now nearterm) ≤ 7)%nat
  ∧ Forall (λ x, now < timestamp x) (shown_nearterm now nearterm)
  ∧ shown_nearterm now nearterm `sublist_of` data nearterm
  ∧ ∀ (height : Z) (daily : Weather),
      forecast_strip fmt_temp now height (nearterm, daily)
      = (slots ← nearterm_layout fmt_temp 50 (shown_nearterm now nearterm);
         let xpos := 50 + 80 * Z.of_nat (length (shown_nearterm now nearterm)) in
         divider ← draw_rectangle Black (xpos - 21) bottomgutter (xpos - 19) height 0;
         pairs ← daily_loop fmt_temp (data daily) [2; 4; 6]%nat (xpos + 40);
         mret (slots ++ divider :: pairs)).
Proof.
  unfold shown_nearterm. split; [|split; [|split; [|split]]].
  5:{ intros height daily. unfold forecast_strip. cbn [fst snd].
      rewrite nearterm_loop_seq, drop_0.
      by destruct (nearterm_layout fmt_temp 50
                     (take 7 (filter (λ x, timestamp x > now) (data nearterm)))). }
  - by rewrite nearterm_loop_seq, drop_0.
  - rewrite length_take. lia.
  - apply Forall_forall. intros x Hx.
    apply subseteq_take in Hx. apply list_elem_of_filter in Hx as [Hx _]. lia.
  - etrans; [apply sublist_take|]. apply sublist_filter.
Qed.

Lemma getitem_Ok {A} (l : list A) (i : nat) (a : A) :
  getitem l i = Ok a ↔ l !! i = Some a.
Proof.
  unfold getitem. destruct (l !! i); split; intros; simplify_eq; done.
Qed.

Lemma day_night_pairs_lookup {A} (l : list A) (k : nat) (p : A * A) :
  day_night_pairs l !! k = Some p
  ↔ l !! (2 * k)%nat = Some p.1 ∧ l !! (2 * k + 1)%nat = Some p.2.
Proof.
  revert l. induction k as [|k IH]; intros l.
  - destruct l as [|a [|b l]]; cbn; destruct p as [p1 p2]; cbn.
    + split; [done|]. by intros [? _].
    + split; [done|]. by intros [_ ?].
    + split; [by intros [= <- <-]|]. by intros [[= <-] [= <-]].
  - destruct l as [|a [|b l]].
    + cbn. split; [done|]. by intros [? _].
    + cbn. split; [done|]. intros [H _].
      replace (k + S (k + 0))%nat with (S (k + (k + 0)))%nat in H by lia. done.
    + cbn [day_night_pairs].
      replace (2 * S k)%nat with (S (S (2 * k))) by lia.
      replace (S (S (2 * k)) + 1)%nat with (S (S (2 * k + 1))) by lia.
      change (day_night_pairs l !! k = Some p
              ↔ l !! (2 * k)%nat = Some p.1 ∧ l !! (2 * k + 1)%nat = Some p.2).
      apply IH.
Qed.

Lemma daily_slot_pair (daily : list Sample) (xpos : Z) (k : nat) (calls : list draw) :
  daily_slot fmt_temp daily xpos (2 * k) = Ok calls
  ↔ ∃ pair, day_night_pairs daily !! k = Some pair
            ∧ pair_slot fmt_temp xpos pair = Ok calls.
Proof.
  unfold daily_slot. split.
  - intros H.
    apply result_bind_Ok in H as (d & Hd & H). apply getitem_Ok in Hd.
    apply result_bind_Ok in H as (g & Hg & H).
    apply result_bind_Ok in H as (tmax & Hmax & H).
    apply result_bind_Ok in H as (n & Hn & H). apply getitem_Ok in Hn.
    apply result_bind_Ok in H as (tmin & Hmin & H).
    exists (d, n). split; [by apply day_night_pairs_lookup|].
    cbn [pair_slot]. rewrite Hg. cbn. rewrite Hmax. cbn. rewrite Hmin. exact H.
  - intros ([d n] & Hp & H). apply day_night_pairs_lookup in Hp as [Hd Hn].
    cbn [fst snd] in Hd, Hn. apply getitem_Ok in Hd, Hn.
    cbn [pair_slot] in H.
    apply result_bind_Ok in H as (g & Hg & H).
    apply result_bind_Ok in H as (tmax & Hmax & H).
    apply result_bind_Ok in H as (tmin & Hmin & H).
    rewrite Hd. cbn [mbind result_bind]. rewrite Hg. cbn [mbind result_bind].
    rewrite Hmax. cbn [mbind result_bind]. rewrite Hn. cbn [mbind result_bind].
    rewrite Hmin. exact H.
Qed.

(** The loop over [[2,4,6]] succeeds exactly when the pairs of an
    even position and the following odd one at positions (2,3), (4,5)
    and (6,7) exist and resolve; its calls are then the three slots of
    these pairs, at a stride of 80, each with the weekday abbreviation
    and glyph of the day sample, the day maximum as primary and the
    night minimum as secondary temperature. *)
Lemma daily_slots_pairs (daily : list Sample) (xpos : Z) (calls : list draw) :
  daily_loop fmt_temp daily [2; 4; 6]%nat xpos = Ok calls
  ↔ ∃ p1 p2 p3 c1 c2 c3,
      day_night_pairs daily !! 1%nat = Some p1
      ∧ day_night_pairs daily !! 2%nat = Some p2
      ∧ day_night_pairs daily !! 3%nat = Some p3
      ∧ pair_slot fmt_temp xpos p1 = Ok c1
      ∧ pair_slot fmt_temp (xpos + 80) p2 = Ok c2
      ∧ pair_slot fmt_temp (xpos + 80 + 80) p3 = Ok c3
      ∧ calls = c1 ++ c2 ++ c3.
Proof.
  cbn [daily_loop]. split.
  - intros H.
    apply result_bind_Ok in H as (c1 & H1 & H).
    apply result_bind_Ok in H as (r1 & H & [= <-]).
    apply result_bind_Ok in H as (c2 & H2 & H).
    apply result_bind_Ok in H as (r2 & H & [= <-]).
    apply result_bind_Ok in H as (c3 & H3 & H).
    apply result_bind_Ok in H as (r3 & [= <-] & [= <-]).
    apply (daily_slot_pair daily _ 1) in H1 as (p1 & ? & ?).
    apply (daily_slot_pair daily _ 2) in H2 as (p2 & ? & ?).
    apply (daily_slot_pair daily _ 3) in H3 as (p3 & ? & ?).
    exists p1, p2, p3, c1, c2, c3. by rewrite app_nil_r.
  - intros (p1 & p2 & p3 & c1 & c2 & c3 & Hp1 & Hp2 & Hp3 & H1 & H2 & H3 & ->).
    assert (D1 : daily_slot fmt_temp daily xpos 2 = Ok c1)
      by (apply (daily_slot_pair daily _ 1); eauto).
    assert (D2 : daily_slot fmt_temp daily (xpos + 80) 4 = Ok c2)
      by (apply (daily_slot_pair daily _ 2); eauto).
    assert (D3 : daily_slot fmt_temp daily (xpos + 80 + 80) 6 = Ok c3)
      by (apply (daily_slot_pair daily _ 3); eauto).
    rewrite D1. cbn. rewrite D2. cbn. rewrite D3. cbn. by rewrite app_nil_r.
Qed.

End Forecast.

(** With ten daily samples the three slots come from the positions 2 to
    7; the pair at the positions 0 and 1 is not drawn. *)
Example daily_loop_three_slots :
  ∃ p1 p2 p3 c1 c2 c3,
    day_night_pairs (data (forecast_with 7).2) !! 1%nat = Some p1
    ∧ day_night_pairs (data (forecast_with 7).2) !! 2%nat = Some p2
    ∧ day_night_pairs (data (forecast_with 7).2) !! 3%nat = Some p3
    ∧ pair_slot pretty 410 p1 = Ok c1
    ∧ pair_slot pretty (410 + 80) p2 = Ok c2
    ∧ pair_slot pretty (410 + 80 + 80) p3 = Ok c3
    ∧ [ text Red 410 420 "Thu" DateSmall 0 mt;
        text Black 410 465 "N" Meteocons 0 mm;
        text Black 395 500 ("9" +:+ degree) DateSmall 0 mt;
        text Black 425 500 ("1" +:+ degree) Pixellari16 0 mt;
        text Red 490 420 "Fri" DateSmall 0 mt;
        text Black 490 465 "N" Meteocons 0 mm;
        text Black 475 500 ("9" +:+ degree) DateSmall 0 mt;
        text Black 505 500 ("1" +:+ degree) Pixellari16 0 mt;
        text Red 570 420 "Sat" DateSmall 0 mt;
        text Black 570 465 "N" Meteocons 0 mm;
        text Black 555 500 ("9" +:+ degree) DateSmall 0 mt;
        text Black 585 500 ("1" +:+ degree) Pixellari16 0 mt ]
      = c1 ++ c2 ++ c3.
Proof.
  apply (proj1 (daily_slots_pairs pretty (data (forecast_with 7).2) 410 _)).
  vm_compute. reflexivity.
Qed.

(** Of twelve samples from 09:00 on, the one at 09:00 and the one at noon
    are not after noon; the next seven are drawn, from 15:00 to 09:00. *)
Example nearterm_seven_slots :
  timestamp <$> shown_nearterm noon (forecast_with 7).1
  = (λ k, Py.at_time 739924 (15 + 3 * k) 0 0) <$> seqZ 0 7.
Proof. vm_compute. reflexivity. Qed.

(** ** The frame without a forecast *)

Lemma days_in_month_bound (y m : Z) : 28 ≤ Py.days_in_month y m ≤ 31.
Proof. unfold Py.days_in_month. repeat case_match; lia. Qed.

Lemma weekday_bound (d : Z) : 0 ≤ Py.weekday d ≤ 6.
Proof. unfold Py.weekday. pose proof (Z.mod_pos_bound (d + 6) 7). lia. Qed.

Lemma minicalendar_days_above (today : Z) (ds : list nat) (dayofweek caly : Z) :
  0 ≤ dayofweek →
  7 * caly + 20 * (dayofweek + Z.of_nat (length ds) - 1) < 7 * bottomgutter →
  Forall placed_above_strip (minicalendar_days today ds dayofweek caly).
Proof.
  revert dayofweek caly. induction ds as [|day ds IH]; intros dayofweek caly Hd Hr.
  - constructor.
  - cbn [minicalendar_days length] in *.
    assert (Htail : Forall placed_above_strip
              (if decide (dayofweek + 1 = 7)
               then minicalendar_days today ds 0 (caly + yinc)
               else minicalendar_days today ds (dayofweek + 1) caly)).
    { case_decide; apply IH; unfold yinc; lia. }
    constructor; [cbn; lia|].
    apply Forall_app. split; [|exact Htail].
    destruct (decide (Z.of_nat day + 1 = today)); repeat constructor.
    cbn. lia.
Qed.

Lemma minicalendar_above (now : Py.datetime) :
  Forall placed_above_strip (minicalendar now).
Proof.
  unfold minicalendar, Py.monthrange.
  pose proof (days_in_month_bound (Py.year now) (Py.month now)) as Hdim.
  pose proof (weekday_bound (Py.ymd2ord (Py.year now) (Py.month now) 1)) as Hwd.
  apply Forall_app. split; [|apply Forall_app; split].
  - cbn. repeat constructor; cbn; unfold bottomgutter; lia.
  - constructor; [|constructor]. cbn. unfold bottomgutter, yinc. lia.
  - apply minicalendar_days_above; [lia|].
    rewrite length_seq. unfold bottomgutter, yinc. lia.
Qed.

Lemma agenda_above (days : list Day) :
  Forall placed_above_strip (agenda 20 days).1.
Proof.
  pose proof (agenda_spec days 20) as (Hl & Hf & _).
  assert (Htext : ∀ ypos ds, Forall (λ c, ∃ p x y s f z a, c = text p x y s f z a)
                               (agenda ypos ds).1).
  { intros ypos ds. revert ypos. induction ds as [|d ds IHd]; intros ypos; cbn.
    - constructor.
    - case_decide; [|apply IHd].
      assert (He : ∀ y es, Forall (λ c, ∃ p x y s f z a, c = text p x y s f z a)
                             (agenda_events y es).1).
      { intros y es. revert y. induction es as [|e es IHe]; intros y; cbn.
        - constructor.
        - case_decide; [|apply IHe]. specialize (IHe (y + lineheight)).
          destruct (agenda_events (y + lineheight) es). cbn in *.
          constructor; [|done]. do 7 eexists; reflexivity. }
      specialize (He (ypos + lineheight) (events d)).
      destruct (agenda_events (ypos + lineheight) (events d)) as [o1 y1].
      specialize (IHd (y1 + 6)). destruct (agenda (y1 + 6) ds) as [o2 y2].
      cbn in *. constructor; [do 7 eexists; reflexivity|].
      apply Forall_app. done. }
  specialize (Htext 20 days).
  rewrite Forall_forall in *. intros c Hc.
  destruct (Htext c Hc) as (p & x & y & s' & f & z & a & ->).
  specialize (Hf _ Hc). cbn [placed_above_strip]. rows_lia.
Qed.

Lemma draw_rectangle_Ok (p : plane) (x0 y0 x1 y1 fill : Z) (c : draw) :
  draw_rectangle p x0 y0 x1 y1 fill = Ok c
  ↔ x0 ≤ x1 ∧ y0 ≤ y1 ∧ c = rectangle p x0 y0 x1 y1 fill.
Proof.
  unfold draw_rectangle. case_decide as H; split.
  - intros [= <-]. tauto.
  - by intros (_ & _ & ->).
  - discriminate.
  - tauto.
Qed.

Section FrameWithoutForecast.

Context {temperature : Type} (fmt_temp : temperature → string).

(** On an image of a size that [Image.new] accepts the frame is the calls
    before the block of the forecast, those of the block, and the mini
    calendar; on any other the call raises. *)
Lemma renderFrame_calls (now : Py.datetime) (width height : Z) (days : list Day)
    (weather : option (Weather * Weather)) :
  0 ≤ width → 0 ≤ height →
  renderFrame fmt_temp now width height days weather
  = (forecast ← match weather with
                | Some w => forecast_strip fmt_temp now height w
                | None => mret []
                end;
     mret (mkFrame width height
             (frame_head now width days ++ forecast ++ minicalendar now))).
Proof.
  intros Hw Hh. unfold renderFrame, image_new, draw_rectangle, frame_head.
  rewrite decide_True by done. cbn [mbind result_bind].
  rewrite decide_True by (unfold bottomgutter; lia). cbn [mbind result_bind].
  destruct (match weather with
            | Some w => forecast_strip fmt_temp now height w
            | None => mret []
            end) as [forecast|e]; [|done].
  cbn [mbind result_bind mret result_ret]. do 2 f_equal.
  by rewrite <- !app_assoc.
Qed.

Lemma renderFrame_size_error (now : Py.datetime) (width height : Z) (days : list Day)
    (weather : option (Weather * Weather)) :
  ¬ (0 ≤ width ∧ 0 ≤ height) →
  renderFrame fmt_temp now width height days weather = Raise ValueError.
Proof.
  intros H. unfold renderFrame, image_new. by rewrite decide_False.
Qed.

Lemma nearterm_slot_in_strip (height xpos : Z) (x : Sample) (ops : list draw) :
  nearterm_slot fmt_temp xpos x = Ok ops → Forall (placed_in_strip height) ops.
Proof.
  unfold nearterm_slot. intros H.
  apply result_bind_Ok in H as (g & _ & H).
  apply result_bind_Ok in H as (t & _ & [= <-]).
  repeat constructor; cbn; lia.
Qed.

Lemma nearterm_loop_in_strip (height : Z) (l : list Sample) (range : list nat)
    (xpos : Z) (r : list draw * Z) :
  nearterm_loop fmt_temp l range xpos = Ok r → Forall (placed_in_strip height) r.1.
Proof.
  revert xpos r. induction range as [|i range IH]; intros xpos r; cbn [nearterm_loop].
  - intros [= <-]. constructor.
  - destruct (l !! i) as [x|]; [|apply IH].
    intros H. apply result_bind_Ok in H as (ops & Hops & H).
    apply result_bind_Ok in H as (r' & Hr' & [= <-]).
    cbn. apply Forall_app. split.
    + by eapply nearterm_slot_in_strip.
    + by eapply IH.
Qed.

Lemma daily_loop_in_strip (height : Z) (daily : list Sample) (indices : list nat)
    (xpos : Z) (ops : list draw) :
  daily_loop fmt_temp daily indices xpos = Ok ops → Forall (placed_in_strip height) ops.
Proof.
  revert xpos ops. induction indices as [|i indices IH]; intros xpos ops;
    cbn [daily_loop].
  - intros [= <-]. constructor.
  - intros H. apply result_bind_Ok in H as (o1 & H1 & H).
    apply result_bind_Ok in H as (o2 & H2 & [= <-]).
    apply Forall_app. split; [|by eapply IH].
    unfold daily_slot in H1.
    apply result_bind_Ok in H1 as (d & _ & H1).
    apply result_bind_Ok in H1 as (g & _ & H1).
    apply result_bind_Ok in H1 as (tmax & _ & H1).
    apply result_bind_Ok in H1 as (n & _ & H1).
    apply result_bind_Ok in H1 as (tmin & _ & [= <-]).
    repeat constructor; cbn; lia.
Qed.

Lemma forecast_strip_in_strip (now : Py.datetime) (height : Z)
    (weather : Weather * Weather) (strip : list draw) :
  forecast_strip fmt_temp now height weather = Ok strip →
  Forall (placed_in_strip height) strip ∧ strip ≠ [].
Proof.
  unfold forecast_strip. intros H.
  apply result_bind_Ok in H as (r & Hr & H).
  apply result_bind_Ok in H as (divider & Hdiv & H).
  apply result_bind_Ok in H as (daily & Hd & [= <-]).
  apply draw_rectangle_Ok in Hdiv as (_ & Hheight & ->).
  split; [|by destruct r.1].
  apply Forall_app. split; [by eapply nearterm_loop_in_strip|].
  constructor; [by cbn|]. by eapply daily_loop_in_strip.
Qed.

(** C3, as the code behaves.  On an image of a size that [Image.new]
    accepts, the frame without a forecast is made of the calls [before]
    and [after].  Apart from the left border, whose lower edge is row 400,
    and the rule over the rows 399 to 401, each of them is given
    coordinates above the strip: a rectangle ends above row 400 and a text
    is anchored above it.  The border and the rule are drawn whether or
    not there is a forecast.  With a forecast that can be drawn the frame
    has the same calls and, between them, those of the block of the
    forecast, which are not empty and are all given coordinates of the
    strip; with one that cannot be drawn there is no frame. *)
Theorem renderFrame_forecast_absent (now : Py.datetime) (width height : Z)
    (days : list Day) :
  0 ≤ width → 0 ≤ height →
  ∃ before after : list draw,
    renderFrame fmt_temp now width height days None
      = Ok (mkFrame width height (before ++ after))
    ∧ (∀ c, c ∈ before ++ after →
            c = left_border ∨ c = gutter_rule width ∨ placed_above_strip c)
    ∧ left_border ∈ before ∧ gutter_rule width ∈ before
    ∧ ∀ weather : Weather * Weather,
        match forecast_strip fmt_temp now height weather with
        | Ok strip =>
          renderFrame fmt_temp now width height days (Some weather)
            = Ok (mkFrame width height (before ++ strip ++ after))
          ∧ Forall (placed_in_strip height) strip
          ∧ strip ≠ []
        | Raise e =>
          renderFrame fmt_temp now width height days (Some weather) = Raise e
        end.
Proof.
  intros Hw Hh.
  exists (frame_head now width days), (minicalendar now).
  split; [|split; [|split; [|split]]].
  - by rewrite renderFrame_calls.
  - intros c Hc. unfold frame_head, date_panel in Hc.
    rewrite !elem_of_app in Hc.
    destruct Hc as [[Hc|[Hc|[Hc|Hc]]]|Hc].
    + apply list_elem_of_singleton in Hc. by left.
    + right; right.
      repeat (apply elem_of_cons in Hc as [->|Hc]; [cbn; unfold bottomgutter; lia|]).
      by apply elem_of_nil in Hc.
    + right; right. pose proof (agenda_above days) as Ha.
      rewrite Forall_forall in Ha. by apply (Ha c).
    + apply list_elem_of_singleton in Hc. right. by left.
    + right; right. pose proof (minicalendar_above now) as Hm.
      rewrite Forall_forall in Hm. by apply (Hm c).
  - unfold frame_head. set_solver.
  - unfold frame_head. set_solver.
  - intros weather. rewrite renderFrame_calls by done.
    destruct (forecast_strip fmt_temp now height weather) as [strip|e] eqn:Hs; [|done].
    split; [reflexivity|by eapply forecast_strip_in_strip].
Qed.

End FrameWithoutForecast.

(** The default size, with and without a forecast. *)
Lemma renderFrame_forecast_absent_witness :
  ∃ before after : list draw,
    renderFrame (temperature := Z) pretty noon 880 528 (eventsToDays noon two_days 7) None
      = Ok (mkFrame 880 528 (before ++ after))
    ∧ (∀ c, c ∈ before ++ after →
            c = left_border ∨ c = gutter_rule 880 ∨ placed_above_strip c)
    ∧ left_border ∈ before ∧ gutter_rule 880 ∈ before
    ∧ ∀ weather : Weather * Weather,
        match forecast_strip (temperature := Z) pretty noon 528 weather with
        | Ok strip =>
          renderFrame (temperature := Z) pretty noon 880 528 (eventsToDays noon two_days 7) (Some weather)
            = Ok (mkFrame 880 528 (before ++ strip ++ after))
          ∧ Forall (placed_in_strip 528) strip
          ∧ strip ≠ []
        | Raise e =>
          renderFrame (temperature := Z) pretty noon 880 528 (eventsToDays noon two_days 7) (Some weather)
          = Raise e
        end.
Proof.
  apply (renderFrame_forecast_absent (temperature := Z) pretty noon 880 528 (eventsToDays noon two_days 7)).
  - lia.
  - lia.
Defined.

(** An image of a negative size is refused, with or without a forecast;
    so is, with a forecast, one that is less than 400 rows high. *)
Example renderFrame_refused_sizes :
  renderFrame (temperature := Z) pretty noon (-1) 528 [] None = Raise ValueError
  ∧ renderFrame (temperature := Z) pretty noon 880 399 [] None
    = Ok (mkFrame 880 399 (frame_head noon 880 [] ++ minicalendar noon))
  ∧ renderFrame pretty noon 880 399 [] (Some (forecast_with 7)) = Raise ValueError.
Proof. repeat split; vm_compute; reflexivity. Qed.

(** C3, as stated, fails: with no forecast and an empty agenda the rule
    above the strip is still drawn, a black rectangle over the whole
    width of the rows 399 to 401, of which 400 and 401 are rows of the
    strip. *)
Lemma forecast_absent_strip_not_blank :
  ∃ f : Frame,
    renderFrame (temperature := Z) pretty (Py.at_time 739924 12 0 0) 880 528 [] None
      = Ok f
    ∧ rectangle Black 0 399 880 401 0 ∈ calls f
    ∧ 399 ≤ bottomgutter ∧ bottomgutter + 1 ≤ 401 ∧ 401 < 528.
Proof.
  eexists. split; [vm_compute; reflexivity|].
  split; [|unfold bottomgutter; lia].
  cbn [calls]. rewrite !elem_of_cons. tauto.
Qed.

(** ** The daily slots in the frame *)

Section DailySlots.

Context {temperature : Type} (fmt_temp : temperature → string).

(** The block of the forecast succeeds exactly when the near-term
    samples shown resolve, the image is high enough for the divider, and
    the pairs at the positions (2,3), (4,5) and (6,7) of the daily series
    exist and resolve; its calls are then the near-term slots, the
    divider and the slots of these three pairs. *)
Lemma forecast_strip_pairs (now : Py.datetime) (height : Z) (nearterm daily : Weather)
    (strip : list draw) :
  forecast_strip fmt_temp now height (nearterm, daily) = Ok strip
  ↔ bottomgutter ≤ height
    ∧ ∃ slots p1 p2 p3 c1 c2 c3,
        nearterm_layout fmt_temp 50 (shown_nearterm now nearterm) = Ok slots
        ∧ day_night_pairs (data daily) !! 1%nat = Some p1
        ∧ day_night_pairs (data daily) !! 2%nat = Some p2
        ∧ day_night_pairs (data daily) !! 3%nat = Some p3
        ∧ pair_slot fmt_temp (strip_xpos now nearterm + 40) p1 = Ok c1
        ∧ pair_slot fmt_temp (strip_xpos now nearterm + 40 + 80) p2 = Ok c2
        ∧ pair_slot fmt_temp (strip_xpos now nearterm + 40 + 80 + 80) p3 = Ok c3
        ∧ strip = slots ++ strip_divider now nearterm height :: c1 ++ c2 ++ c3.
Proof.
  unfold forecast_strip. cbn [fst snd].
  rewrite nearterm_loop_seq, drop_0.
  fold (shown_nearterm now nearterm). fold (strip_xpos now nearterm).
  destruct (nearterm_layout fmt_temp 50 (shown_nearterm now nearterm)) as [slots|e].
  2:{ cbn. split; [discriminate|]. by intros (_ & ? & ? & ? & ? & ? & ? & ? & [=] & _). }
  cbn [fmap result_fmap mbind result_bind fst snd].
  unfold draw_rectangle. case_decide as Hd; cbn [mbind result_bind].
  2:{ split; [discriminate|]. intros [Hh _]. lia. }
  fold (strip_divider now nearterm height).
  split.
  - intros H. apply result_bind_Ok in H as (pairs & Hp & [= <-]).
    apply daily_slots_pairs in Hp
      as (p1 & p2 & p3 & c1 & c2 & c3 & ? & ? & ? & ? & ? & ? & ->).
    split; [lia|]. exists slots, p1, p2, p3, c1, c2, c3. done.
  - intros (_ & slots' & p1 & p2 & p3 & c1 & c2 & c3
            & [= <-] & Hp1 & Hp2 & Hp3 & Hc1 & Hc2 & Hc3 & ->).
    assert (Hp : daily_loop fmt_temp (data daily) [2; 4; 6]%nat
                   (strip_xpos now nearterm + 40) = Ok (c1 ++ c2 ++ c3)).
    { apply daily_slots_pairs. exists p1, p2, p3, c1, c2, c3. done. }
    by rewrite Hp.
Qed.

(** C4, as the code behaves.  A frame with a forecast is drawn exactly
    when the image has a size that is accepted, the near-term samples
    shown resolve, and the daily series has the pairs of an even position
    and the odd one that follows it at the positions (2,3), (4,5) and
    (6,7), each resolving to a slot: the weekday abbreviation and glyph of
    the day sample, its day maximum as primary and the night minimum of
    the night sample as secondary temperature.  The frame then holds,
    after the near-term slots and the divider, the slots of these three
    pairs at a stride of 80, and no other daily slot; the pair at the
    positions (0,1) is not drawn.  A daily series of fewer than eight
    samples gives no frame. *)
Theorem renderFrame_daily_slots (now : Py.datetime) (width height : Z)
    (days : list Day) (nearterm daily : Weather) :
  (∀ frame : Frame,
     renderFrame fmt_temp now width height days (Some (nearterm, daily)) = Ok frame
     ↔ 0 ≤ width
       ∧ bottomgutter ≤ height
       ∧ ∃ slots p1 p2 p3 c1 c2 c3,
           nearterm_layout fmt_temp 50 (shown_nearterm now nearterm) = Ok slots
           ∧ day_night_pairs (data daily) !! 1%nat = Some p1
           ∧ day_night_pairs (data daily) !! 2%nat = Some p2
           ∧ day_night_pairs (data daily) !! 3%nat = Some p3
           ∧ pair_slot fmt_temp (strip_xpos now nearterm + 40) p1 = Ok c1
           ∧ pair_slot fmt_temp (strip_xpos now nearterm + 40 + 80) p2 = Ok c2
           ∧ pair_slot fmt_temp (strip_xpos now nearterm + 40 + 80 + 80) p3 = Ok c3
           ∧ frame
             = mkFrame width height
                 (frame_head now width days
                  ++ (slots ++ strip_divider now nearterm height :: c1 ++ c2 ++ c3)
                  ++ minicalendar now))
  ∧ ((length (data daily) < 8)%nat →
     ¬ is_Ok (renderFrame fmt_temp now width height days (Some (nearterm, daily)))).
Proof.
  assert (Hiff : ∀ frame : Frame,
     renderFrame fmt_temp now width height days (Some (nearterm, daily)) = Ok frame
     ↔ 0 ≤ width
       ∧ bottomgutter ≤ height
       ∧ ∃ slots p1 p2 p3 c1 c2 c3,
           nearterm_layout fmt_temp 50 (shown_nearterm now nearterm) = Ok slots
           ∧ day_night_pairs (data daily) !! 1%nat = Some p1
           ∧ day_night_pairs (data daily) !! 2%nat = Some p2
           ∧ day_night_pairs (data daily) !! 3%nat = Some p3
           ∧ pair_slot fmt_temp (strip_xpos now nearterm + 40) p1 = Ok c1
           ∧ pair_slot fmt_temp (strip_xpos now nearterm + 40 + 80) p2 = Ok c2
           ∧ pair_slot fmt_temp (strip_xpos now nearterm + 40 + 80 + 80) p3 = Ok c3
           ∧ frame
             = mkFrame width height
                 (frame_head now width days
                  ++ (slots ++ strip_divider now nearterm height :: c1 ++ c2 ++ c3)
                  ++ minicalendar now)).
  { intros frame.
    destruct (decide (0 ≤ width ∧ 0 ≤ height)) as [[Hw Hh]|Hsize].
    2:{ rewrite (renderFrame_size_error fmt_temp) by done.
        split; [discriminate|]. intros (? & Hh & _). unfold bottomgutter in Hh. lia. }
    rewrite (renderFrame_calls fmt_temp) by done. split.
    - intros H. apply result_bind_Ok in H as (strip & Hs & [= <-]).
      apply forecast_strip_pairs in Hs
        as (Hheight & slots & p1 & p2 & p3 & c1 & c2 & c3
            & ? & ? & ? & ? & ? & ? & ? & ->).
      split; [done|]. split; [done|].
      exists slots, p1, p2, p3, c1, c2, c3. done.
    - intros (_ & Hheight & slots & p1 & p2 & p3 & c1 & c2 & c3
              & Hl & Hp1 & Hp2 & Hp3 & Hc1 & Hc2 & Hc3 & ->).
      assert (Hs : forecast_strip fmt_temp now height (nearterm, daily)
                   = Ok (slots ++ strip_divider now nearterm height :: c1 ++ c2 ++ c3)).
      { apply forecast_strip_pairs. split; [done|].
        exists slots, p1, p2, p3, c1, c2, c3. done. }
      by rewrite Hs. }
  split; [exact Hiff|].
  intros Hlen [frame Hframe].
  apply Hiff in Hframe as (_ & _ & slots & p1 & p2 & p3 & c1 & c2 & c3
                           & _ & _ & _ & Hp3 & _).
  apply day_night_pairs_lookup in Hp3 as [_ Hp3].
  apply lookup_lt_Some in Hp3. lia.
Qed.

End DailySlots.

(** With ten daily samples and seven near-term slots the frame holds,
    after the calls before the forecast, the 21 calls of the near-term
    slots and the divider, the three daily slots of the positions 2 to 7,
    from column 650: Thursday to Saturday, when the series starts on
    Wednesday. *)
Example renderFrame_daily_slots_drawn :
  ∃ frame : Frame,
    renderFrame pretty noon 880 528 [] (Some (forecast_with 7)) = Ok frame
    ∧ strip_xpos noon (forecast_with 7).1 + 40 = 650
    ∧ take 12 (drop (length (frame_head noon 880 []) + 7 * 3 + 1) (calls frame))
      = [ text Red 650 420 "Thu" DateSmall 0 mt;
          text Black 650 465 "N" Meteocons 0 mm;
          text Black 635 500 ("9" +:+ degree) DateSmall 0 mt;
          text Black 665 500 ("1" +:+ degree) Pixellari16 0 mt;
          text Red 730 420 "Fri" DateSmall 0 mt;
          text Black 730 465 "N" Meteocons 0 mm;
          text Black 715 500 ("9" +:+ degree) DateSmall 0 mt;
          text Black 745 500 ("1" +:+ degree) Pixellari16 0 mt;
          text Red 810 420 "Sat" DateSmall 0 mt;
          text Black 810 465 "N" Meteocons 0 mm;
          text Black 795 500 ("9" +:+ degree) DateSmall 0 mt;
          text Black 825 500 ("1" +:+ degree) Pixellari16 0 mt ].
Proof.
  eexists. split; [vm_compute; reflexivity|]. split; [vm_compute; reflexivity|].
  vm_compute. reflexivity.
Qed.

(** C4, as stated, fails: a daily series of exactly three pairs of a day
    and a night sample, each of which resolves, yields no slot at all; the
    loop reads the positions 2 to 7, and the frame is not drawn. *)
Lemma daily_three_pairs_not_drawn :
  length (day_night_pairs (data three_pairs)) = 3%nat
  ∧ Forall pair_drawable (day_night_pairs (data three_pairs))
  ∧ renderFrame pretty noon 880 528 [] (Some ((forecast_with 7).1, three_pairs))
    = Raise IndexError.
Proof.
  split; [vm_compute; reflexivity|]. split; [|vm_compute; reflexivity].
  set (pairs := day_night_pairs (data three_pairs)). vm_compute in pairs. subst pairs.
  repeat (apply Forall_cons; split;
            [split; [right; exists 7; split; [done|lia]|split; by eexists]|]).
  constructor.
Qed.

(** ** The aggregator *)

Section Aggregator.

Variables (now : Py.datetime) (daystolook : Z).

Lemma loop_from_nil (e : Event) (rest : list Event) :
  eventsToDays_loop now daystolook (e :: rest) []
  = if beyond_lookahead now daystolook e then []
    else eventsToDays_loop now daystolook rest [new_day now e].
Proof. reflexivity. Qed.

Lemma loop_from_snoc (e : Event) (rest : list Event) (closed : list Day) (d : Day) :
  eventsToDays_loop now daystolook (e :: rest) (closed ++ [d])
  = if decide (Py.date_of (start e) = date d)
    then eventsToDays_loop now daystolook rest (closed ++ [append_event e d])
    else if beyond_lookahead now daystolook e then closed ++ [d]
         else eventsToDays_loop now daystolook rest
                ((closed ++ [d]) ++ [new_day now e]).
Proof.
  cbn [eventsToDays_loop]. unfold opens_group. rewrite last_snoc.
  case_decide as Hd.
  - rewrite bool_decide_eq_false_2 by tauto.
    rewrite length_app. cbn [length].
    replace (pred (length closed + 1)) with (length closed + 0)%nat by lia.
    by rewrite alter_app_r.
  - by rewrite bool_decide_eq_true_2.
Qed.

(** The two shapes of the state. *)
Lemma state_cases (days : list Day) :
  days = [] ∨ ∃ closed d, days = closed ++ [d].
Proof.
  destruct days as [|d0 days] using rev_ind; [by left|]. right. eauto.
Qed.

Lemma date_of_mono (a b : Z) : a ≤ b → Py.date_of a ≤ Py.date_of b.
Proof. intros. unfold Py.date_of. by apply Z.div_le_mono. Qed.

Lemma beyond_true_date (e : Event) :
  beyond_lookahead now daystolook e = true →
  Py.date_of now + daystolook < Py.date_of (start e).
Proof.
  unfold beyond_lookahead. intros H%bool_decide_eq_true. revert H.
  unfold Py.timedelta_days, Py.date_of.
  change Py.usec_per_day with 86400000000.
  Z.div_mod_to_equations. lia.
Qed.

Lemma beyond_false_date (e : Event) :
  beyond_lookahead now daystolook e = false →
  Py.timedelta_days (start e - now) ≤ daystolook
  ∧ Py.date_of (start e) ≤ Py.date_of now + daystolook + 1.
Proof.
  unfold beyond_lookahead. intros H%bool_decide_eq_false. revert H.
  unfold Py.timedelta_days, Py.date_of.
  change Py.usec_per_day with 86400000000.
  Z.div_mod_to_equations. lia.
Qed.

Lemma near_date_within (e : Event) :
  Py.date_of (start e) ≤ Py.date_of now + daystolook →
  beyond_lookahead now daystolook e = false.
Proof.
  intros H. unfold beyond_lookahead. apply bool_decide_eq_false. revert H.
  unfold Py.timedelta_days, Py.date_of.
  change Py.usec_per_day with 86400000000.
  Z.div_mod_to_equations. lia.
Qed.

Lemma beyond_mono (c e : Event) :
  start c ≤ start e →
  beyond_lookahead now daystolook c = true →
  beyond_lookahead now daystolook e = true.
Proof.
  unfold beyond_lookahead. intros Hle H%bool_decide_eq_true.
  apply bool_decide_eq_true. revert H.
  unfold Py.timedelta_days.
  assert (Hd : (start c - now) `div` Py.usec_per_day
               ≤ (start e - now) `div` Py.usec_per_day)
    by (apply Z.div_le_mono; [done|lia]).
  lia.
Qed.

Lemma events_of_snoc (days : list Day) (d : Day) :
  events_of (days ++ [d]) = events_of days ++ events d.
Proof.
  unfold events_of. rewrite fmap_app, concat_app. cbn. by rewrite app_nil_r.
Qed.

Lemma elem_of_events_of (days : list Day) (e : Event) :
  e ∈ events_of days ↔ ∃ d, d ∈ days ∧ e ∈ events d.
Proof.
  unfold events_of. induction days as [|d0 days IH]; cbn.
  - split; [by intros ?%elem_of_nil|]. by intros (d & ?%elem_of_nil & _).
  - rewrite elem_of_app, IH. split.
    + intros [H|(d & Hd & He)]; [exists d0|exists d]; split; try done.
      * by left.
      * by right.
    + intros (d & [->|Hd]%elem_of_cons & He); [by left|right; eauto].
Qed.

Lemma new_day_ok (e : Event) :
  beyond_lookahead now daystolook e = false → day_ok now daystolook (new_day now e).
Proof.
  intros Hb. exists e, []. cbn. repeat split; try done. by repeat constructor.
Qed.

Lemma append_event_ok (e : Event) (d : Day) :
  Py.date_of (start e) = date d →
  day_ok now daystolook d → day_ok now daystolook (append_event e d).
Proof.
  intros He (e0 & es & Hev & Hd & Hs & Hb & Hall).
  exists e0, (es ++ [e]). cbn. rewrite Hev. repeat split; try done.
  rewrite <- Hev. apply Forall_app. split; [done|].
  by repeat constructor.
Qed.

(** Every day of the result was opened within the lookahead and holds
    events of its own date only. *)
Lemma loop_days_ok (evs : list Event) (days : list Day) :
  Forall (day_ok now daystolook) days →
  Forall (day_ok now daystolook) (eventsToDays_loop now daystolook evs days).
Proof.
  revert days. induction evs as [|e evs IH]; intros days Hdays; [done|].
  destruct (state_cases days) as [->|(closed & d & ->)].
  - rewrite loop_from_nil.
    destruct (beyond_lookahead now daystolook e) eqn:Hb; [constructor|].
    apply IH. repeat constructor. by apply new_day_ok.
  - rewrite loop_from_snoc. apply Forall_app in Hdays as [Hc Hd].
    rewrite Forall_singleton in Hd.
    case_decide as Hdate.
    + apply IH. apply Forall_app. split; [done|].
      apply Forall_singleton. by apply append_event_ok.
    + destruct (beyond_lookahead now daystolook e) eqn:Hb.
      * apply Forall_app. split; [done|]. by apply Forall_singleton.
      * apply IH. apply Forall_app. split.
        -- apply Forall_app. split; [done|]. by apply Forall_singleton.
        -- apply Forall_singleton. by apply new_day_ok.
Qed.

(** The events of the result are those of the state followed by an
    initial segment of the input; what is left out starts with an event
    that would open a group and is beyond the lookahead. *)
Lemma loop_cut (evs : list Event) (days : list Day) :
  ∃ taken rest,
    evs = taken ++ rest
    ∧ events_of (eventsToDays_loop now daystolook evs days)
      = events_of days ++ taken
    ∧ (rest = []
       ∨ ∃ c rest', rest = c :: rest'
           ∧ beyond_lookahead now daystolook c = true
           ∧ opens_group (eventsToDays_loop now daystolook evs days) c = true).
Proof.
  revert days. induction evs as [|e evs IH]; intros days.
  - exists [], []. cbn. rewrite app_nil_r. eauto.
  - cbn [eventsToDays_loop]. destruct (opens_group days e) eqn:Ho.
    + destruct (beyond_lookahead now daystolook e) eqn:Hb.
      * exists [], (e :: evs). rewrite app_nil_r.
        split; [done|]. split; [done|]. right. eauto.
      * destruct (IH (days ++ [new_day now e])) as (taken & rest & -> & Hev & Hcut).
        exists (e :: taken), rest. split; [done|]. split; [|done].
        rewrite Hev, events_of_snoc. cbn. by rewrite <- app_assoc.
    + destruct (state_cases days) as [->|(closed & d & ->)]; [done|].
      rewrite length_app. cbn [length].
      replace (pred (length closed + 1)) with (length closed + 0)%nat by lia.
      rewrite alter_app_r. cbn [alter list_alter].
      destruct (IH (closed ++ [append_event e d])) as (taken & rest & -> & Hev & Hcut).
      exists (e :: taken), rest. split; [done|]. split; [|done].
      rewrite Hev, !events_of_snoc. cbn. by rewrite <- !app_assoc.
Qed.

Lemma ascending_snoc (days : list Day) (d d' : Day) :
  ascending_dates (days ++ [d]) → date d < date d' →
  ascending_dates ((days ++ [d]) ++ [d']).
Proof.
  unfold ascending_dates. intros Ha Hlt.
  rewrite fmap_app. apply StronglySorted_app_2; [|done|repeat constructor].
  intros x1 x2 Hx1 ->%list_elem_of_singleton.
  rewrite fmap_app in Hx1, Ha. apply elem_of_app in Hx1 as [Hx1|Hx1].
  - etrans; [|exact Hlt].
    eapply (StronglySorted_app_1_elem_of _ _ _ _ _ Ha Hx1). by left.
  - apply list_elem_of_singleton in Hx1 as ->. done.
Qed.

(** On a sorted input the dates of the days ascend strictly. *)
Lemma loop_ascending (evs : list Event) (days : list Day) :
  sorted_by_start evs →
  ascending_dates days →
  (∀ d e, last days = Some d → e ∈ evs → date d ≤ Py.date_of (start e)) →
  ascending_dates (eventsToDays_loop now daystolook evs days).
Proof.
  revert days. induction evs as [|e evs IH]; intros days Hs Ha Hlast; [done|].
  apply StronglySorted_cons in Hs as [Hle Hs]. rewrite Forall_forall in Hle.
  assert (Hnext : ∀ e', e' ∈ evs → Py.date_of (start e) ≤ Py.date_of (start e')).
  { intros e' He'. apply date_of_mono. by apply Hle. }
  destruct (state_cases days) as [->|(closed & d & ->)].
  - rewrite loop_from_nil.
    destruct (beyond_lookahead now daystolook e); [constructor|].
    apply IH; [done|repeat constructor|].
    intros d e' [= <-] He'. cbn. by apply Hnext.
  - rewrite loop_from_snoc.
    assert (Hd : date d ≤ Py.date_of (start e)).
    { apply Hlast; [apply last_snoc|by left]. }
    case_decide as Hdate.
    + apply IH; [done| |].
      * unfold ascending_dates in *. by rewrite fmap_app in *.
      * intros d' e' Hd' He'. rewrite last_snoc in Hd'. injection Hd' as <-.
        cbn. rewrite <- Hdate. by apply Hnext.
    + destruct (beyond_lookahead now daystolook e); [done|].
      apply IH; [done| |].
      * apply ascending_snoc; [done|]. cbn. lia.
      * intros d' e' Hd' He'. rewrite last_snoc in Hd'. injection Hd' as <-.
        cbn. by apply Hnext.
Qed.

End Aggregator.

Lemma filter_all {A} (P : A → Prop) `{!∀ x, Decision (P x)} (l : list A) :
  Forall P l → filter P l = l.
Proof.
  induction 1 as [|x l Hx Hl IH]; [done|].
  by rewrite filter_cons_True, IH.
Qed.

Lemma filter_none {A} (P : A → Prop) `{!∀ x, Decision (P x)} (l : list A) :
  Forall (λ x, ¬ P x) l → filter P l = [].
Proof.
  induction 1 as [|x l Hx Hl IH]; [done|].
  by rewrite filter_cons_False.
Qed.

Lemma ascending_NoDup (l : list Z) : StronglySorted Z.lt l → NoDup l.
Proof.
  induction 1 as [|x l Hs IH Hx]; constructor; [|done].
  intros Hin. rewrite Forall_forall in Hx. specialize (Hx _ Hin). lia.
Qed.

Lemma ascending_last (l : list Z) (x y : Z) :
  StronglySorted Z.lt (l ++ [y]) → x ∈ l ++ [y] → x ≤ y.
Proof.
  intros Hs [Hx|Hx]%elem_of_app.
  2:{ apply list_elem_of_singleton in Hx as ->. lia. }
  apply Z.lt_le_incl.
  eapply (StronglySorted_app_1_elem_of _ _ _ _ _ Hs Hx). by left.
Qed.

Lemma filter_events_of (now : Py.datetime) (daystolook : Z) (days : list Day) (d : Day) :
  NoDup (date <$> days) → Forall (day_ok now daystolook) days → d ∈ days →
  filter (λ e, Py.date_of (start e) = date d) (events_of days) = events d.
Proof.
  induction days as [|d0 days IH]; intros Hnd Hok Hd.
  - by apply elem_of_nil in Hd.
  - change (events_of (d0 :: days)) with (events d0 ++ events_of days).
    rewrite fmap_cons in Hnd. apply NoDup_cons in Hnd as [Hd0 Hnd].
    apply Forall_cons in Hok as [Hok0 Hok].
    destruct Hok0 as (e0 & es & _ & _ & _ & _ & Hall0).
    rewrite filter_app.
    apply elem_of_cons in Hd as [->|Hd].
    + rewrite (filter_all _ _ Hall0), filter_none; [by rewrite app_nil_r|].
      apply Forall_forall. intros e (d' & Hd' & He)%elem_of_events_of Heq.
      rewrite Forall_forall in Hok.
      destruct (Hok _ Hd') as (_ & _ & _ & _ & _ & _ & Hall').
      rewrite Forall_forall in Hall'. rewrite (Hall' _ He) in Heq.
      apply Hd0. rewrite <- Heq. by apply list_elem_of_fmap_2.
    + rewrite filter_none; [by apply IH|].
      apply Forall_forall. intros e He Heq.
      rewrite Forall_forall in Hall0. rewrite (Hall0 _ He) in Heq.
      apply Hd0. rewrite Heq. by apply list_elem_of_fmap_2.
Qed.

(** What the cut leaves out of a sorted input lies after every day of
    the result. *)
Lemma cut_after_days (now : Py.datetime) (daystolook : Z)
    (out : list Day) (taken rest : list Event) (d : Day) (e : Event) :
  sorted_by_start (taken ++ rest) →
  ascending_dates out → Forall (day_ok now daystolook) out →
  events_of out = taken →
  (rest = [] ∨ ∃ c rest', rest = c :: rest' ∧ opens_group out c = true) →
  d ∈ out → e ∈ rest → date d < Py.date_of (start e).
Proof.
  intros Hs Ha Hok Hev [->|(c & rest' & -> & Ho)] Hd He;
    [by apply elem_of_nil in He|].
  unfold opens_group in Ho.
  destruct (last out) as [dl|] eqn:Hlast.
  2:{ apply last_None in Hlast. subst out. by apply elem_of_nil in Hd. }
  apply bool_decide_eq_true in Ho.
  pose proof Hlast as (out' & ->)%last_Some.
  assert (Hdl : date d ≤ date dl).
  { unfold ascending_dates in Ha. rewrite fmap_app in Ha.
    eapply ascending_last; [exact Ha|].
    apply elem_of_app in Hd as [Hd|Hd]; apply elem_of_app.
    - left. by apply list_elem_of_fmap_2.
    - right. by apply (list_elem_of_fmap_2 date [dl]). }
  (* the last day holds an event that comes before the cut *)
  pose proof Hok as Hokl. rewrite Forall_forall in Hokl.
  destruct (Hokl dl) as (e0 & es & Hevl & Hdatel & _ & _ & _).
  { apply elem_of_app. right. by left. }
  assert (He0 : e0 ∈ taken).
  { rewrite <- Hev. apply elem_of_events_of. exists dl. split.
    - apply elem_of_app. right. by left.
    - rewrite Hevl. by left. }
  assert (Hc : start e0 ≤ start c).
  { eapply (StronglySorted_app_1_elem_of _ _ _ _ _ Hs He0). by left. }
  assert (Hce : start c ≤ start e).
  { apply StronglySorted_app_1_r in Hs. apply StronglySorted_cons in Hs as [Hle _].
    apply elem_of_cons in He as [->|He]; [lia|].
    rewrite Forall_forall in Hle. by apply Hle. }
  pose proof (date_of_mono _ _ Hc). pose proof (date_of_mono _ _ Hce). lia.
Qed.

(** An event within the lookahead is kept: on a sorted input the cut
    comes after it. *)
Lemma within_lookahead_kept (now : Py.datetime) (daystolook : Z)
    (evs : list Event) (e : Event) :
  sorted_by_start evs → e ∈ evs →
  beyond_lookahead now daystolook e = false →
  e ∈ events_of (eventsToDays now evs daystolook).
Proof.
  intros Hs He Hnear. unfold eventsToDays.
  destruct (loop_cut now daystolook evs []) as (taken & rest & Hevs & Hev & Hcut).
  cbn in Hev. rewrite Hev. rewrite Hevs in He.
  apply elem_of_app in He as [He|He]; [done|exfalso].
  destruct Hcut as [->|(c & rest' & -> & Hb & _)]; [by apply elem_of_nil in He|].
  assert (Hce : start c ≤ start e).
  { rewrite Hevs in Hs. apply StronglySorted_app_1_r in Hs.
    apply StronglySorted_cons in Hs as [Hle _].
    apply elem_of_cons in He as [->|He]; [lia|].
    rewrite Forall_forall in Hle. by apply Hle. }
  rewrite (beyond_mono now daystolook c e Hce Hb) in Hnear. discriminate.
Qed.

Lemma NoDup_fmap_elem_of {A B} (f : A → B) (l : list A) (x y : A) :
  NoDup (f <$> l) → x ∈ l → y ∈ l → f x = f y → x = y.
Proof.
  induction l as [|a l IH]; intros Hnd Hx Hy Hf; [by apply elem_of_nil in Hx|].
  rewrite fmap_cons in Hnd. apply NoDup_cons in Hnd as [Ha Hnd].
  apply elem_of_cons in Hx as [->|Hx]; apply elem_of_cons in Hy as [->|Hy].
  - done.
  - destruct Ha. rewrite Hf. by apply list_elem_of_fmap_2.
  - destruct Ha. rewrite <- Hf. by apply list_elem_of_fmap_2.
  - by apply IH.
Qed.

(** C7. On an input sorted by start time the dates of the days ascend
    strictly, so no date has two days; every day holds exactly the events
    of the input that fall on its date, in the order of the input, and at
    least one of them, so no day is made for a date without events.  Every
    event is placed: an event of a date on which some event lies within
    the lookahead is in the day of its date, and in no other day; when
    every event lies within the lookahead, the events of the days, taken
    in order, are the input. *)
Theorem eventsToDays_groups (now : Py.datetime) (daystolook : Z) (evs : list Event) :
  sorted_by_start evs →
  ascending_dates (eventsToDays now evs daystolook)
  ∧ NoDup (date <$> eventsToDays now evs daystolook)
  ∧ (∀ d, d ∈ eventsToDays now evs daystolook →
          events d ≠ []
          ∧ events d = filter (λ e, Py.date_of (start e) = date d) evs)
  ∧ (∀ e e0, e ∈ evs → e0 ∈ evs →
             Py.date_of (start e0) = Py.date_of (start e) →
             beyond_lookahead now daystolook e0 = false →
             ∃ d, d ∈ eventsToDays now evs daystolook
                  ∧ date d = Py.date_of (start e)
                  ∧ e ∈ events d)
  ∧ (∀ e d d', d ∈ eventsToDays now evs daystolook →
               d' ∈ eventsToDays now evs daystolook →
               e ∈ events d → e ∈ events d' → d = d')
  ∧ (Forall (λ e, beyond_lookahead now daystolook e = false) evs →
     events_of (eventsToDays now evs daystolook) = evs).
Proof.
  intros Hs.
  assert (Ha : ascending_dates (eventsToDays now evs daystolook)).
  { apply loop_ascending; [done|constructor|]. intros d e [=]. }
  assert (Hok : Forall (day_ok now daystolook) (eventsToDays now evs daystolook))
    by (apply loop_days_ok; constructor).
  assert (Hnd : NoDup (date <$> eventsToDays now evs daystolook))
    by (by apply ascending_NoDup).
  destruct (loop_cut now daystolook evs []) as (taken & rest & Hevs & Hev & Hcut).
  cbn in Hev. fold (eventsToDays now evs daystolook) in Hev, Hcut.
  assert (Hgroup : ∀ d, d ∈ eventsToDays now evs daystolook →
            events d = filter (λ e, Py.date_of (start e) = date d) evs).
  { intros d Hd. rewrite Hevs, filter_app, <- Hev.
    rewrite (filter_events_of now daystolook) by done.
    rewrite filter_none; [by rewrite app_nil_r|].
    apply Forall_forall. intros e He Heq.
    assert (date d < Py.date_of (start e)); [|lia].
    eapply (cut_after_days now daystolook _ taken rest); try done.
    + by rewrite <- Hevs.
    + destruct Hcut as [->|(c & rest' & -> & _ & Ho)]; [by left|right; eauto]. }
  split; [done|]. split; [done|]. split; [|split; [|split]].
  - intros d Hd. split; [|by apply Hgroup].
    rewrite Forall_forall in Hok.
    destruct (Hok _ Hd) as (e0 & es & -> & _). done.
  - intros e e0 He He0 Hdate Hnear.
    pose proof (within_lookahead_kept now daystolook evs e0 Hs He0 Hnear) as Hkept.
    apply elem_of_events_of in Hkept as (d & Hd & Hin).
    exists d. split; [done|].
    pose proof Hin as Hin'. rewrite (Hgroup d Hd) in Hin'.
    apply list_elem_of_filter in Hin' as [Hd0 _].
    split; [congruence|].
    rewrite (Hgroup d Hd). apply list_elem_of_filter. split; [congruence|done].
  - intros e d d' Hd Hd' He He'.
    rewrite (Hgroup d Hd) in He. rewrite (Hgroup d' Hd') in He'.
    apply list_elem_of_filter in He as [He _].
    apply list_elem_of_filter in He' as [He' _].
    eapply (NoDup_fmap_elem_of date); [exact Hnd|done|done|congruence].
  - intros Hall. rewrite Hev, Hevs.
    destruct Hcut as [->|(c & rest' & -> & Hb & _)]; [by rewrite app_nil_r|].
    rewrite Hevs in Hall. apply Forall_app in Hall as [_ Hall].
    apply Forall_cons in Hall as [Hc _]. congruence.
Qed.

Lemma two_days_sorted : sorted_by_start two_days.
Proof.
  unfold sorted_by_start, two_days.
  repeat (constructor; [|repeat (constructor; [vm_compute; discriminate|]); constructor]).
  constructor.
Defined.

Lemma next_week_sorted : sorted_by_start next_week.
Proof. unfold sorted_by_start, next_week. repeat constructor. Defined.

(** Three meetings on one day and one on the next. *)
Lemma eventsToDays_groups_witness :
  sorted_by_start two_days
  ∧ ascending_dates (eventsToDays noon two_days 7)
  ∧ NoDup (date <$> eventsToDays noon two_days 7)
  ∧ (∀ d, d ∈ eventsToDays noon two_days 7 →
          events d ≠ []
          ∧ events d = filter (λ e, Py.date_of (start e) = date d) two_days)
  ∧ (∀ e e0, e ∈ two_days → e0 ∈ two_days →
             Py.date_of (start e0) = Py.date_of (start e) →
             beyond_lookahead noon 7 e0 = false →
             ∃ d, d ∈ eventsToDays noon two_days 7
                  ∧ date d = Py.date_of (start e)
                  ∧ e ∈ events d)
  ∧ (∀ e d d', d ∈ eventsToDays noon two_days 7 →
               d' ∈ eventsToDays noon two_days 7 →
               e ∈ events d → e ∈ events d' → d = d')
  ∧ (Forall (λ e, beyond_lookahead noon 7 e = false) two_days →
     events_of (eventsToDays noon two_days 7) = two_days).
Proof.
  split; [exact two_days_sorted|].
  exact (eventsToDays_groups noon 7 two_days two_days_sorted).
Defined.

(** Three meetings today at distinct times give one day, labelled
    "Today", with its three lines in order. *)
Example three_meetings_today :
  eventsToDays noon (take 3 two_days) 7
  = [mkDay 739924 "Today" (take 3 two_days)]
  ∧ line_of <$> (agenda 20 (eventsToDays noon (take 3 two_days) 7)).1
    = [(Red, "Today"); (Black, "  13:00 - a"); (Black, "  14:00 - b");
       (Black, "  15:00 - c")]%string.
Proof. split; vm_compute; reflexivity. Qed.

(** ** The lookahead window *)

(** C2, as the code behaves.  On a sorted input every day of the result
    was opened by an event that starts at most [daystolook] whole days
    (of 24 hours, rounded down) after the current time, so its date is at
    most [daystolook + 1] days after the current date; the events of the
    result are an initial segment of the input, nothing after the cut
    appears; every event that starts at most [daystolook] whole days
    after the current time is kept, in particular every event dated at
    most [daystolook] days after the current date; and no event dated
    more than [daystolook + 1] days after it is. *)
Theorem eventsToDays_lookahead (now : Py.datetime) (daystolook : Z) (evs : list Event) :
  sorted_by_start evs →
  (∀ d, d ∈ eventsToDays now evs daystolook →
        ∃ e es, events d = e :: es
                ∧ date d = Py.date_of (start e)
                ∧ Py.timedelta_days (start e - now) ≤ daystolook
                ∧ date d ≤ Py.date_of now + daystolook + 1)
  ∧ (∃ rest, evs = events_of (eventsToDays now evs daystolook) ++ rest)
  ∧ (∀ e, e ∈ evs → Py.timedelta_days (start e - now) ≤ daystolook →
          e ∈ events_of (eventsToDays now evs daystolook))
  ∧ (∀ e, e ∈ evs → Py.date_of (start e) ≤ Py.date_of now + daystolook →
          e ∈ events_of (eventsToDays now evs daystolook))
  ∧ (∀ e, Py.date_of now + daystolook + 1 < Py.date_of (start e) →
          e ∉ events_of (eventsToDays now evs daystolook)).
Proof.
  intros Hs. unfold eventsToDays.
  assert (Hok : Forall (day_ok now daystolook) (eventsToDays_loop now daystolook evs []))
    by (apply loop_days_ok; constructor).
  rewrite Forall_forall in Hok.
  destruct (loop_cut now daystolook evs []) as (taken & rest & Hevs & Hev & Hcut).
  cbn in Hev.
  assert (Hkept : ∀ e, e ∈ evs → beyond_lookahead now daystolook e = false →
                       e ∈ events_of (eventsToDays_loop now daystolook evs [])).
  { intros e He Hnear. rewrite Hev. rewrite Hevs in He.
    apply elem_of_app in He as [He|He]; [done|exfalso].
    destruct Hcut as [->|(c & rest' & -> & Hb & _)]; [by apply elem_of_nil in He|].
    assert (Hce : start c ≤ start e).
    { rewrite Hevs in Hs. apply StronglySorted_app_1_r in Hs.
      apply StronglySorted_cons in Hs as [Hle _].
      apply elem_of_cons in He as [->|He]; [lia|].
      rewrite Forall_forall in Hle. by apply Hle. }
    rewrite (beyond_mono now daystolook c e Hce Hb) in Hnear. discriminate. }
  split; [|split; [|split; [|split]]].
  - intros d Hd. destruct (Hok _ Hd) as (e & es & He & Hdate & _ & Hb & _).
    apply beyond_false_date in Hb as [Hb1 Hb2].
    exists e, es. rewrite Hdate. done.
  - exists rest. by rewrite Hev.
  - intros e He Hnear. apply Hkept; [done|].
    unfold beyond_lookahead. apply bool_decide_eq_false. lia.
  - intros e He Hnear. apply Hkept; [done|]. by apply near_date_within.
  - intros e Hfar (d & Hd & He)%elem_of_events_of.
    destruct (Hok _ Hd) as (e0 & es & _ & Hdate & _ & Hb & Hall).
    apply beyond_false_date in Hb as [_ Hb].
    rewrite Forall_forall in Hall. specialize (Hall _ He). lia.
Qed.

Lemma eventsToDays_lookahead_witness :
  sorted_by_start two_days
  ∧ ∃ rest, two_days = events_of (eventsToDays noon two_days 7) ++ rest.
Proof.
  split; [exact two_days_sorted|].
  exact (proj1 (proj2 (eventsToDays_lookahead noon 7 two_days two_days_sorted))).
Defined.

(** C2, as stated, fails: at noon, with a lookahead of 7 days, a meeting
    at ten in the morning eight days from today starts 7 days and 22
    hours from now, and its day is produced. *)
Lemma lookahead_plus_one_included :
  sorted_by_start next_week
  ∧ ∃ d, d ∈ eventsToDays noon next_week 7
         ∧ date d = Py.date_of noon + (7 + 1).
Proof.
  split; [exact next_week_sorted|].
  exists (new_day noon (meeting "e" 739932 10)).
  split; [|vm_compute; reflexivity].
  assert (H : eventsToDays noon next_week 7 = [new_day noon (meeting "e" 739932 10)])
    by (vm_compute; reflexivity).
  rewrite H. by apply list_elem_of_singleton.
Qed.

(** * Further properties *)

(** ** Labels of the days *)

(** X1. For a day of the month the ordinal suffix is "st" for 1, 21 and
    31, "nd" for 2 and 22, "rd" for 3 and 23 and "th" for every other
    day, the 11th, 12th and 13th included. *)
Theorem suffix_day_of_month (d : Z) :
  1 ≤ d ≤ 31 →
  suffix d
  = if decide (d = 1 ∨ d = 21 ∨ d = 31) then "st"
    else if decide (d = 2 ∨ d = 22) then "nd"
    else if decide (d = 3 ∨ d = 23) then "rd"
    else "th".
Proof.
  intros Hd. rewrite <- (Z2Nat.id d) by lia.
  assert (Hn : (1 ≤ Z.to_nat d ≤ 31)%nat) by lia.
  revert Hn. generalize (Z.to_nat d) as n. intros n Hn.
  destruct n as [|n]; [lia|].
  do 31 (destruct n as [|n]; [vm_compute; reflexivity|]).
  lia.
Qed.

Lemma suffix_day_of_month_witness :
  suffix 22 = "nd" ∧ suffix 12 = "th" ∧ suffix 31 = "st".
Proof.
  split; [|split].
  - apply (suffix_day_of_month 22). lia.
  - apply (suffix_day_of_month 12). lia.
  - apply (suffix_day_of_month 31). lia.
Defined.

Lemma day_name_not_relative (wd : Z) (rest : string) :
  Py.day_name wd +:+ " " +:+ rest ≠ "Today"
  ∧ Py.day_name wd +:+ " " +:+ rest ≠ "Tomorrow".
Proof.
  unfold Py.day_name.
  repeat case_match; split; cbv [String.append]; discriminate.
Qed.

Lemma dateTimeAsPrettyString_cases (now dt : Py.datetime) :
  (dateTimeAsPrettyString now dt = "Today" ↔ Py.date_of dt = Py.date_of now)
  ∧ (dateTimeAsPrettyString now dt = "Tomorrow" ↔ Py.date_of dt = Py.date_of now + 1)
  ∧ (Py.date_of dt ≠ Py.date_of now → Py.date_of dt ≠ Py.date_of now + 1 →
     dateTimeAsPrettyString now dt = long_label (Py.date_of dt)).
Proof.
  unfold dateTimeAsPrettyString, long_label, Py.day, Py.fmt_A.
  destruct (day_name_not_relative (Py.weekday (Py.date_of dt))
              (Py.fmt_d_nopad (Py.date_of dt) +:+ suffix (Py.ord2ymd (Py.date_of dt)).2
               +:+ " " +:+ Py.fmt_B (Py.date_of dt))) as [Hn1 Hn2].
  repeat case_decide; repeat split; intros; try done; try lia.
Qed.

(** X2. Every day that the aggregator produces is labelled "Today"
    exactly when its date is the current date and "Tomorrow" exactly
    when it is the day after; any other day is labelled with the weekday,
    the day of the month with its ordinal suffix, and the month. *)
Theorem eventsToDays_labels (now : Py.datetime) (evs : list Event) (daystolook : Z)
    (d : Day) :
  d ∈ eventsToDays now evs daystolook →
  (datestring d = "Today" ↔ date d = Py.date_of now)
  ∧ (datestring d = "Tomorrow" ↔ date d = Py.date_of now + 1)
  ∧ (date d ≠ Py.date_of now → date d ≠ Py.date_of now + 1 →
     datestring d = long_label (date d)).
Proof.
  intros Hd.
  assert (Hok : Forall (day_ok now daystolook) (eventsToDays now evs daystolook))
    by (apply loop_days_ok; constructor).
  rewrite Forall_forall in Hok.
  destruct (Hok _ Hd) as (e & es & _ & -> & -> & _).
  apply dateTimeAsPrettyString_cases.
Qed.

Lemma eventsToDays_labels_witness :
  datestring (mkDay 739925 "Tomorrow" [meeting "d" 739925 9]) = "Tomorrow"
  ↔ date (mkDay 739925 "Tomorrow" [meeting "d" 739925 9]) = Py.date_of noon + 1.
Proof.
  refine (proj1 (proj2 (eventsToDays_labels noon two_days 7
                          (mkDay 739925 "Tomorrow" [meeting "d" 739925 9]) _))).
  assert (H : eventsToDays noon two_days 7
              = [mkDay 739924 "Today" (take 3 two_days);
                 mkDay 739925 "Tomorrow" [meeting "d" 739925 9]])
    by (vm_compute; reflexivity).
  rewrite H. apply elem_of_cons. right. by apply list_elem_of_singleton.
Defined.

(** ** Capacity of the agenda column *)

Lemma agenda_events_count (es : list Event) (ypos : Z) :
  (agenda_events ypos es).2
    = ypos + lineheight * Z.of_nat (length (agenda_events ypos es).1)
  ∧ (ypos < agenda_budget →
     lineheight * Z.of_nat (length (agenda_events ypos es).1)
       ≤ agenda_budget - ypos + (lineheight - 1)).
Proof.
  revert ypos. induction es as [|e es IH]; intros ypos.
  - cbn. split; rows_lia.
  - cbn [agenda_events]. case_decide as Hy.
    + specialize (IH (ypos + lineheight)).
      destruct (agenda_events (ypos + lineheight) es) as [ops y'] eqn:Hrec.
      cbn [fst snd length] in *. destruct IH as [Hc Hb].
      split; [rows_lia|]. intros _.
      destruct (decide (ypos + lineheight < agenda_budget)) as [Hlt|Hge].
      * specialize (Hb Hlt). rows_lia.
      * rewrite agenda_events_full in Hrec by rows_lia.
        injection Hrec as <- <-. cbn. rows_lia.
    + rewrite agenda_events_full by rows_lia. cbn. split; rows_lia.
Qed.

Lemma agenda_count (days : list Day) (ypos : Z) :
  ypos < agenda_budget →
  lineheight * Z.of_nat (length (agenda ypos days).1)
    ≤ agenda_budget - ypos + (lineheight - 1).
Proof.
  revert ypos. induction days as [|d days IH]; intros ypos Hy.
  - cbn. rows_lia.
  - cbn [agenda]. rewrite decide_True by rows_lia.
    pose proof (agenda_events_count (events d) (ypos + lineheight)) as [Hc Hb].
    destruct (agenda_events (ypos + lineheight) (events d)) as [ops1 y1] eqn:H1.
    specialize (IH (y1 + 6)).
    destruct (agenda (y1 + 6) days) as [ops2 y2] eqn:H2.
    cbn [fst snd length] in *. rewrite length_app.
    destruct (decide (y1 + 6 < agenda_budget)) as [Hlt|Hge].
    + specialize (IH Hlt). rows_lia.
    + rewrite agenda_full in H2 by rows_lia. injection H2 as <- <-.
      cbn [length].
      destruct (decide (ypos + lineheight < agenda_budget)) as [Hlt'|Hge'].
      * specialize (Hb Hlt'). rows_lia.
      * rewrite agenda_events_full in H1 by rows_lia.
        injection H1 as <- <-. cbn. rows_lia.
Qed.

(** X3. Whatever the days and events, the agenda column holds at most
    17 lines (labels and events together). *)
Theorem agenda_at_most_17_lines (days : list Day) :
  (length (agenda 20 days).1 ≤ agenda_capacity)%nat.
Proof.
  pose proof (agenda_count days 20) as H.
  unfold agenda_capacity. rows_lia.
Qed.

Lemma agenda_events_fit (es : list Event) (ypos : Z) :
  ypos + lineheight * Z.of_nat (length es) < agenda_budget + lineheight →
  length (agenda_events ypos es).1 = length es
  ∧ (agenda_events ypos es).2 = ypos + lineheight * Z.of_nat (length es).
Proof.
  revert ypos. induction es as [|e es IH]; intros ypos Hfit.
  - cbn. split; [done|rows_lia].
  - cbn [agenda_events length] in *. rewrite decide_True by rows_lia.
    specialize (IH (ypos + lineheight)).
    destruct (agenda_events (ypos + lineheight) es) as [ops y'].
    cbn [fst snd length] in *. destruct IH as [Hl Hc]; [rows_lia|].
    split; [by rewrite Hl|rows_lia].
Qed.

Lemma agenda_fit (days : list Day) (ypos : Z) :
  days = [] ∨ agenda_extent ypos days < agenda_budget + lineheight + 6 →
  length (agenda ypos days).1 = length (agenda_lines days)
  ∧ (agenda ypos days).2 = agenda_extent ypos days.
Proof.
  revert ypos. induction days as [|d days IH]; intros ypos Hfit.
  - cbn. split; [done|]. unfold agenda_extent. cbn. rows_lia.
  - destruct Hfit as [?|Hfit]; [done|].
    unfold agenda_extent in Hfit.
    change (agenda_lines (d :: days)) with (day_lines d ++ agenda_lines days) in *.
    unfold day_lines, event_lines in *.
    rewrite length_app in Hfit. cbn [length] in Hfit. rewrite length_fmap in Hfit.
    cbn [agenda]. rewrite decide_True by rows_lia.
    pose proof (agenda_events_fit (events d) (ypos + lineheight)) as He.
    destruct (agenda_events (ypos + lineheight) (events d)) as [ops1 y1].
    cbn [fst snd] in He. destruct He as [Hl1 Hc1]; [rows_lia|].
    specialize (IH (y1 + 6)).
    destruct (agenda (y1 + 6) days) as [ops2 y2].
    cbn [fst snd] in IH.
    destruct IH as [Hl2 Hc2].
    { destruct days as [|d' days']; [by left|right].
      unfold agenda_extent. rows_lia. }
    cbn [fst snd length]. rewrite !length_app. cbn [length].
    rewrite length_fmap, Hl1, Hl2. split; [lia|].
    rewrite Hc2. unfold agenda_extent.
    change (agenda_lines (d :: days)) with (day_lines d ++ agenda_lines days).
    unfold day_lines, event_lines.
    rewrite length_app. cbn [length]. rewrite length_fmap. rows_lia.
Qed.

(** X4. When the agenda fits, that is when a line height for each line
    and 6 pixels for each day, counted from row 20, end before row 406,
    every label and every event line is drawn, in order, and nothing is
    dropped. *)
Theorem agenda_fits_complete (days : list Day) :
  agenda_extent 20 days < agenda_budget + lineheight + 6 →
  line_of <$> (agenda 20 days).1 = agenda_lines days
  ∧ (agenda 20 days).2 = agenda_extent 20 days.
Proof.
  intros Hfit.
  destruct (agenda_fit days 20) as [Hl Hc]; [by right|].
  split; [|done].
  pose proof (agenda_spec days 20) as (Hp & _).
  rewrite Hp, Hl. by rewrite take_ge.
Qed.

Lemma agenda_fits_complete_witness :
  line_of <$> (agenda 20 (eventsToDays noon two_days 7)).1
  = agenda_lines (eventsToDays noon two_days 7)
  ∧ (agenda 20 (eventsToDays noon two_days 7)).2 = 164.
Proof.
  apply (agenda_fits_complete (eventsToDays noon two_days 7)).
  vm_compute. reflexivity.
Defined.

(** Sixteen events on one day fill the column; a seventeenth is dropped. *)
Example agenda_full_column :
  length (agenda 20 [mkDay 739924 "Today" (replicate 16 (meeting "a" 739924 13))]).1
  = 17%nat
  ∧ length (agenda 20 [mkDay 739924 "Today" (replicate 17 (meeting "a" 739924 13))]).1
    = 17%nat.
Proof. split; vm_compute; reflexivity. Qed.

(** ** The mini calendar *)

Lemma month_day_in_range_all (leap : bool) (n : Z) :
  0 ≤ n < 365 → month_day_in_range leap n = true.
Proof.
  intros Hn.
  assert (H : forallb (month_day_in_range leap) (seqZ 0 365) = true)
    by (destruct leap; vm_compute; reflexivity).
  rewrite forallb_forall in H. apply H.
  apply list_elem_of_In, elem_of_seqZ. lia.
Qed.

(** The civil date of every ordinal is a day of its month. *)
Lemma ord2ymd_in_month (o : Z) :
  1 ≤ (Py.ord2ymd o).2 ≤ Py.days_in_month (Py.ord2ymd o).1.1 (Py.ord2ymd o).1.2.
Proof.
  unfold Py.ord2ymd.
  set (r1 := (o - 1) `mod` 146097). set (n400 := (o - 1) `div` 146097).
  set (n100 := r1 `div` 36524). set (r2 := r1 `mod` 36524).
  set (n4 := r2 `div` 1461). set (r3 := r2 `mod` 1461).
  set (n1 := r3 `div` 365). set (n := r3 `mod` 365).
  assert (0 ≤ r1 < 146097) by (apply Z.mod_pos_bound; lia).
  assert (0 ≤ r2 < 36524) by (apply Z.mod_pos_bound; lia).
  assert (0 ≤ r3 < 1461) by (apply Z.mod_pos_bound; lia).
  assert (0 ≤ n < 365) by (apply Z.mod_pos_bound; lia).
  assert (0 ≤ n100 ≤ 4) by (unfold n100; Z.div_mod_to_equations; lia).
  assert (0 ≤ n4 ≤ 24) by (unfold n4; Z.div_mod_to_equations; lia).
  assert (0 ≤ n1 ≤ 4) by (unfold n1; Z.div_mod_to_equations; lia).
  destruct ((n1 =? 4) || (n100 =? 4)) eqn:Hlast; [cbn; lia|].
  apply orb_false_iff in Hlast as [Hn1 Hn100].
  apply Z.eqb_neq in Hn1, Hn100.
  set (leap := (n1 =? 3) && (negb (n4 =? 24) || (n100 =? 3))).
  assert (Hleap : Py.is_leap (n400 * 400 + 1 + n100 * 100 + n4 * 4 + n1) = leap).
  { unfold Py.is_leap, leap.
    destruct (Z.eqb_spec n1 3), (Z.eqb_spec n4 24), (Z.eqb_spec n100 3);
      cbn [andb orb negb];
      repeat match goal with
             | |- context [?a =? ?b] => destruct (Z.eqb_spec a b)
             end; cbn [andb orb negb]; try reflexivity;
      exfalso; Z.div_mod_to_equations; lia. }
  pose proof (month_day_in_range_all leap n ltac:(lia)) as Hr.
  unfold month_day_in_range, month_day_of_yday in Hr.
  unfold Py.days_in_month.
  destruct (n <? Py.days_before_month leap (Z.shiftr (n + 50) 5));
    cbn [fst snd]; rewrite Hleap;
    rewrite !andb_true_iff, !Z.leb_le in Hr; lia.
Qed.

Lemma minicalendar_days_black (today : Z) (n i : nat) (dayofweek caly : Z) :
  0 ≤ dayofweek < 7 →
  filter (λ c, plane_of c = Black)
         (minicalendar_days today (seq i n) dayofweek caly)
  = (λ k : nat, calendar_cell Black caly (dayofweek + Z.of_nat k)
                  (Z.of_nat (i + k) + 1) 255) <$> seq 0 n.
Proof.
  revert i dayofweek caly. induction n as [|n IH]; intros i dayofweek caly Hd;
    [reflexivity|].
  cbn [seq minicalendar_days fmap list_fmap].
  rewrite filter_cons_True by done.
  rewrite filter_app.
  replace (filter (λ c, plane_of c = Black)
             (if decide (Z.of_nat i + 1 = today)
              then [text Red (calx + dayofweek * xinc) caly
                      (pretty (Z.of_nat i + 1)) Pixellari16 0 mt]
              else [])) with (@nil draw) by (by case_decide).
  cbn [app]. f_equal.
  - unfold calendar_cell. rewrite Z.add_0_r, Nat.add_0_r.
    rewrite Z.mod_small, Z.div_small by lia. f_equal. lia.
  - rewrite <- (fmap_S_seq 0 n), <- list_fmap_compose.
    case_decide as H7.
    + rewrite IH by lia. apply list_fmap_ext. intros _ k _. cbn.
      unfold calendar_cell, yinc.
      replace (dayofweek + Z.of_nat (S k)) with (Z.of_nat k + 1 * 7) by lia.
      rewrite Z_mod_plus_full, Z.div_add by lia.
      replace (0 + Z.of_nat k) with (Z.of_nat k) by lia.
      f_equal; [lia|]. f_equal. lia.
    + rewrite IH by lia. apply list_fmap_ext. intros _ k _. cbn.
      unfold calendar_cell.
      replace (dayofweek + 1 + Z.of_nat k) with (dayofweek + Z.of_nat (S k)) by lia.
      f_equal. f_equal. lia.
Qed.

Lemma minicalendar_days_red (today : Z) (n i : nat) (dayofweek caly : Z) :
  0 ≤ dayofweek < 7 →
  filter (λ c, plane_of c = Red)
         (minicalendar_days today (seq i n) dayofweek caly)
  = if decide (Z.of_nat i + 1 ≤ today ≤ Z.of_nat i + Z.of_nat n)
    then [calendar_cell Red caly (dayofweek + (today - 1 - Z.of_nat i)) today 0]
    else [].
Proof.
  revert i dayofweek caly. induction n as [|n IH]; intros i dayofweek caly Hd.
  - cbn. by rewrite decide_False by lia.
  - cbn [seq minicalendar_days].
    rewrite filter_cons_False by done. rewrite filter_app.
    destruct (decide (Z.of_nat i + 1 = today)) as [Ht|Ht].
    + rewrite filter_cons_True by done. rewrite filter_nil. cbn [app].
      assert (Htail : filter (λ c, plane_of c = Red)
                (if decide (dayofweek + 1 = 7)
                 then minicalendar_days today (seq (S i) n) 0 (caly + yinc)
                 else minicalendar_days today (seq (S i) n) (dayofweek + 1) caly)
              = []).
      { case_decide; rewrite IH by lia; by rewrite decide_False by lia. }
      rewrite Htail, decide_True by lia.
      unfold calendar_cell.
      replace (dayofweek + (today - 1 - Z.of_nat i)) with dayofweek by lia.
      rewrite Z.mod_small, Z.div_small by lia. rewrite <- Ht.
      by rewrite Z.mul_0_l, Z.add_0_r.
    + rewrite filter_nil. cbn [app].
      case_decide as H7; rewrite IH by lia.
      * destruct (decide (Z.of_nat (S i) + 1 ≤ today ≤ Z.of_nat (S i) + Z.of_nat n)).
        -- rewrite decide_True by lia. f_equal. unfold calendar_cell, yinc.
           replace (dayofweek + (today - 1 - Z.of_nat i))
             with (0 + (today - 1 - Z.of_nat (S i)) + 1 * 7) by lia.
           rewrite Z_mod_plus_full, Z.div_add by lia. f_equal. lia.
        -- by rewrite decide_False by lia.
      * destruct (decide (Z.of_nat (S i) + 1 ≤ today ≤ Z.of_nat (S i) + Z.of_nat n)).
        -- rewrite decide_True by lia. f_equal. f_equal. lia.
        -- by rewrite decide_False by lia.
Qed.

Lemma minicalendar_split (now : Py.datetime) :
  minicalendar now
  = minicalendar_header
    ++ minicalendar_days (Py.day now) (seq 0 (Z.to_nat (month_length now)))
         (first_weekday now) 290.
Proof. reflexivity. Qed.

Lemma first_weekday_bound (now : Py.datetime) : 0 ≤ first_weekday now < 7.
Proof.
  unfold first_weekday, Py.monthrange. cbn [fst].
  pose proof (weekday_bound (Py.ymd2ord (Py.year now) (Py.month now) 1)). lia.
Qed.

(** X5. On the black plane the mini calendar is its header followed by
    one cell for each day of the month, numbered 1, 2, ... in order: day
    [k + 1] stands in the column and row of position [first weekday + k]
    of a grid of seven columns, so every cell lies in columns 25 to 175
    and rows 290 to 390. *)
Theorem minicalendar_month_grid (now : Py.datetime) :
  filter (λ c, plane_of c = Black) (minicalendar now)
  = minicalendar_header
    ++ ((λ k : nat, calendar_cell Black 290 (first_weekday now + Z.of_nat k)
                      (Z.of_nat k + 1) 255)
          <$> seq 0 (Z.to_nat (month_length now)))
  ∧ 28 ≤ month_length now ≤ 31
  ∧ ∀ k : nat, (k < Z.to_nat (month_length now))%nat →
      ∃ x y, calendar_cell Black 290 (first_weekday now + Z.of_nat k)
               (Z.of_nat k + 1) 255
             = text Black x y (pretty (Z.of_nat k + 1)) Pixellari16 255 mt
             ∧ 25 ≤ x ≤ 175 ∧ 290 ≤ y ≤ 390.
Proof.
  pose proof (first_weekday_bound now) as Hw.
  assert (Hn : 28 ≤ month_length now ≤ 31) by apply days_in_month_bound.
  split; [|split; [done|]].
  - rewrite minicalendar_split, filter_app.
    rewrite minicalendar_days_black by done.
    by rewrite (filter_all _ minicalendar_header) by (repeat constructor).
  - intros k Hk. eexists _, _. split; [reflexivity|].
    unfold calx, xinc, yinc. split; Z.div_mod_to_equations; lia.
Qed.

(** X6. On the red plane the mini calendar has exactly one call: the
    number of the current day of the month, in the same cell as its
    black number. *)
Theorem minicalendar_today_highlight (now : Py.datetime) :
  filter (λ c, plane_of c = Red) (minicalendar now)
  = [calendar_cell Red 290 (first_weekday now + (Py.day now - 1)) (Py.day now) 0]
  ∧ 1 ≤ Py.day now ≤ month_length now.
Proof.
  pose proof (first_weekday_bound now) as Hw.
  pose proof (ord2ymd_in_month (Py.date_of now)) as Hday.
  assert (Hin : 1 ≤ Py.day now ≤ month_length now) by exact Hday.
  split; [|done].
  rewrite minicalendar_split, filter_app.
  rewrite minicalendar_days_red by done.
  rewrite filter_none by (repeat constructor; done).
  rewrite decide_True by lia. cbn [app]. do 2 f_equal. lia.
Qed.

(** November 2026 starts on a Sunday; the 4th is a Wednesday of the
    second row. *)
Example minicalendar_november :
  first_weekday noon = 6 ∧ month_length noon = 30
  ∧ filter (λ c, plane_of c = Red) (minicalendar noon)
    = [text Red 75 310 "4" Pixellari16 0 mt].
Proof. repeat split; vm_compute; reflexivity. Qed.

(** ** When a frame with a forecast can be drawn *)

Section Drawable.

Context {temperature : Type} (fmt_temp : temperature → string).
Implicit Types (x : Sample (temperature := temperature)).

Lemma result_bind_Raise {A B} (f : A → result B) (m : result A) (e : exn) :
  m ≫= f = Raise e ↔ m = Raise e ∨ ∃ a, m = Ok a ∧ f a = Raise e.
Proof.
  destruct m as [a|e']; cbn; split.
  - eauto.
  - intros [?|(a' & [= <-] & ?)]; done.
  - intros [= ->]. by left.
  - intros [[= ->]|(a' & ? & _)]; done.
Qed.

Lemma is_Ok_bind {A B} (f : A → result B) (m : result A) :
  is_Ok (m ≫= f) ↔ ∃ a, m = Ok a ∧ is_Ok (f a).
Proof.
  unfold is_Ok. split.
  - intros [b (a & ? & ?)%result_bind_Ok]. eauto.
  - intros (a & Ha & b & Hb). exists b. apply result_bind_Ok. eauto.
Qed.

Lemma glyph_Ok_iff (k : wkey) : (∃ g, glyph k = Ok g) ↔ known_code k.
Proof.
  rewrite <- glyph_table_dom. unfold glyph.
  destruct (WeatherToMeteoGlyph !! k) as [g|]; split.
  - eauto.
  - eauto.
  - intros [g [=]].
  - intros [g [=]].
Qed.

Lemma getkey_Ok_iff {A} (v : option A) : (∃ a, getkey v = Ok a) ↔ is_Some v.
Proof.
  destruct v as [a|]; cbn; split; eauto.
  - intros [a [=]].
  - intros [a [=]].
Qed.

Lemma nearterm_slot_Ok_iff (xpos : Z) x :
  is_Ok (nearterm_slot fmt_temp xpos x) ↔ nearterm_drawable x.
Proof.
  unfold nearterm_slot, nearterm_drawable.
  rewrite is_Ok_bind, <- glyph_Ok_iff, <- getkey_Ok_iff. split.
  - intros (g & Hg & (t & Ht & _)%is_Ok_bind). eauto.
  - intros [[g Hg] [t Ht]]. exists g. split; [done|].
    apply is_Ok_bind. exists t. split; [done|]. by eexists.
Qed.

Lemma nearterm_layout_Ok_iff (shown : list Sample) (xpos : Z) :
  is_Ok (nearterm_layout fmt_temp xpos shown) ↔ Forall nearterm_drawable shown.
Proof.
  revert xpos. induction shown as [|x shown IH]; intros xpos; cbn [nearterm_layout].
  - split; [constructor|]. intros _. by eexists.
  - rewrite Forall_cons, <- (nearterm_slot_Ok_iff xpos), <- (IH (xpos + 80)).
    rewrite is_Ok_bind. split.
    + intros (ops & Hops & (ops' & Hops' & _)%is_Ok_bind).
      split; by eexists.
    + intros [[ops Hops] [ops' Hops']]. exists ops. split; [done|].
      apply is_Ok_bind. exists ops'. split; [done|]. by eexists.
Qed.

Lemma pair_slot_Ok_iff (xpos : Z) (p : Sample * Sample) :
  is_Ok (pair_slot fmt_temp xpos p) ↔ pair_drawable p.
Proof.
  destruct p as [day night]. unfold pair_slot, pair_drawable. cbn [fst snd].
  rewrite is_Ok_bind, <- glyph_Ok_iff, <- !getkey_Ok_iff. split.
  - intros (g & Hg & (t & Ht & (t' & Ht' & _)%is_Ok_bind)%is_Ok_bind).
    repeat split; by eexists.
  - intros ([g Hg] & [t Ht] & [t' Ht']). exists g. split; [done|].
    apply is_Ok_bind. exists t. split; [done|].
    apply is_Ok_bind. exists t'. split; [done|]. by eexists.
Qed.

Lemma daily_loop_Ok_iff (daily : list Sample) (xpos : Z) :
  is_Ok (daily_loop fmt_temp daily [2; 4; 6]%nat xpos)
  ↔ ∀ k : nat, (1 ≤ k ≤ 3)%nat →
      ∃ pair, day_night_pairs daily !! k = Some pair ∧ pair_drawable pair.
Proof.
  cbn [daily_loop]. split.
  - intros H. apply is_Ok_bind in H as (c1 & H1 & H).
    apply is_Ok_bind in H as (r1 & H & _).
    apply result_bind_Ok in H as (c2 & H2 & H).
    apply result_bind_Ok in H as (r2 & H & _).
    apply result_bind_Ok in H as (c3 & H3 & _).
    apply (daily_slot_pair fmt_temp daily _ 1) in H1 as (p1 & ? & ?).
    apply (daily_slot_pair fmt_temp daily _ 2) in H2 as (p2 & ? & ?).
    apply (daily_slot_pair fmt_temp daily _ 3) in H3 as (p3 & ? & ?).
    intros k Hk.
    assert (k = 1 ∨ k = 2 ∨ k = 3)%nat as [->|[->| ->]] by lia;
      eexists; (split; [eassumption|]); eapply pair_slot_Ok_iff; by eexists.
  - intros H.
    destruct (H 1%nat ltac:(lia)) as (p1 & Hp1 & [c1 Hc1]%(pair_slot_Ok_iff xpos)).
    destruct (H 2%nat ltac:(lia)) as (p2 & Hp2 & [c2 Hc2]%(pair_slot_Ok_iff (xpos + 80))).
    destruct (H 3%nat ltac:(lia)) as (p3 & Hp3 & [c3 Hc3]%(pair_slot_Ok_iff (xpos + 80 + 80))).
    assert (D1 : daily_slot fmt_temp daily xpos 2 = Ok c1)
      by (apply (daily_slot_pair fmt_temp daily _ 1); eauto).
    assert (D2 : daily_slot fmt_temp daily (xpos + 80) 4 = Ok c2)
      by (apply (daily_slot_pair fmt_temp daily _ 2); eauto).
    assert (D3 : daily_slot fmt_temp daily (xpos + 80 + 80) 6 = Ok c3)
      by (apply (daily_slot_pair fmt_temp daily _ 3); eauto).
    rewrite D1. cbn. rewrite D2. cbn. rewrite D3. cbn. by eexists.
Qed.

Lemma forecast_strip_Ok_iff (now : Py.datetime) (height : Z) (nearterm daily : Weather) :
  is_Ok (forecast_strip fmt_temp now height (nearterm, daily))
  ↔ Forall nearterm_drawable (shown_nearterm now nearterm)
    ∧ bottomgutter ≤ height
    ∧ ∀ k : nat, (1 ≤ k ≤ 3)%nat →
        ∃ pair, day_night_pairs (data daily) !! k = Some pair ∧ pair_drawable pair.
Proof.
  unfold forecast_strip. cbn [fst snd].
  rewrite nearterm_loop_seq, drop_0.
  fold (shown_nearterm now nearterm).
  rewrite <- (nearterm_layout_Ok_iff _ 50).
  destruct (nearterm_layout fmt_temp 50 (shown_nearterm now nearterm)) as [ops|e].
  - cbn [fmap result_fmap mbind result_bind fst snd].
    rewrite <- (daily_loop_Ok_iff (data daily)
                  (50 + 80 * Z.of_nat (length (shown_nearterm now nearterm)) + 40)).
    unfold draw_rectangle. case_decide as Hd; cbn [mbind result_bind].
    + rewrite is_Ok_bind. split.
      * intros (c & Hc & _). split; [by eexists|]. split; [lia|by eexists].
      * intros (_ & _ & [c Hc]). exists c. split; [done|]. by eexists.
    + split; [intros [? [=]]|]. intros (_ & Hh & _). lia.
  - cbn. split; [intros [? [=]]|intros [[? [=]] _]].
Qed.

(** X7. A frame with a forecast is drawn exactly when the width is not
    negative, the height is at least 400 (the divider of the strip runs
    from row 400 to the last row), each of the at most seven future
    near-term samples has a code of the glyph table and a 'Feels Like
    Temperature', and the daily series has the pairs at the positions
    (2,3), (4,5) and (6,7), each with a known day code, a day maximum and
    a night minimum.  Past samples, samples after the seventh, the daily
    samples 0 and 1 and the agenda have no part in it. *)
Theorem renderFrame_drawable_iff (now : Py.datetime) (width height : Z)
    (days : list Day) (nearterm daily : Weather) :
  is_Ok (renderFrame fmt_temp now width height days (Some (nearterm, daily)))
  ↔ 0 ≤ width
    ∧ bottomgutter ≤ height
    ∧ Forall nearterm_drawable (shown_nearterm now nearterm)
    ∧ ∀ k : nat, (1 ≤ k ≤ 3)%nat →
        ∃ pair, day_night_pairs (data daily) !! k = Some pair ∧ pair_drawable pair.
Proof.
  destruct (decide (0 ≤ width ∧ 0 ≤ height)) as [[Hw Hh]|Hsize].
  - rewrite (renderFrame_calls fmt_temp) by done.
    pose proof (forecast_strip_Ok_iff now height nearterm daily) as Hiff.
    destruct (forecast_strip fmt_temp now height (nearterm, daily)) as [strip|e]; cbn.
    + split; [|intros _; by eexists].
      intros _. destruct Hiff as [Hiff _].
      destruct Hiff as (? & ? & ?); [by eexists|]. done.
    + split; [intros [? [=]]|]. intros (_ & ? & ? & ?).
      destruct Hiff as [_ Hiff]. destruct Hiff as [? [=]]. done.
  - rewrite (renderFrame_size_error fmt_temp) by done.
    split; [intros [? [=]]|]. intros (? & Hh & _). unfold bottomgutter in Hh. lia.
Qed.

End Drawable.

(** ** Runs of [main] *)

Lemma effects_bind {A B} (m : proc A) (f : A → proc B) :
  effects (m ≫= f)
  = effects m ++ match outcome_of m with
                 | Return a => effects (f a)
                 | Exited _ => []
                 end.
Proof.
  unfold mbind, proc_bind. destruct (outcome_of m); cbn; [done|].
  by rewrite app_nil_r.
Qed.

Lemma outcome_bind {A B} (m : proc A) (f : A → proc B) :
  outcome_of (m ≫= f)
  = match outcome_of m with
    | Return a => outcome_of (f a)
    | Exited s => Exited s
    end.
Proof. unfold mbind, proc_bind. by destruct (outcome_of m). Qed.

Lemma proc_ret_bind {A B} (a : A) (f : A → proc B) :
  Proc [] (Return a) ≫= f = f a.
Proof. unfold mbind, proc_bind. cbn. by destruct (f a). Qed.

Lemma proc_mret_bind {A B} (a : A) (f : A → proc B) : mret a ≫= f = f a.
Proof. apply proc_ret_bind. Qed.

Lemma proc_fmap_ret_bind {A A' B} (g : A → A') (a : A) (f : A' → proc B) :
  (g <$> Proc [] (Return a)) ≫= f = f (g a).
Proof. apply proc_ret_bind. Qed.

Lemma uncaught_Ok_bind {A B} (a : A) (f : A → proc B) : uncaught (Ok a) ≫= f = f a.
Proof. apply proc_ret_bind. Qed.

Lemma proc_bind_ext {A B} (m : proc A) (f g : A → proc B) :
  (∀ a, f a = g a) → m ≫= f = m ≫= g.
Proof.
  intros H. unfold mbind, proc_bind. destruct (outcome_of m); [|done].
  by rewrite H.
Qed.

Lemma effects_uncaught {A} (r : result A) : effects (uncaught r) = [].
Proof. by destruct r. Qed.

Lemma outcome_uncaught {A} (r : result A) (a : A) :
  outcome_of (uncaught r) = Return a ↔ r = Ok a.
Proof. destruct r; cbn; split; congruence. Qed.

Lemma effects_fmap {A B} (g : A → B) (m : proc A) : effects (g <$> m) = effects m.
Proof. reflexivity. Qed.

Lemma outcome_fmap_Return {A B} (g : A → B) (m : proc A) (b : B) :
  outcome_of (g <$> m) = Return b ↔ ∃ a, outcome_of m = Return a ∧ b = g a.
Proof.
  unfold fmap, proc_fmap. cbn. destruct (outcome_of m); split.
  - intros [= <-]. eauto.
  - by intros (a' & [= <-] & ->).
  - done.
  - by intros (a' & ? & _).
Qed.

Section Runs.

Context {temperature : Type} (fmt_temp : temperature → string).
Implicit Types (o : Options) (w : World (temperature := temperature)).

Lemma main_phases o w :
  main fmt_temp o w
  = if flags_mismatch o then sys_exit 1
    else size ← main_prologue o w;
         drawn ← main_body fmt_temp o w size;
         main_epilogue o drawn.
Proof. reflexivity. Qed.

(** The prologue starts the device, or nothing. *)
Lemma main_prologue_cases o w :
  (opt_output o ≠ ""%string
   ∧ main_prologue o w = Proc [] (Return (opt_width o, opt_height o)))
  ∨ (opt_output o = ""%string
     ∧ (main_prologue o w = Proc [] (Exited 1)
        ∨ ∃ epd, waveshare_epd w = Some epd
                 ∧ main_prologue o w = Proc [EpdInit] (Return epd))).
Proof.
  unfold main_prologue. case_decide as Hout; [right|left]; split; try done.
  case_decide; [by left|].
  destruct (waveshare_epd w) as [epd|] eqn:Hepd; [right|by left].
  exists epd. done.
Qed.

(** The weather is loaded without an effect, or the run ends. *)
Lemma load_weather_cases w :
  (∃ weather, load_weather w = Proc [] (Return weather))
  ∨ (∃ s, load_weather w = Proc [] (Exited s))
  ∨ (weather_json w = None ∧ load_weather w = Proc [WriteWeatherTemplate] (Exited 0)).
Proof.
  unfold load_weather. destruct (weather_json w) as [[data|e]|].
  - cbn. case_bool_decide; [right; left; by eexists|].
    destruct (data !! "apikey") as [apikey|]; cbn; [|right; left; by eexists].
    destruct (data !! "lat") as [lat|]; cbn; [|right; left; by eexists].
    destruct (data !! "lon") as [lon|]; cbn; [|right; left; by eexists].
    destruct (fetched_weather w apikey lat lon) as [weather|e]; cbn.
    + left. by eexists.
    + right; left. by eexists.
  - right; left. by eexists.
  - right; right. done.
Qed.

(** What the fetching phase does: it ends the run, or it returns with at
    most the rewriting of the cache as its effect. *)
Lemma main_fetch_cases o w size :
  (∃ s effs, main_fetch fmt_temp o w size = Proc effs (Exited s)
             ∧ Forall (λ e, e = WriteWeatherTemplate ∨ is_dump e) effs)
  ∨ ∃ evs drawn,
      fetched_events w = Ok evs
      ∧ main_fetch fmt_temp o w size
        = Proc (match opt_cache o with
                | Some c => [DumpCache c (eventsToDays (clock w) evs (opt_days o)) (clock w)]
                | None => []
                end)
               (Return drawn)
      ∧ (drawn = None ↔
         is_Some (opt_cache o)
         ∧ cache_is_fresh (cache_file w) (eventsToDays (clock w) evs (opt_days o))
             (opt_cachehours o) (clock w) = true).
Proof.
  unfold main_fetch.
  destruct (fetched_events w) as [evs|e].
  2:{ left. eexists _, _. split; [reflexivity|constructor]. }
  rewrite uncaught_Ok_bind. cbv zeta.
  set (days := eventsToDays (clock w) evs (opt_days o)).
  assert (Hrest : ∀ weather : option (Weather * Weather),
    (∃ s effs,
       (check_cache o w days ≫= λ redraw : bool,
          if redraw then Some <$> uncaught (renderFrame fmt_temp (clock w) size.1 size.2 days weather)
          else mret None) = Proc effs (Exited s)
       ∧ Forall (λ e, e = WriteWeatherTemplate ∨ is_dump e) effs)
    ∨ ∃ drawn,
        (check_cache o w days ≫= λ redraw : bool,
          if redraw then Some <$> uncaught (renderFrame fmt_temp (clock w) size.1 size.2 days weather)
          else mret None)
        = Proc (match opt_cache o with
                | Some c => [DumpCache c days (clock w)]
                | None => []
                end) (Return drawn)
        ∧ (drawn = None ↔
           is_Some (opt_cache o)
           ∧ cache_is_fresh (cache_file w) days (opt_cachehours o) (clock w) = true)).
  { intros weather. unfold check_cache.
    destruct (opt_cache o) as [c|]; [destruct (cache_writable w)|];
      cbn -[renderFrame cache_is_fresh];
      [|left; eexists _, _; split; [reflexivity|constructor]|].
    - destruct (cache_is_fresh (cache_file w) days (opt_cachehours o) (clock w));
        cbn -[renderFrame].
      + right. eexists. split; [reflexivity|]. split; [eauto|done].
      + destruct (renderFrame fmt_temp (clock w) size.1 size.2 days weather) as [f|e]; cbn.
        * right. eexists. split; [reflexivity|]. split; [done|]. by intros [_ ?].
        * left. eexists _, _. split; [reflexivity|].
          constructor; [by right|constructor].
    - destruct (renderFrame fmt_temp (clock w) size.1 size.2 days weather) as [f|e]; cbn.
      + right. eexists. split; [reflexivity|]. split; [done|]. by intros [[? [=]] _].
      + left. eexists _, _. split; [reflexivity|]. constructor. }
  destruct (opt_noweather o).
  - rewrite proc_mret_bind.
    destruct (Hrest None) as [(s & effs & Heq & Hf)|(drawn & Heq & Hd)].
    + left. exists s, effs. done.
    + right. exists evs, drawn. done.
  - destruct (load_weather_cases w) as [[weather Hw]|[[s Hw]|[_ Hw]]]; rewrite Hw.
    + rewrite proc_fmap_ret_bind.
      destruct (Hrest (Some weather)) as [(s & effs & Heq & Hf)|(drawn & Heq & Hd)].
      * left. exists s, effs. done.
      * right. exists evs, drawn. done.
    + left. eexists _, _. split; [reflexivity|constructor].
    + left. eexists _, _. split; [reflexivity|].
      constructor; [by left|constructor].
Qed.

(** Every run either ends early, having shown nothing, or reaches the
    last phase with a frame to show or none. *)
Lemma main_cases o w :
  (∃ s effs, main fmt_temp o w = Proc effs (Exited s) ∧ Forall (quiet o) effs)
  ∨ (opt_input o ≠ ""%string
     ∧ ∃ f, input_images w = Ok f
            ∧ main fmt_temp o w
              = Proc (init_effects o ++ effects (main_epilogue o (Some f))) (Return tt))
  ∨ (opt_input o = ""%string
     ∧ ∃ evs drawn,
         fetched_events w = Ok evs
         ∧ main fmt_temp o w
           = Proc (init_effects o
                   ++ dump_effects o (eventsToDays (clock w) evs (opt_days o)) (clock w)
                   ++ effects (main_epilogue o drawn)) (Return tt)
         ∧ (drawn = None ↔
            is_Some (opt_cache o)
            ∧ cache_is_fresh (cache_file w) (eventsToDays (clock w) evs (opt_days o))
                (opt_cachehours o) (clock w) = true)).
Proof.
  rewrite main_phases.
  destruct (flags_mismatch o).
  { left. eexists _, _. split; [reflexivity|constructor]. }
  assert (Hepi : ∀ drawn, outcome_of (main_epilogue o drawn) = Return tt).
  { intros [f|]; [|done]. unfold main_epilogue.
    case_decide; [|done]. by destruct (opt_noclear o). }
  assert (Hbody : ∀ size,
    (∃ s effs, main_body fmt_temp o w size = Proc effs (Exited s) ∧ Forall (quiet o) effs)
    ∨ (opt_input o ≠ ""%string
       ∧ ∃ f, input_images w = Ok f
              ∧ main_body fmt_temp o w size = Proc [] (Return (Some f)))
    ∨ (opt_input o = ""%string
       ∧ ∃ evs drawn,
           fetched_events w = Ok evs
           ∧ main_body fmt_temp o w size
             = Proc (dump_effects o (eventsToDays (clock w) evs (opt_days o)) (clock w))
                    (Return drawn)
           ∧ (drawn = None ↔
              is_Some (opt_cache o)
              ∧ cache_is_fresh (cache_file w) (eventsToDays (clock w) evs (opt_days o))
                  (opt_cachehours o) (clock w) = true))).
  { intros size. unfold main_body. case_decide as Hin.
    - destruct (main_fetch_cases o w size)
        as [(s & effs & Heq & Hq)|(evs & drawn & Hev & Heq & Hd)].
      + left. exists s, effs. split; [done|].
        eapply Forall_impl; [exact Hq|]. intros e [->|He]; unfold quiet; tauto.
      + right; right. split; [done|]. exists evs, drawn. done.
    - destruct (input_images w) as [f|e].
      + right; left. split; [done|]. by exists f.
      + left. eexists _, _. split; [reflexivity|constructor]. }
  assert (Hrun : ∀ (init : list effect) size,
    Forall (quiet o) init →
    init = init_effects o →
    main_prologue o w = Proc init (Return size) →
    (∃ s effs,
       (main_prologue o w ≫= λ size, main_body fmt_temp o w size ≫= main_epilogue o)
       = Proc effs (Exited s) ∧ Forall (quiet o) effs)
    ∨ (opt_input o ≠ ""%string
       ∧ ∃ f, input_images w = Ok f
              ∧ (main_prologue o w ≫= λ size, main_body fmt_temp o w size ≫= main_epilogue o)
                = Proc (init_effects o ++ effects (main_epilogue o (Some f))) (Return tt))
    ∨ (opt_input o = ""%string
       ∧ ∃ evs drawn,
           fetched_events w = Ok evs
           ∧ (main_prologue o w ≫= λ size, main_body fmt_temp o w size ≫= main_epilogue o)
             = Proc (init_effects o
                     ++ dump_effects o (eventsToDays (clock w) evs (opt_days o)) (clock w)
                     ++ effects (main_epilogue o drawn)) (Return tt)
           ∧ (drawn = None ↔
              is_Some (opt_cache o)
              ∧ cache_is_fresh (cache_file w) (eventsToDays (clock w) evs (opt_days o))
                  (opt_cachehours o) (clock w) = true))).
  { intros init size Hq Hinit Hpro. rewrite Hpro.
    destruct (Hbody size) as [(s & effs & Heq & Hqb)|[[Hin (f & Hf & Heq)]|[Hin (evs & drawn & Hev & Heq & Hd)]]].
    - left. exists s, (init ++ effs).
      unfold mbind at 1, proc_bind. cbn [outcome_of effects].
      rewrite effects_bind, outcome_bind, Heq. cbn. rewrite app_nil_r.
      split; [done|]. by apply Forall_app.
    - right; left. split; [done|]. exists f. split; [done|].
      unfold mbind at 1, proc_bind. cbn [outcome_of effects].
      rewrite effects_bind, outcome_bind, Heq, Hinit. cbn [outcome_of effects app].
      by rewrite Hepi.
    - right; right. split; [done|]. exists evs, drawn. split; [done|]. split; [|done].
      unfold mbind at 1, proc_bind. cbn [outcome_of effects].
      rewrite effects_bind, outcome_bind, Heq, Hinit. cbn [outcome_of effects].
      by rewrite Hepi. }
  unfold init_effects in *.
  destruct (main_prologue_cases o w) as [[Hout Hpro]|[Hout [Hpro|(epd & _ & Hpro)]]].
  - apply (Hrun [] (opt_width o, opt_height o)); [constructor| |done].
    by rewrite decide_False.
  - left. rewrite Hpro. eexists _, _. split; [reflexivity|constructor].
  - apply (Hrun [EpdInit] epd); [| |done].
    + constructor; [by left|constructor].
    + by rewrite decide_True.
Qed.

Lemma epilogue_effects o (drawn : option Frame) :
  effects (main_epilogue o drawn)
  = match drawn with
    | None => []
    | Some f =>
      if decide (opt_output o = ""%string)
      then (if opt_noclear o then [] else [EpdClear]) ++ [EpdDisplay f; EpdSleep]
      else [SaveImages (opt_output o) f]
    end.
Proof.
  destruct drawn as [f|]; [|done]. unfold main_epilogue.
  case_decide; [|done]. by destruct (opt_noclear o).
Qed.

(** X8. A run with [--output] never touches the e-paper device, and a
    run without it never saves image files. *)
Theorem main_output_mode o w :
  (opt_output o ≠ ""%string → Forall (λ e, ¬ is_epd e) (effects (main fmt_temp o w)))
  ∧ (opt_output o = ""%string → Forall (λ e, ¬ is_save e) (effects (main fmt_temp o w))).
Proof.
  assert (Hq : ∀ effs, Forall (quiet o) effs →
            (opt_output o ≠ ""%string → Forall (λ e, ¬ is_epd e) effs)
            ∧ (opt_output o = ""%string → Forall (λ e, ¬ is_save e) effs)).
  { intros effs Hq. split; intros Hout; (eapply Forall_impl; [exact Hq|]);
      intros e He; destruct e; cbn; unfold quiet, is_dump in He;
      intros Hbad; destruct He as [[? ?]|[?|?]]; done. }
  assert (Hi : (opt_output o ≠ ""%string → Forall (λ e, ¬ is_epd e) (init_effects o))
               ∧ (opt_output o = ""%string → Forall (λ e, ¬ is_save e) (init_effects o))).
  { unfold init_effects. split; intros Hout; case_decide; try done;
      repeat constructor; cbn; tauto. }
  assert (Hd : ∀ days now,
            Forall (λ e, ¬ is_epd e) (dump_effects o days now)
            ∧ Forall (λ e, ¬ is_save e) (dump_effects o days now)).
  { intros days now. unfold dump_effects.
    destruct (opt_cache o); split; repeat constructor; cbn; tauto. }
  assert (He : ∀ drawn,
            (opt_output o ≠ ""%string →
             Forall (λ e, ¬ is_epd e) (effects (main_epilogue o drawn)))
            ∧ (opt_output o = ""%string →
               Forall (λ e, ¬ is_save e) (effects (main_epilogue o drawn)))).
  { intros drawn. rewrite epilogue_effects.
    destruct drawn as [f|]; [|split; constructor].
    split; intros Hout; case_decide; try done.
    - repeat constructor. cbn. tauto.
    - destruct (opt_noclear o); repeat constructor; cbn; tauto. }
  destruct (main_cases o w)
    as [(s & effs & -> & Hqe)|[[_ (f & _ & ->)]|[_ (evs & drawn & _ & -> & _)]]];
    cbn [effects].
  - by apply Hq.
  - split; intros Hout; apply Forall_app; split;
      first [by apply Hi | by apply He].
  - split; intros Hout; repeat (apply Forall_app; split);
      first [by apply Hi | by apply Hd | by apply He].
Qed.

(** X9. When a frame is sent to the display, the run has no [--output];
    its effects are the start of the device, at most the rewriting of the
    cache, the clearing of the display unless [--noclear], the frame and
    then the sleep of the device, in this order; and it ends with status
    0. *)
Theorem main_display_protocol o w (f : Frame) :
  EpdDisplay f ∈ effects (main fmt_temp o w) →
  opt_output o = ""%string
  ∧ exit_status (main fmt_temp o w) = 0
  ∧ ∃ dumps,
      Forall is_dump dumps
      ∧ effects (main fmt_temp o w)
        = EpdInit :: dumps
          ++ (if opt_noclear o then [] else [EpdClear])
          ++ [EpdDisplay f; EpdSleep].
Proof.
  intros Hin.
  assert (Hepi : ∀ drawn, EpdDisplay f ∈ effects (main_epilogue o drawn) →
            opt_output o = ""%string ∧ drawn = Some f).
  { intros drawn. rewrite epilogue_effects. destruct drawn as [f'|]; [|by intros ?%elem_of_nil].
    case_decide as Hout.
    - intros [Hc|Hd]%elem_of_app.
      + destruct (opt_noclear o); [by apply elem_of_nil in Hc|].
        by apply list_elem_of_singleton in Hc.
      + apply elem_of_cons in Hd as [[= ->]|Hd]; [done|].
        by apply list_elem_of_singleton in Hd.
    - by intros ?%list_elem_of_singleton. }
  assert (Hinit : EpdDisplay f ∉ init_effects o).
  { unfold init_effects. case_decide; [|by intros ?%elem_of_nil].
    by intros ?%list_elem_of_singleton. }
  destruct (main_cases o w)
    as [(s & effs & Heq & Hq)|[[_ (f' & _ & Heq)]|[_ (evs & drawn & _ & Heq & _)]]];
    rewrite Heq in Hin |- *; cbn [effects] in Hin |- *.
  - rewrite Forall_forall in Hq. destruct (Hq _ Hin) as [[? _]|[?|?]]; done.
  - apply elem_of_app in Hin as [Hin|Hin]; [done|].
    destruct (Hepi _ Hin) as [Hout [= ->]].
    split; [done|]. split; [done|]. exists [].
    split; [constructor|].
    rewrite epilogue_effects. unfold init_effects. by rewrite !decide_True.
  - apply elem_of_app in Hin as [Hin|Hin]; [done|].
    apply elem_of_app in Hin as [Hin|Hin].
    { unfold dump_effects in Hin. destruct (opt_cache o).
      - by apply list_elem_of_singleton in Hin.
      - by apply elem_of_nil in Hin. }
    destruct (Hepi _ Hin) as [Hout ->].
    split; [done|]. split; [done|].
    exists (dump_effects o (eventsToDays (clock w) evs (opt_days o)) (clock w)).
    split.
    + unfold dump_effects. destruct (opt_cache o); repeat constructor.
    + rewrite epilogue_effects. unfold init_effects. by rewrite !decide_True.
Qed.

End Runs.

Lemma main_output_mode_witness :
  Forall (λ e, ¬ is_epd e) (effects (main pretty options_cached (world_at noon None))).
Proof.
  apply (main_output_mode pretty options_cached (world_at noon None)).
  discriminate.
Defined.

Lemma main_display_protocol_witness :
  effects (main pretty options_epd (world_at noon None))
  = [EpdInit; EpdClear; EpdDisplay (frame_at noon); EpdSleep].
Proof.
  destruct (main_display_protocol pretty options_epd (world_at noon None) (frame_at noon))
    as (_ & _ & dumps & Hd & Heq).
  - assert (H : effects (main pretty options_epd (world_at noon None))
                = [EpdInit; EpdClear; EpdDisplay (frame_at noon); EpdSleep])
      by (vm_compute; reflexivity).
    rewrite H. rewrite !elem_of_cons. tauto.
  - vm_compute. reflexivity.
Defined.

(** ** The cache across runs *)

Lemma cache_after_app (l1 l2 : list effect) (before : cache_state) :
  cache_after (l1 ++ l2) before = cache_after l2 (cache_after l1 before).
Proof.
  revert before. induction l1 as [|e l1 IH]; intros before; [done|].
  destruct e; cbn; apply IH.
Qed.

Lemma cache_after_no_dump (l : list effect) (before : cache_state) :
  Forall (λ e, ¬ is_dump e) l → cache_after l before = before.
Proof.
  induction 1 as [|e l He Hl IH]; [done|].
  destruct e; cbn in *; tauto.
Qed.

Section CacheRuns.

Context {temperature : Type} (fmt_temp : temperature → string).
Implicit Types (o : Options) (w : World (temperature := temperature)).

Lemma init_effects_no_dump o : Forall (λ e, ¬ is_dump e) (init_effects o).
Proof. unfold init_effects. case_decide; repeat constructor. cbn. tauto. Qed.

Lemma epilogue_no_dump o (drawn : option Frame) :
  Forall (λ e, ¬ is_dump e) (effects (main_epilogue o drawn)).
Proof.
  rewrite epilogue_effects. destruct drawn as [f|]; [|constructor].
  case_decide; [destruct (opt_noclear o)|]; repeat constructor; cbn; tauto.
Qed.

Lemma shows_frame_quiet o (effs : list effect) :
  Forall (quiet o) effs → Forall (λ e, ¬ shows_frame e) effs.
Proof.
  intros Hq. eapply Forall_impl; [exact Hq|].
  intros e He Hs. destruct e; cbn in Hs; try done;
    destruct He as [[? _]|[?|?]]; done.
Qed.

(** X10. A run that reads the calendar with [--cache] and does not end
    early leaves in the cache file the days it has just computed and the
    current time, whether or not the cache was fresh and whatever the
    file held before. *)
Theorem main_rewrites_cache o w (c : string) :
  opt_input o = ""%string →
  opt_cache o = Some c →
  outcome_of (main fmt_temp o w) = Return tt →
  ∃ evs,
    fetched_events w = Ok evs
    ∧ DumpCache c (eventsToDays (clock w) evs (opt_days o)) (clock w)
      ∈ effects (main fmt_temp o w)
    ∧ cache_after (effects (main fmt_temp o w)) (cache_file w)
      = Some (Ok (eventsToDays (clock w) evs (opt_days o), clock w)).
Proof.
  intros Hin Hc Hret.
  destruct (main_cases fmt_temp o w)
    as [(s & effs & Heq & _)|[[Hni _]|[_ (evs & drawn & Hev & Heq & _)]]];
    [by rewrite Heq in Hret|done|].
  exists evs. split; [done|]. rewrite Heq. cbn [effects].
  unfold dump_effects. rewrite Hc. split.
  - apply elem_of_app. right. apply elem_of_app. left.
    by apply list_elem_of_singleton.
  - rewrite !cache_after_app.
    rewrite (cache_after_no_dump (init_effects o)) by apply init_effects_no_dump.
    cbn [cache_after].
    by rewrite cache_after_no_dump by apply epilogue_no_dump.
Qed.

(** X11. A run that reads the calendar and finds the cache fresh shows
    no frame, neither on the display nor in files. *)
Theorem main_cache_hit_shows_nothing o w (evs : list Event) :
  opt_input o = ""%string →
  is_Some (opt_cache o) →
  fetched_events w = Ok evs →
  cache_is_fresh (cache_file w) (eventsToDays (clock w) evs (opt_days o))
    (opt_cachehours o) (clock w) = true →
  Forall (λ e, ¬ shows_frame e) (effects (main fmt_temp o w)).
Proof.
  intros Hin Hc Hev Hfresh.
  destruct (main_cases fmt_temp o w)
    as [(s & effs & Heq & Hq)|[[Hni _]|[_ (evs' & drawn & Hev' & Heq & Hd)]]];
    [|done|]; rewrite Heq; cbn [effects].
  - by eapply shows_frame_quiet.
  - rewrite Hev in Hev'. injection Hev' as <-.
    assert (drawn = None) as -> by (by apply Hd).
    cbn. rewrite app_nil_r. apply Forall_app. split.
    + unfold init_effects. case_decide; repeat constructor. cbn. tauto.
    + unfold dump_effects. destruct (opt_cache o); repeat constructor. cbn. tauto.
Qed.

(** X12. The time to live starts again at every run.  When a run with
    [--cache] has read the calendar and returned, and its time plus
    [cachehours] is a time that a [datetime] can hold, a following run
    that computes the same days before that time shows no frame, whether
    the first run drew one or was itself a cache hit. *)
Theorem main_ttl_rearmed o w1 w2 (c : string) (evs2 : list Event) :
  opt_input o = ""%string →
  opt_cache o = Some c →
  outcome_of (main fmt_temp o w1) = Return tt →
  cache_file w2 = cache_after (effects (main fmt_temp o w1)) (cache_file w1) →
  fetched_events w2 = Ok evs2 →
  (∀ evs1, fetched_events w1 = Ok evs1 →
     eventsToDays (clock w2) evs2 (opt_days o)
     = eventsToDays (clock w1) evs1 (opt_days o)) →
  expiry_defined (clock w1) (opt_cachehours o) →
  clock w2 < clock w1 + opt_cachehours o * Py.usec_per_hour →
  Forall (λ e, ¬ shows_frame e) (effects (main fmt_temp o w2)).
Proof.
  intros Hin Hc Hret Hfile Hev2 Hdays Hexp Hlt.
  assert (Hstored : ∃ evs1, fetched_events w1 = Ok evs1
            ∧ cache_file w2
              = Some (Ok (eventsToDays (clock w1) evs1 (opt_days o), clock w1))).
  { destruct (main_cases fmt_temp o w1)
      as [(s & effs & Heq & _)|[[Hni _]|[_ (evs & drawn & Hev & Heq & _)]]];
      [by rewrite Heq in Hret|done|].
    exists evs. split; [done|]. rewrite Hfile, Heq. cbn [effects].
    unfold dump_effects. rewrite Hc. rewrite !cache_after_app.
    rewrite (cache_after_no_dump (init_effects o)) by apply init_effects_no_dump.
    cbn [cache_after].
    by rewrite cache_after_no_dump by apply epilogue_no_dump. }
  destruct Hstored as (evs1 & Hev1 & Hcf).
  assert (Hfresh : cache_is_fresh (cache_file w2) (eventsToDays (clock w2) evs2 (opt_days o))
                     (opt_cachehours o) (clock w2) = true).
  { rewrite Hcf, (Hdays evs1 Hev1). unfold cache_is_fresh.
    rewrite decide_True by done.
    rewrite (expiry_defined_eval _ _ Hexp).
    by apply bool_decide_eq_true. }
  destruct (main_cases fmt_temp o w2)
    as [(s & effs & Heq & Hq)|[[Hni _]|[_ (evs' & drawn & Hev' & Heq & Hd)]]];
    [|done|]; rewrite Heq; cbn [effects].
  - by eapply shows_frame_quiet.
  - rewrite Hev2 in Hev'. injection Hev' as <-.
    assert (drawn = None) as -> by (apply Hd; split; [by rewrite Hc|done]).
    cbn. rewrite app_nil_r. apply Forall_app. split.
    + unfold init_effects. case_decide; repeat constructor. cbn. tauto.
    + unfold dump_effects. destruct (opt_cache o); repeat constructor. cbn. tauto.
Qed.

(** X13. With [--input] and [--redinput] the run depends on the host
    only through the platform, the display and the two images: the
    calendar, the weather, the cache and the clock play no part. *)
Theorem main_input_mode o w w' :
  opt_input o ≠ ""%string →
  platform_system w = platform_system w' →
  waveshare_epd w = waveshare_epd w' →
  input_images w = input_images w' →
  main fmt_temp o w = main fmt_temp o w'
  ∧ Forall (λ e, is_epd e ∨ is_save e) (effects (main fmt_temp o w)).
Proof.
  intros Hin Hp He Hi.
  assert (Hbody : ∀ (w0 : World (temperature := temperature)) size,
            main_body fmt_temp o w0 size = Some <$> uncaught (input_images w0)).
  { intros w0 size. unfold main_body. by case_decide. }
  split.
  - assert (Hpro : main_prologue o w = main_prologue o w')
      by (unfold main_prologue; by rewrite Hp, He).
    rewrite !main_phases, Hpro. destruct (flags_mismatch o); [done|].
    apply proc_bind_ext. intros size. by rewrite !Hbody, Hi.
  - rewrite main_phases. destruct (flags_mismatch o); [constructor|].
    rewrite effects_bind. apply Forall_app. split.
    + destruct (main_prologue_cases o w) as [[_ ->]|[_ [->|(epd & _ & ->)]]];
        repeat constructor; cbn; tauto.
    + destruct (outcome_of (main_prologue o w)) as [size|s]; [|constructor].
      rewrite effects_bind, Hbody, effects_fmap, effects_uncaught. cbn [app].
      destruct (input_images w) as [f|e]; cbn; [|constructor].
      case_decide; [destruct (opt_noclear o)|]; repeat constructor; cbn; tauto.
Qed.

End CacheRuns.

(** A cache file that cannot be opened for writing ends the run with
    status 1, before a frame is drawn or shown. *)
Example unwritable_cache_is_fatal :
  main (temperature := Z) pretty options_cached
    (mkWorld noon "Linux" (Some (880, 528)) (Ok two_days) None
       (λ _ _ _, Raise KeyError) None false (Ok (mkFrame 880 528 [])))
  = Proc [] (Exited 1).
Proof. vm_compute. reflexivity. Qed.

Lemma main_rewrites_cache_witness :
  ∃ evs,
    fetched_events (world_at noon None) = Ok evs
    ∧ DumpCache "cache.pkl" (eventsToDays (clock (world_at noon None)) evs
                               (opt_days options_cached))
        (clock (world_at noon None))
      ∈ effects (main pretty options_cached (world_at noon None))
    ∧ cache_after (effects (main pretty options_cached (world_at noon None)))
        (cache_file (world_at noon None))
      = Some (Ok (eventsToDays (clock (world_at noon None)) evs
                    (opt_days options_cached),
                  clock (world_at noon None))).
Proof.
  apply (main_rewrites_cache pretty options_cached (world_at noon None) "cache.pkl").
  - reflexivity.
  - reflexivity.
  - vm_compute. reflexivity.
Defined.

Lemma main_cache_hit_shows_nothing_witness :
  Forall (λ e, ¬ shows_frame e)
    (effects (main pretty options_cached
                (world_at one_pm (Some (Ok (eventsToDays noon two_days 7, noon)))))).
Proof.
  apply (main_cache_hit_shows_nothing pretty options_cached
           (world_at one_pm (Some (Ok (eventsToDays noon two_days 7, noon))))
           two_days).
  - reflexivity.
  - by eexists.
  - reflexivity.
  - vm_compute. reflexivity.
Defined.

(** A run at noon draws and stores; the run at one o'clock finds the
    same days within the two hours and shows nothing. *)
Lemma main_ttl_rearmed_witness :
  Forall (λ e, ¬ shows_frame e)
    (effects (main pretty options_cached
                (world_at one_pm
                   (cache_after (effects (main pretty options_cached (world_at noon None)))
                      None)))).
Proof.
  apply (main_ttl_rearmed pretty options_cached (world_at noon None)
           (world_at one_pm
              (cache_after (effects (main pretty options_cached (world_at noon None)))
                 None))
           "cache.pkl" two_days).
  - reflexivity.
  - reflexivity.
  - vm_compute. reflexivity.
  - reflexivity.
  - reflexivity.
  - intros evs1 [= <-]. vm_compute. reflexivity.
  - vm_compute. repeat split; discriminate.
  - vm_compute. reflexivity.
Defined.

Lemma main_input_mode_witness :
  main pretty options_input (world_at noon None)
  = main pretty options_input
      (world_at one_pm (Some (Ok (eventsToDays noon two_days 7, noon)))).
Proof.
  apply (main_input_mode pretty options_input (world_at noon None)
           (world_at one_pm (Some (Ok (eventsToDays noon two_days 7, noon))))).
  - discriminate.
  - reflexivity.
  - reflexivity.
  - reflexivity.
Defined.

(** ** Choosing the calendars *)

Lemma split_comma_nonempty (s : string) : split_comma s ≠ [].
Proof.
  induction s as [|c s IH]; cbn; [done|].
  case_decide; [done|]. by destruct (split_comma s).
Qed.

Lemma split_comma_join (s : string) : join_comma (split_comma s) = s.
Proof.
  induction s as [|c s IH]; cbn [split_comma]; [done|].
  pose proof (split_comma_nonempty s) as Hne.
  case_decide as Hc.
  - subst c. destruct (split_comma s) as [|p ps]; [done|].
    change (join_comma (EmptyString :: p :: ps))
      with (String ","%char (join_comma (p :: ps))).
    by rewrite IH.
  - destruct (split_comma s) as [|p ps]; [done|].
    destruct ps as [|p' ps]; cbn in *; by rewrite <- IH.
Qed.

Lemma split_comma_free (s : string) : Forall comma_free (split_comma s).
Proof.
  induction s as [|c s IH]; cbn [split_comma]; [by repeat constructor|].
  case_decide as Hc; [by constructor|].
  destruct (split_comma s) as [|p ps]; [by repeat constructor|].
  apply Forall_cons in IH as [Hp Hps]. by constructor.
Qed.

Lemma matching_ids_spec (c : string) (items : list CalendarListEntry) (ids : list string) :
  matching_ids c items ids
  = ids ++ (cal_id <$> filter (λ data, cal_summary data = c) items).
Proof.
  revert ids. induction items as [|data items IH]; intros ids; cbn [matching_ids].
  - by rewrite app_nil_r.
  - case_decide as Hs.
    + rewrite IH, filter_cons_True by done. by rewrite <- app_assoc.
    + by rewrite IH, filter_cons_False.
Qed.

Lemma getIDs_loop_spec (items : list CalendarListEntry) (cals : list string)
    (ids : list string) :
  getIDs_loop items cals ids
  = ids ++ (cals ≫= λ c,
              if decide (c = "primary"%string) then ["primary"%string]
              else cal_id <$> filter (λ data, cal_summary data = c) items).
Proof.
  revert ids. induction cals as [|c cals IH]; intros ids; cbn [getIDs_loop].
  - by rewrite app_nil_r.
  - rewrite bind_cons. case_decide.
    + by rewrite IH, <- app_assoc.
    + by rewrite IH, matching_ids_spec, <- app_assoc.
Qed.

(** X14. When [getIDsFromNames] returns, its list holds, for the names
    between the commas in their order, "primary" for the name "primary"
    and otherwise the ids of the calendars of the account with that
    name, in the order of the account.  So an id is returned exactly
    when it is "primary" and was named, or belongs to a calendar whose
    name was given; a calendar named "primary" or with a comma in its
    name is never chosen by its name, and an unknown name adds nothing. *)
Theorem getIDsFromNames_selects (caldata_items : option (list CalendarListEntry))
    (names : string) (printall : bool) (ids : list string) :
  getIDsFromNames caldata_items names printall = Ok ids →
  ids = (split_comma names ≫= λ c,
           if decide (c = "primary"%string) then ["primary"%string]
           else cal_id <$> filter (λ data, cal_summary data = c)
                             (default [] caldata_items))
  ∧ (∀ id, id ∈ ids ↔
       (id = "primary"%string ∧ "primary"%string ∈ split_comma names)
       ∨ ∃ data, data ∈ default [] caldata_items
                 ∧ cal_id data = id
                 ∧ cal_summary data ∈ split_comma names
                 ∧ cal_summary data ≠ "primary"%string
                 ∧ comma_free (cal_summary data)).
Proof.
  unfold getIDsFromNames. intros H.
  apply result_bind_Ok in H as (? & _ & [= <-]).
  rewrite getIDs_loop_spec. cbn [app]. split; [done|].
  intros id. rewrite list_elem_of_bind. split.
  - intros (c & Hid & Hc). case_decide as Hp.
    + apply list_elem_of_singleton in Hid as ->. left. by subst c.
    + apply list_elem_of_fmap in Hid as (data & -> & Hd).
      apply list_elem_of_filter in Hd as [Hs Hd]. right.
      exists data. rewrite Hs. repeat split; try done.
      pose proof (split_comma_free names) as Hf.
      rewrite Forall_forall in Hf. by apply Hf.
  - intros [[-> Hp]|(data & Hd & <- & Hs & Hnp & _)].
    + exists "primary"%string. split; [|done]. rewrite decide_True by done.
      by apply list_elem_of_singleton.
    + exists (cal_summary data). split; [|done]. rewrite decide_False by done.
      apply list_elem_of_fmap. exists data. split; [done|].
      by apply list_elem_of_filter.
Qed.

Lemma getIDsFromNames_selects_witness :
  ["primary"; "id-work"; "id-work2"]%string
  = (split_comma "primary,Work,Nobody,Home, away" ≫= λ c,
       if decide (c = "primary"%string) then ["primary"%string]
       else cal_id <$> filter (λ data, cal_summary data = c)
                         (default [] (Some account))).
Proof.
  apply (getIDsFromNames_selects (Some account) "primary,Work,Nobody,Home, away" true).
  vm_compute. reflexivity.
Defined.

(** X15. [getIDsFromNames] fails exactly when it is asked to print the
    calendars of an account whose calendar list has no ['items']; the
    error is a [KeyError].  Without printing such an account gives only
    the "primary" ids. *)
Theorem getIDsFromNames_error (caldata_items : option (list CalendarListEntry))
    (names : string) (printall : bool) :
  (getIDsFromNames caldata_items names printall = Raise KeyError
   ↔ printall = true ∧ caldata_items = None)
  ∧ (∀ e, getIDsFromNames caldata_items names printall = Raise e → e = KeyError)
  ∧ (∀ ids, getIDsFromNames None names false = Ok ids →
            Forall (λ id, id = "primary"%string) ids).
Proof.
  unfold getIDsFromNames. split; [|split].
  - destruct printall, caldata_items as [items|]; cbn; split; try done.
    + by intros [_ ?].
    + by intros [? _].
    + by intros [? _].
  - intros e. destruct printall, caldata_items as [items|]; cbn;
      intros H; by simplify_eq.
  - intros ids. cbn. intros [= <-]. rewrite getIDs_loop_spec. cbn [app].
    apply Forall_forall. intros id (c & Hid & _)%list_elem_of_bind.
    case_decide.
    + by apply list_elem_of_singleton in Hid.
    + by apply elem_of_nil in Hid.
Qed.

(** The names are recovered from the pieces, and no piece has a comma. *)
Example split_comma_examples :
  split_comma "" = [""]%string
  ∧ split_comma "Main,,Work" = ["Main"; ""; "Work"]%string
  ∧ split_comma "," = [""; ""]%string.
Proof. repeat split. Qed.

(** ** Fetching the events *)

Lemma insert_by_start_perm (x : Item) (l : list Item) :
  insert_by_start x l ≡ₚ x :: l.
Proof.
  induction l as [|y l IH]; cbn; [done|].
  case_decide; [done|]. rewrite IH. apply Permutation_swap.
Qed.

Lemma insert_by_start_sorted (x : Item) (l : list Item) :
  StronglySorted (λ a b, start_key a ≤ start_key b) l →
  StronglySorted (λ a b, start_key a ≤ start_key b) (insert_by_start x l).
Proof.
  induction 1 as [|y l Hs IH Hy]; cbn; [by repeat constructor|].
  case_decide as Hlt.
  - constructor; [by constructor|]. constructor; [lia|].
    eapply Forall_impl; [exact Hy|]. intros z Hz. cbn in Hz. lia.
  - constructor; [done|].
    rewrite (insert_by_start_perm x l). constructor; [lia|done].
Qed.

Lemma insert_by_start_stable (t : Py.datetime) (x : Item) (l : list Item) :
  StronglySorted (λ a b, start_key a ≤ start_key b) l →
  filter (λ i, start_key i = t) (insert_by_start x l)
  = filter (λ i, start_key i = t) (l ++ [x]).
Proof.
  induction 1 as [|y l Hs IH Hy]; cbn [insert_by_start app]; [done|].
  case_decide as Hlt.
  - change (y :: l ++ [x]) with ((y :: l) ++ [x]). rewrite filter_app.
    destruct (decide (start_key x = t)) as [Hx|Hx].
    + assert (Hnone : filter (λ i, start_key i = t) (y :: l) = []).
      { apply filter_none. constructor; [lia|].
        eapply Forall_impl; [exact Hy|]. intros z Hz. cbn in Hz |- *. lia. }
      rewrite filter_cons_True by done.
      by rewrite Hnone, filter_cons_True.
    + rewrite filter_cons_False by done.
      by rewrite (filter_cons_False _ x), filter_nil, app_nil_r.
  - destruct (decide (start_key y = t)).
    + rewrite !filter_cons_True by done. by rewrite IH.
    + rewrite !filter_cons_False by done. by rewrite IH.
Qed.

Lemma sorted_by_start_key_snoc (rv : list Item) (x : Item) :
  sorted_by_start_key (rv ++ [x]) = insert_by_start x (sorted_by_start_key rv).
Proof. unfold sorted_by_start_key. by rewrite foldl_snoc. Qed.

Lemma sorted_by_start_key_spec (rv : list Item) :
  StronglySorted (λ a b, start_key a ≤ start_key b) (sorted_by_start_key rv)
  ∧ sorted_by_start_key rv ≡ₚ rv
  ∧ ∀ t, filter (λ i, start_key i = t) (sorted_by_start_key rv)
         = filter (λ i, start_key i = t) rv.
Proof.
  induction rv as [|x rv (Hs & Hp & Hst)] using rev_ind.
  - cbn. split; [constructor|]. done.
  - rewrite sorted_by_start_key_snoc. split; [|split].
    + by apply insert_by_start_sorted.
    + rewrite insert_by_start_perm, Hp. by rewrite Permutation_cons_append.
    + intros t. rewrite insert_by_start_stable by done.
      by rewrite !filter_app, Hst.
Qed.

Lemma traverse_inr {A B} (f : A → fetch_exn + B) (l : list A) (k : list B) :
  traverse f l = inr k ↔ Forall2 (λ x y, f x = inr y) l k.
Proof.
  revert k. induction l as [|x l IH]; intros k; cbn.
  - split; [intros [= <-]; constructor|by inv 1].
  - destruct (f x) as [e|y] eqn:Hx.
    + split; [done|]. inv 1. congruence.
    + destruct (traverse f l) as [e|ys].
      * split; [done|]. inv 1. by apply IH in H4.
      * split.
        -- intros [= <-]. constructor; [done|]. by apply IH.
        -- inv 1. apply IH in H4. congruence.
Qed.

Section GetEventsProperties.

Context (strptime_date strptime_datetime : string → option Py.datetime).

Lemma read_start_all (rv rv' : list Item) :
  traverse read_start rv = inr rv' ↔ rv' = rv ∧ Forall (λ i, is_Some (item_start i)) rv.
Proof.
  rewrite traverse_inr. split.
  - induction 1 as [|x y l k Hxy _ [-> IH]]; [done|].
    unfold read_start in Hxy. destruct (item_start x) eqn:Hx; [|done].
    injection Hxy as <-. split; [done|]. constructor; [by rewrite Hx|done].
  - intros [-> H]. induction H as [|x l [t Hx] _ IH]; constructor; [|done].
    unfold read_start. by rewrite Hx.
Qed.

(** X16. What [getEvents] returns is the list of the items made from the
    events of all answers, rearranged: every item has a start, the items
    are in ascending order of their starts, none is lost or added, and
    items with equal starts keep the order they were fetched in. *)
Theorem getEvents_sorted (responses : list (option (list ApiEvent)))
    (items : list Item) :
  getEvents strptime_date strptime_datetime responses = inr items →
  ∃ rv,
    traverse (to_item strptime_date strptime_datetime)
      (concat (default [] <$> responses)) = inr rv
    ∧ items ≡ₚ rv
    ∧ Forall (λ i, is_Some (item_start i)) items
    ∧ StronglySorted (λ a b, start_key a ≤ start_key b) items
    ∧ ∀ t, filter (λ i, item_start i = Some t) items
           = filter (λ i, item_start i = Some t) rv.
Proof.
  unfold getEvents. cbv zeta.
  destruct (traverse (to_item strptime_date strptime_datetime) _) as [e|rv]; [done|].
  destruct (traverse read_start rv) as [e|rv'] eqn:Hkeys; [done|].
  apply read_start_all in Hkeys as [-> Hall].
  intros [= <-]. exists rv.
  destruct (sorted_by_start_key_spec rv) as (Hs & Hp & Hst).
  split; [done|]. split; [done|]. split; [by rewrite Hp|]. split; [done|].
  intros t.
  assert (Hkey : ∀ l, Forall (λ i, is_Some (item_start i)) l →
            filter (λ i, item_start i = Some t) l = filter (λ i, start_key i = t) l).
  { intros l Hl. induction Hl as [|i l [t' Hi] _ IH]; [done|].
    unfold start_key in *.
    destruct (decide (t' = t)) as [->|Hne].
    - rewrite !filter_cons_True by (by rewrite Hi). by rewrite IH.
    - rewrite !filter_cons_False by (rewrite Hi; cbn; congruence). done. }
  rewrite !Hkey by (done || by rewrite Hp). apply Hst.
Qed.

(** X17. The items that [getEvents] returns, when each has an end, are
    events sorted by start: the input that the aggregator expects. *)
Theorem getEvents_feeds_aggregator (responses : list (option (list ApiEvent)))
    (items : list Item) (evs : list Event) :
  getEvents strptime_date strptime_datetime responses = inr items →
  mapM item_event items = Some evs →
  sorted_by_start evs ∧ length evs = length items.
Proof.
  unfold getEvents. cbv zeta.
  destruct (traverse (to_item strptime_date strptime_datetime) _) as [e|rv]; [done|].
  destruct (traverse read_start rv) as [e|rv'] eqn:Hkeys; [done|].
  apply read_start_all in Hkeys as [-> _].
  intros [= <-] Hm.
  destruct (sorted_by_start_key_spec rv) as (Hs & _ & _).
  apply mapM_Some in Hm. split; [|symmetry; by eapply Forall2_length].
  unfold sorted_by_start.
  remember (sorted_by_start_key rv) as l eqn:Hl. clear Hl.
  revert Hs. induction Hm as [|i ev l0 evs0 Hi Hm IH]; intros Hs; [constructor|].
  apply StronglySorted_cons in Hs as [Hle Hs].
  constructor; [by apply IH|].
  clear IH Hs. induction Hm as [|i' ev' l1 evs1 Hi' Hm IH]; [constructor|].
  apply Forall_cons in Hle as [Hle Hrest]. constructor; [|by apply IH].
  unfold item_event, start_key in *.
  destruct (item_start i), (item_end i), (item_start i'), (item_end i');
    simplify_eq/=. done.
Qed.

End GetEventsProperties.

Section GetEventsErrors.

Context (strptime_date strptime_datetime : string → option Py.datetime).

Lemma read_endpoint_inr (se : string) (value : option EventDateTime) :
  (∃ r, read_endpoint strptime_date strptime_datetime se value = inr r)
  ↔ ∃ ed, value = Some ed ∧ endpoint_parses strptime_date strptime_datetime ed.
Proof.
  destruct value as [ed|]; cbn.
  2:{ split; [intros [r [=]]|intros (ed & [=] & _)]. }
  unfold endpoint_parses, parse_with. split.
  - intros [r Hr]. exists ed. split; [done|]. split.
    + intros txt Htxt. rewrite Htxt in Hr.
      destruct (strptime_date txt); [by eexists|done].
    + intros txt Htxt. rewrite Htxt in Hr.
      destruct (ed_date ed) as [d|]; [destruct (strptime_date d); [|done]|];
        (destruct (strptime_datetime (substring 0 19 txt)); [by eexists|done]).
  - intros (ed' & [= <-] & H1 & H2).
    destruct (ed_date ed) as [d|].
    + destruct (H1 d eq_refl) as [x ->].
      destruct (ed_dateTime ed) as [dt|]; [|by eexists].
      destruct (H2 dt eq_refl) as [y ->]. by eexists.
    + destruct (ed_dateTime ed) as [dt|]; [|by eexists].
      destruct (H2 dt eq_refl) as [y ->]. by eexists.
Qed.

Lemma read_endpoint_some (se : string) (ed : EventDateTime) (r : option Py.datetime) :
  read_endpoint strptime_date strptime_datetime se (Some ed) = inr r →
  (is_Some r ↔ is_Some (ed_date ed) ∨ is_Some (ed_dateTime ed)).
Proof.
  unfold read_endpoint, parse_with.
  destruct (ed_date ed) as [d|], (ed_dateTime ed) as [dt|].
  - destruct (strptime_date d); [|done].
    destruct (strptime_datetime (substring 0 19 dt)); [|done].
    intros [= <-]. split; eauto.
  - destruct (strptime_date d); [|done]. intros [= <-]. split; eauto.
  - destruct (strptime_datetime (substring 0 19 dt)); [|done].
    intros [= <-]. split; eauto.
  - intros [= <-]. split; [by intros [? [=]]|]. by intros [[? [=]]|[? [=]]].
Qed.

Lemma to_item_readable (e : ApiEvent) :
  (∃ i, to_item strptime_date strptime_datetime e = inr i ∧ is_Some (item_start i))
  ↔ event_readable strptime_date strptime_datetime e.
Proof.
  unfold to_item, event_readable. split.
  - intros (i & Hi & Hs).
    destruct (read_endpoint _ _ "start" (api_start e)) as [?|rs] eqn:Hrs; [done|].
    destruct (read_endpoint _ _ "end" (api_end e)) as [?|re] eqn:Hre; [done|].
    injection Hi as <-. cbn in Hs.
    destruct (proj1 (read_endpoint_inr "start" (api_start e))) as (s & Hs1 & Hs2);
      [by eexists|].
    destruct (proj1 (read_endpoint_inr "end" (api_end e))) as (en & He1 & He2);
      [by eexists|].
    exists s, en. split; [done|]. split; [done|]. split; [done|]. split; [done|].
    rewrite Hs1 in Hrs. by apply (read_endpoint_some _ _ _ Hrs).
  - intros (s & en & Hs & He & Hps & Hpe & Hsome).
    destruct (proj2 (read_endpoint_inr "start" (api_start e))) as [rs Hrs];
      [by eexists|].
    destruct (proj2 (read_endpoint_inr "end" (api_end e))) as [re Hre];
      [by eexists|].
    rewrite Hrs, Hre. eexists. split; [done|]. cbn.
    rewrite Hs in Hrs. by apply (read_endpoint_some _ _ _ Hrs).
Qed.

(** X18. [getEvents] returns exactly when every event of every answer
    has a ['start'] and an ['end'], every date and dateTime given in them
    parses, and every start has a date or a dateTime; an answer without
    ['items'] adds no event, and an end with neither date nor dateTime
    is no error here. *)
Theorem getEvents_returns_iff (responses : list (option (list ApiEvent))) :
  (∃ items, getEvents strptime_date strptime_datetime responses = inr items)
  ↔ Forall (event_readable strptime_date strptime_datetime)
           (concat (default [] <$> responses)).
Proof.
  unfold getEvents. cbv zeta.
  generalize (concat (default [] <$> responses)). intros events.
  split.
  - intros [items H].
    destruct (traverse (to_item strptime_date strptime_datetime) events)
      as [e|rv] eqn:Hrv; [done|].
    destruct (traverse read_start rv) as [e|rv'] eqn:Hkeys; [done|].
    apply read_start_all in Hkeys as [-> Hall].
    apply traverse_inr in Hrv. clear H.
    induction Hrv as [|e i events rv Hi _ IH]; [constructor|].
    apply Forall_cons in Hall as [Hs Hall].
    constructor; [|by apply IH]. apply to_item_readable. eauto.
  - intros Hall.
    assert (Hrv : ∃ rv, traverse (to_item strptime_date strptime_datetime) events = inr rv
                       ∧ Forall (λ i, is_Some (item_start i)) rv).
    { induction Hall as [|e events He _ (rv & Hrv & Hst)].
      - exists []. split; [done|constructor].
      - apply to_item_readable in He as (i & Hi & Hs).
        exists (i :: rv). cbn. rewrite Hi, Hrv. split; [done|by constructor]. }
    destruct Hrv as (rv & -> & Hst).
    assert (Hk : traverse read_start rv = inr rv) by (by apply read_start_all).
    rewrite Hk. by eexists.
Qed.

End GetEventsErrors.

Lemma getEvents_sorted_witness :
  ∃ rv,
    traverse (to_item strptime_known strptime_known)
      (concat (default [] <$> answers)) = inr rv
    ∧ [ mkItem "Birthday" "" (Some (Py.at_time 739924 0 0 0))
          (Some (Py.at_time 739925 0 0 0));
        mkItem "No summary" "Room 1" (Some (Py.at_time 739924 9 30 0))
          (Some (Py.at_time 739924 9 30 0));
        mkItem "Trip" "" (Some (Py.at_time 739925 0 0 0))
          (Some (Py.at_time 739925 0 0 0)) ] ≡ₚ rv
    ∧ Forall (λ i, is_Some (item_start i))
        [ mkItem "Birthday" "" (Some (Py.at_time 739924 0 0 0))
            (Some (Py.at_time 739925 0 0 0));
          mkItem "No summary" "Room 1" (Some (Py.at_time 739924 9 30 0))
            (Some (Py.at_time 739924 9 30 0));
          mkItem "Trip" "" (Some (Py.at_time 739925 0 0 0))
            (Some (Py.at_time 739925 0 0 0)) ].
Proof.
  destruct (getEvents_sorted strptime_known strptime_known answers
              [ mkItem "Birthday" "" (Some (Py.at_time 739924 0 0 0))
                  (Some (Py.at_time 739925 0 0 0));
                mkItem "No summary" "Room 1" (Some (Py.at_time 739924 9 30 0))
                  (Some (Py.at_time 739924 9 30 0));
                mkItem "Trip" "" (Some (Py.at_time 739925 0 0 0))
                  (Some (Py.at_time 739925 0 0 0)) ])
    as (rv & H1 & H2 & H3 & _).
  - vm_compute. reflexivity.
  - exists rv. done.
Defined.

Lemma getEvents_feeds_aggregator_witness :
  sorted_by_start
    [ mkEvent "Birthday" "" (Py.at_time 739924 0 0 0) (Py.at_time 739925 0 0 0);
      mkEvent "No summary" "Room 1" (Py.at_time 739924 9 30 0) (Py.at_time 739924 9 30 0);
      mkEvent "Trip" "" (Py.at_time 739925 0 0 0) (Py.at_time 739925 0 0 0) ].
Proof.
  refine (proj1 (getEvents_feeds_aggregator strptime_known strptime_known answers
                   _ _ _ _)).
  - vm_compute. reflexivity.
  - vm_compute. reflexivity.
Defined.

(** ** The daily series of [datahub.py] *)

Section DatahubProperties.

Context {number : Type}.
Context (fromisoformat : string → option Py.datetime)
        (to_int : string → option Z) (to_float : string → option number).

Lemma fetch_daily_loop_spec (series : list DailyEntry)
    (results : list (DailyForecast number)) :
  fetch_daily_loop fromisoformat to_int to_float series results
  = match traverse (daily_forecast_of fromisoformat to_int to_float)
            (filter whole_day series) with
    | inl e => inl e
    | inr samples => inr (results ++ samples)
    end.
Proof.
  revert results. induction series as [|entry series IH]; intros results;
    cbn [fetch_daily_loop].
  - cbn. by rewrite app_nil_r.
  - destruct (de_daySignificantWeatherCode entry) as [code|] eqn:Hcode.
    + rewrite filter_cons_True by (unfold whole_day; by rewrite Hcode).
      cbn [traverse].
      destruct (daily_forecast_of fromisoformat to_int to_float entry) as [e|sample];
        [done|].
      rewrite IH.
      destruct (traverse _ (filter whole_day series)) as [e|samples]; [done|].
      by rewrite <- app_assoc.
    + rewrite filter_cons_False by (unfold whole_day; rewrite Hcode; by intros [? [=]]).
      apply IH.
Qed.

(** X19. [fetch_daily] looks only at the entries that have a day code:
    what it returns are the samples of these entries, one for each and in
    their order, so never more samples than entries; the entries of
    partial days are skipped without their other keys being read, and the
    result is the same as on the series without them. *)
Theorem fetch_daily_whole_days (series : list DailyEntry)
    (results : list (DailyForecast number)) :
  fetch_daily fromisoformat to_int to_float series = inr results →
  Forall2 (λ entry sample,
             daily_forecast_of fromisoformat to_int to_float entry = inr sample)
          (filter whole_day series) results
  ∧ (length results ≤ length series)%nat
  ∧ fetch_daily fromisoformat to_int to_float (filter whole_day series) = inr results.
Proof.
  unfold fetch_daily. rewrite !fetch_daily_loop_spec.
  rewrite (filter_all whole_day (filter whole_day series)).
  2:{ apply Forall_forall. by intros x [? _]%list_elem_of_filter. }
  destruct (traverse _ (filter whole_day series)) as [e|samples] eqn:Ht; [done|].
  intros [= <-]. cbn [app]. apply traverse_inr in Ht.
  split; [done|]. split; [|done].
  rewrite <- (Forall2_length _ _ _ Ht). apply length_filter.
Qed.

End DatahubProperties.

(** A partial first day without any temperature is skipped. *)
Lemma fetch_daily_whole_days_witness :
  fetch_daily toy_time toy_number toy_number
    (filter whole_day
       [ mkDailyEntry (Some "2026-11-04T00:00Z"%string) None None (Some "7"%string);
         mkDailyEntry (Some "2026-11-05T00:00Z"%string) (Some "7"%string)
           (Some "12.5"%string) (Some "3"%string) ])
  = inr [mkDailyForecast (Py.at_time 739925 0 0 0) 1 4 1].
Proof.
  apply (fetch_daily_whole_days toy_time toy_number toy_number
           [ mkDailyEntry (Some "2026-11-04T00:00Z"%string) None None (Some "7"%string);
             mkDailyEntry (Some "2026-11-05T00:00Z"%string) (Some "7"%string)
               (Some "12.5"%string) (Some "3"%string) ]).
  vm_compute. reflexivity.
Defined.

(** ** The width of the forecast strip *)

Section StripWidth.

Context {temperature : Type} (fmt_temp : temperature → string).

Lemma nearterm_layout_columns (lo hi xpos : Z) (shown : list Sample) (ops : list draw) :
  nearterm_layout fmt_temp xpos shown = Ok ops →
  lo ≤ xpos → xpos + 80 * Z.of_nat (length shown) ≤ hi + 80 →
  Forall (within_columns lo hi) ops ∧ length ops = (3 * length shown)%nat.
Proof.
  revert xpos ops. induction shown as [|x shown IH]; intros xpos ops H Hlo Hhi.
  - cbn in H. injection H as <-. by split.
  - cbn [nearterm_layout] in H.
    apply result_bind_Ok in H as (c & Hc & H).
    apply result_bind_Ok in H as (c' & Hc' & [= <-]).
    cbn [length] in Hhi.
    apply IH in Hc' as [Hall Hlen]; [|lia..].
    unfold nearterm_slot in Hc.
    apply result_bind_Ok in Hc as (g & _ & Hc).
    apply result_bind_Ok in Hc as (t & _ & [= <-]).
    split.
    + apply Forall_app. split; [|done].
      repeat constructor; cbn; lia.
    + rewrite length_app, Hlen. cbn [length]. lia.
Qed.

Lemma daily_loop_columns (lo hi xpos : Z) (daily : list Sample) (indices : list nat)
    (ops : list draw) :
  daily_loop fmt_temp daily indices xpos = Ok ops →
  lo ≤ xpos - 15 → xpos + 80 * Z.of_nat (length indices) + 15 ≤ hi + 80 →
  Forall (within_columns lo hi) ops ∧ length ops = (4 * length indices)%nat.
Proof.
  revert xpos ops. induction indices as [|i indices IH]; intros xpos ops H Hlo Hhi.
  - cbn in H. injection H as <-. by split.
  - cbn [daily_loop] in H.
    apply result_bind_Ok in H as (c & Hc & H).
    apply result_bind_Ok in H as (c' & Hc' & [= <-]).
    cbn [length] in Hhi.
    apply IH in Hc' as [Hall Hlen]; [|lia..].
    unfold daily_slot in Hc.
    apply result_bind_Ok in Hc as (d & _ & Hc).
    apply result_bind_Ok in Hc as (g & _ & Hc).
    apply result_bind_Ok in Hc as (tmax & _ & Hc).
    apply result_bind_Ok in Hc as (n & _ & Hc).
    apply result_bind_Ok in Hc as (tmin & _ & [= <-]).
    split.
    + apply Forall_app. split; [|done].
      repeat constructor; cbn; lia.
    + rewrite length_app, Hlen. cbn [length]. lia.
Qed.

(** X20. Whatever the two series hold, a forecast strip that is drawn
    consists of three calls for each near-term sample shown, the
    divider and the twelve calls of the three daily slots, and every one
    of them lies in the columns 29 to 825: the strip fits the default
    width of 880 also with all seven near-term slots. *)
Theorem forecast_strip_columns (now : Py.datetime) (height : Z)
    (weather : Weather * Weather) (strip : list draw) :
  forecast_strip fmt_temp now height weather = Ok strip →
  Forall (within_columns 29 825) strip
  ∧ length strip = (3 * length (shown_nearterm now weather.1) + 13)%nat.
Proof.
  unfold forecast_strip, shown_nearterm. rewrite nearterm_loop_seq, drop_0.
  set (shown := take 7 (filter (λ x, timestamp x > now) (data weather.1))).
  assert (Hshown : (length shown ≤ 7)%nat) by (unfold shown; rewrite length_take; lia).
  intros H.
  apply result_bind_Ok in H as ([slots xpos] & Hr & H).
  destruct (nearterm_layout fmt_temp 50 shown) as [ops|e] eqn:Hl; [|done].
  cbn in Hr. injection Hr as <- <-. cbn [fst snd] in H.
  apply result_bind_Ok in H as (divider & Hdiv & H).
  apply draw_rectangle_Ok in Hdiv as (_ & _ & ->).
  apply result_bind_Ok in H as (pairs & Hp & [= <-]).
  apply (nearterm_layout_columns 29 825) in Hl as [Hall Hlen]; [|lia..].
  apply (daily_loop_columns 29 825) in Hp as [Hall' Hlen']; [|cbn [length]; lia..].
  split.
  - apply Forall_app. split; [done|]. constructor; [|done]. cbn. lia.
  - rewrite length_app. cbn [length]. rewrite Hlen, Hlen'. cbn [length]. lia.
Qed.

End StripWidth.

(** With seven near-term samples shown the strip has 34 calls. *)
Lemma forecast_strip_columns_witness :
  ∃ strip,
    forecast_strip pretty noon 528 (forecast_with 7) = Ok strip
    ∧ Forall (within_columns 29 825) strip
    ∧ length strip = (3 * length (shown_nearterm noon (forecast_with 7).1) + 13)%nat.
Proof.
  eexists. split; [vm_compute; reflexivity|].
  apply (forecast_strip_columns pretty noon 528 (forecast_with 7)).
  vm_compute. reflexivity.
Defined.
